(** * Data acquisition core of the vendored LaunchDarkly Go server SDK

    A shallow embedding of
    - [internal/fdv2proto/selector.go] and [changeset.go],
    - [internal/datasourcev2/streaming_data_source.go] and
      [polling_data_source.go],
    - [ldcomponents] [DataSystemConfigurationBuilder.Build],
    followed by the properties of the data-system specification that these
    files decide.

    Conventions.  A Go method with a pointer receiver becomes a function that
    returns the updated receiver.  Calls on the injected collaborators
    ([DataDestination], [DataSourceStatusReporter], the event stream, the
    ready channel) are recorded, in program order, in a trace of [Action]s.
    Logger calls and the connection-timing telemetry
    ([logConnectionStarted], [logConnectionResult]) have no effect on any
    modelled value and are left out, as is the wall-clock [Time] field of
    [DataSourceErrorInfo]. *)

From Stdlib Require Import String Ascii List ZArith Bool Lia QArith.
From Stdlib Require Import DecimalString.
Import ListNotations.
Local Open Scope string_scope.
Local Open Scope list_scope.
Local Open Scope Z_scope.

Set Implicit Arguments.

(* ================================================================== *)
(** * Go errors *)

(** The values of Go's [error] interface that the modelled code creates or
    inspects by type assertion.  [Error] is the method [err.Error()]. *)
Inductive error : Type :=
| errorString (msg : string)                      (* errors.New, fmt.Errorf, any other error *)
| httpStatusError (Message : string) (Code : Z)   (* err.(httpStatusError) *)
| malformedJSONError (innerError : string)        (* err.(malformedJSONError) *)
| SubscriptionError (Code : Z) (Message : string) (* err.(es.SubscriptionError) *).

Definition Error (e : error) : string :=
  match e with
  | errorString msg => msg
  | httpStatusError msg _ => msg
  | malformedJSONError msg => msg
  | SubscriptionError _ msg => msg
  end.

(** A Go result pair [(T, error)] in which exactly one side is meaningful. *)
Inductive result (A : Type) : Type :=
| Ok (a : A)
| Err (e : error).
Arguments Ok {A} a.
Arguments Err {A} e.

(* ================================================================== *)
(** * Package fdv2proto *)

Module fdv2proto.

(** ** selector.go *)

Record Selector : Type := NewSelector { state : string; version : Z }.

Definition NoSelector : Selector := NewSelector "" 0.

Definition Selector_eqb (a b : Selector) : bool :=
  String.eqb (state a) (state b) && Z.eqb (version a) (version b).

(** [s != NoSelector()] *)
Definition IsDefined (s : Selector) : bool := negb (Selector_eqb s NoSelector).

Definition State (s : Selector) : string := state s.
Definition Version (s : Selector) : Z := version s.

(** What [encoding/json] puts in a [map[string]interface{}].  A [float64]
    is represented by the rational it denotes. *)
Inductive JSONValue : Type :=
| JString (s : string)
| JNumber (f : Q)
| JOther.

Definition RawObject : Type := string -> option JSONValue.

(** What Go leaves to the target: the width of [int] (32 or 64 bits), and
    the value that the conversion of a [float64] to [int] gives when the
    truncated number does not fit an [int] (the conversion succeeds, but
    its result is implementation-dependent). *)
Class Platform : Type :=
  { IntSize : Z;
    int_of_unrepresentable : Q -> Z }.

(** The integer part of [f]: [f] rounded toward zero. *)
Definition truncate (f : Q) : Z := Z.quot (Qnum f) (Zpos (Qden f)).

(** [z] is a value of the type [int]. *)
Definition fits_int {platform : Platform} (z : Z) : bool :=
  (- 2 ^ (IntSize - 1) <=? z) && (z <? 2 ^ (IntSize - 1)).

(** Go's [int(version)] on a [float64]: truncation toward zero when the
    result is an [int], and what the target makes of it otherwise. *)
Definition int_of_float64 {platform : Platform} (f : Q) : Z :=
  if fits_int (truncate f) then truncate f else int_of_unrepresentable f.

(** [Selector.UnmarshalJSON], given the decoder of [data] into the raw map. *)
Definition UnmarshalJSON {platform : Platform}
           (unmarshal_raw : string -> result RawObject)
           (data : string) : result Selector :=
  match unmarshal_raw data with
  | Err err => Err err
  | Ok raw =>
      match raw "state" with
      | Some (JString st) =>
          match raw "version" with
          | Some (JNumber v) => Ok (NewSelector st (int_of_float64 v))
          | _ => Err (errorString "unmarshal selector: missing version field")
          end
      | _ => Err (errorString "unmarshal selector: missing state field")
      end
  end.

(** ** Protocol declarations used by changeset.go *)

(** Modelled from the spec: the intent code of an exchange, "no-change |
    full-transfer | incremental-transfer".  [IntentCode] is declared in a
    file that is not among the sources; since the code only ever compares a
    code with the three named constants, every other code the wire may
    carry is covered by [IntentUnrecognized]. *)
Inductive IntentCode : Type :=
| IntentTransferFull
| IntentTransferChanges
| IntentNone
| IntentUnrecognized (code : string).

Definition ObjectKind : Type := string.

(** [json.RawMessage]: the bytes of an object body (empty when absent). *)
Definition RawMessage : Type := string.

(** Modelled from the spec: the server-intent announcement, "nested
    intent/code/reason".  Only [Payload.Code] is read by the sources. *)
Record ServerIntentPayload : Type :=
  { ID : string; Target : Z; Code : IntentCode; Reason : string }.

Record ServerIntent : Type := { Payload : ServerIntentPayload }.

(** ** changeset.go *)

Inductive ChangeType : Type := ChangeTypePut | ChangeTypeDelete.

Record Change : Type :=
  { Action : ChangeType;
    Kind : ObjectKind;
    Key : string;
    Version_ : Z;
    Object : RawMessage }.

Record ChangeSet : Type :=
  { intentCode : IntentCode;
    changes : list Change;
    selector : Selector }.

Definition ChangeSet_IntentCode (c : ChangeSet) : IntentCode := intentCode c.
Definition Changes (c : ChangeSet) : list Change := changes c.
Definition ChangeSet_Selector (c : ChangeSet) : Selector := selector c.

Record ChangeSetBuilder : Type :=
  { intent : option ServerIntent;       (* *ServerIntent, nil as None *)
    pending : list Change               (* the field [changes] *) }.

Definition NewChangeSetBuilder : ChangeSetBuilder :=
  {| intent := None; pending := [] |}.

Definition NoChanges (c : ChangeSetBuilder) : ChangeSet :=
  {| intentCode := IntentNone; selector := NoSelector; changes := [] |}.

(** [Start] stores a copy of the intent, drops the pending changes and
    returns a nil error. *)
Definition Start (c : ChangeSetBuilder) (i : ServerIntent)
  : option error * ChangeSetBuilder :=
  (None, {| intent := Some i; pending := [] |}).

Definition IntentCode_is_full (c : IntentCode) : bool :=
  match c with IntentTransferFull => true | _ => false end.

Definition Finish (c : ChangeSetBuilder) (sel : Selector)
  : result ChangeSet * ChangeSetBuilder :=
  match intent c with
  | None =>
      (Err (errorString "changeset: cannot complete without a server-intent"), c)
  | Some i =>
      let cs := {| intentCode := Code (Payload i);
                   selector := sel;
                   changes := pending c |} in
      let i' :=
        if IntentCode_is_full (Code (Payload i))
        then {| Payload := {| ID := ID (Payload i);
                              Target := Target (Payload i);
                              Code := IntentTransferChanges;
                              Reason := Reason (Payload i) |} |}
        else i in
      (Ok cs, {| intent := Some i'; pending := [] |})
  end.

Definition AddPut (c : ChangeSetBuilder) (kind : ObjectKind) (key : string)
           (ver : Z) (object : RawMessage) : ChangeSetBuilder :=
  {| intent := intent c;
     pending := pending c ++
                [ {| Action := ChangeTypePut; Kind := kind; Key := key;
                     Version_ := ver; Object := object |} ] |}.

Definition AddDelete (c : ChangeSetBuilder) (kind : ObjectKind) (key : string)
           (ver : Z) : ChangeSetBuilder :=
  {| intent := intent c;
     pending := pending c ++
                [ {| Action := ChangeTypeDelete; Kind := kind; Key := key;
                     Version_ := ver; Object := "" |} ] |}.

(** ** Stream events *)

(** Modelled from the spec: the event type tokens "heartbeat,
    server-intent, put-object, delete-object, goodbye, error,
    payload-transferred", declared in a file that is not among the
    sources.  [EventName(event.Event())] is one of the seven constants or
    some other name. *)
Inductive EventName : Type :=
| EventHeartbeat
| EventServerIntent
| EventPutObject
| EventDeleteObject
| EventGoodbye
| EventError
| EventPayloadTransferred
| EventUnrecognized (name : string).

(** Modelled from the spec: the bodies of the events, "put/delete-object:
    kind/key/version/[object]"; the fields are those the stream consumer
    reads after decoding. *)
Module PutObject.
Record t : Type :=
  { Version : Z; Kind : ObjectKind; Key : string; Object : RawMessage }.
End PutObject.

Module DeleteObject.
Record t : Type := { Version : Z; Kind : ObjectKind; Key : string }.
End DeleteObject.

Module Goodbye.
Record t : Type := { Reason : string; Silent : bool; Catastrophe : bool }.
End Goodbye.

Module ErrorEvent.
Record t : Type := { PayloadID : string; Reason : string }.
End ErrorEvent.

End fdv2proto.

(* ================================================================== *)
(** * Package subsystems *)

Module subsystems.

(** Modelled from the spec: the store access mode, "read-only |
    read-write"; its declaration is not among the sources. *)
Inductive DataStoreMode : Type := DataStoreModeRead | DataStoreModeReadWrite.

(** Modelled from the spec: "Basis: the snapshot returned by an
    initializer, a ChangeSet plus a persistence flag"; the fields are the
    ones [PollingProcessor.Fetch] fills in. *)
Record Basis : Type :=
  { Events : list fdv2proto.Change;
    Selector : fdv2proto.Selector;
    Persist : bool }.

Section Configuration.
(** The implementations behind the three component interfaces.  A value
    of interface type is an [option]: [None] is Go's [nil]. *)
Variables DataStore DataInitializer DataSynchronizer : Type.

Record SynchronizersConfiguration : Type :=
  { Primary : option DataSynchronizer;
    Secondary : option DataSynchronizer }.

Record DataSystemConfiguration : Type :=
  { Store : option DataStore;
    StoreMode : DataStoreMode;
    Initializers : list (option DataInitializer);
    Synchronizers : SynchronizersConfiguration }.

(** The zero value [DataSystemConfiguration{}]. *)
Definition empty_DataSystemConfiguration : DataSystemConfiguration :=
  {| Store := None;
     StoreMode := DataStoreModeRead;
     Initializers := [];
     Synchronizers := {| Primary := None; Secondary := None |} |}.
End Configuration.

Arguments empty_DataSystemConfiguration {DataStore DataInitializer DataSynchronizer}.

End subsystems.

(* ================================================================== *)
(** * Package ldcomponents: DataSystemConfigurationBuilder *)

Module ldcomponents.
Import subsystems.

(** Which builder a call of [Build(context)] went to. *)
Inductive Slot : Type :=
| SlotStore
| SlotInitializer (i : nat)
| SlotPrimary
| SlotSecondary.

(** One call of a component builder: the slot and the error it returned,
    if any.  The log of these calls is a ghost of the model. *)
Record Invocation : Type := { slot : Slot; failure : option error }.

Section Build.
Variables ClientContext W : Type.
Variables DataStore DataInitializer DataSynchronizer : Type.

(** [ComponentConfigurer[T]]: the method [Build(context) (T, error)].
    A builder may act on its environment [W]. *)
Definition ComponentConfigurer (T : Type) : Type :=
  ClientContext -> W -> result T * W.

Record DataSystemConfigurationBuilder : Type :=
  { storeBuilder : option (ComponentConfigurer (option DataStore));
    storeMode : DataStoreMode;
    initializerBuilders : list (option (ComponentConfigurer (option DataInitializer)));
    primarySyncBuilder : option (ComponentConfigurer (option DataSynchronizer));
    secondarySyncBuilder : option (ComponentConfigurer (option DataSynchronizer));
    config : DataSystemConfiguration DataStore DataInitializer DataSynchronizer }.

Definition Custom : DataSystemConfigurationBuilder :=
  {| storeBuilder := None; storeMode := DataStoreModeRead;
     initializerBuilders := []; primarySyncBuilder := None;
     secondarySyncBuilder := None; config := empty_DataSystemConfiguration |}.

Definition DataStore_ (d : DataSystemConfigurationBuilder)
           (store : option (ComponentConfigurer (option DataStore)))
           (mode : DataStoreMode) : DataSystemConfigurationBuilder :=
  {| storeBuilder := store; storeMode := mode;
     initializerBuilders := initializerBuilders d;
     primarySyncBuilder := primarySyncBuilder d;
     secondarySyncBuilder := secondarySyncBuilder d; config := config d |}.

Definition Initializers_ (d : DataSystemConfigurationBuilder)
           (initializers : list (option (ComponentConfigurer (option DataInitializer))))
  : DataSystemConfigurationBuilder :=
  {| storeBuilder := storeBuilder d; storeMode := storeMode d;
     initializerBuilders := initializers;
     primarySyncBuilder := primarySyncBuilder d;
     secondarySyncBuilder := secondarySyncBuilder d; config := config d |}.

Definition Synchronizers_ (d : DataSystemConfigurationBuilder)
           (primary secondary : option (ComponentConfigurer (option DataSynchronizer)))
  : DataSystemConfigurationBuilder :=
  {| storeBuilder := storeBuilder d; storeMode := storeMode d;
     initializerBuilders := initializerBuilders d;
     primarySyncBuilder := primary;
     secondarySyncBuilder := secondary; config := config d |}.

(** The body of [Build] runs in a state-and-error monad: the state is
    the builders' environment together with the log of builder calls,
    and [return ss.DataSystemConfiguration{}, err] ends the run. *)
Definition BuildState : Type := (W * list Invocation)%type.
Definition BM (A : Type) : Type := BuildState -> result A * BuildState.

Definition bret {A} (a : A) : BM A := fun st => (Ok a, st).
Definition bfail {A} (e : error) : BM A := fun st => (Err e, st).
Definition bbind {A B} (m : BM A) (k : A -> BM B) : BM B :=
  fun st => match m st with
            | (Ok a, st') => k a st'
            | (Err e, st') => (Err e, st')
            end.

(** [x, err := b.Build(context); if err != nil { return {}, err }] *)
Definition invoke {T} (s : Slot) (b : ComponentConfigurer T)
           (context : ClientContext) : BM T :=
  fun st =>
    let '(r, w') := b context (fst st) in
    let f := match r with Ok _ => None | Err e => Some e end in
    (r, (w', snd st ++ [ {| slot := s; failure := f |} ])).

Definition decimal (i : nat) : string := NilEmpty.string_of_uint (Nat.to_uint i).

Definition Conf : Type := DataSystemConfiguration DataStore DataInitializer DataSynchronizer.

Definition with_Store (conf : Conf) (s : option DataStore) : Conf :=
  {| Store := s; StoreMode := StoreMode conf;
     Initializers := Initializers conf; Synchronizers := Synchronizers conf |}.
Definition append_Initializer (conf : Conf) (x : option DataInitializer) : Conf :=
  {| Store := Store conf; StoreMode := StoreMode conf;
     Initializers := Initializers conf ++ [x]; Synchronizers := Synchronizers conf |}.
Definition with_Primary (conf : Conf) (x : option DataSynchronizer) : Conf :=
  {| Store := Store conf; StoreMode := StoreMode conf;
     Initializers := Initializers conf;
     Synchronizers := {| Primary := x; Secondary := Secondary (Synchronizers conf) |} |}.
Definition with_Secondary (conf : Conf) (x : option DataSynchronizer) : Conf :=
  {| Store := Store conf; StoreMode := StoreMode conf;
     Initializers := Initializers conf;
     Synchronizers := {| Primary := Primary (Synchronizers conf); Secondary := x |} |}.

(** [for i, initializerBuilder := range d.initializerBuilders { ... }],
    entered at index [i]. *)
Fixpoint build_initializers
         (bs : list (option (ComponentConfigurer (option DataInitializer))))
         (i : nat) (context : ClientContext) (conf : Conf) : BM Conf :=
  match bs with
  | [] => bret conf
  | None :: _ =>
      bfail (errorString ("initializer " ++ decimal i ++ " is nil"))
  | Some initializerBuilder :: rest =>
      bbind (invoke (SlotInitializer i) initializerBuilder context)
            (fun initializer =>
               build_initializers rest (S i) context (append_Initializer conf initializer))
  end.

Definition is_nil {A} (o : option A) : bool :=
  match o with None => true | Some _ => false end.

(** [d.secondarySyncBuilder != nil && d.primarySyncBuilder == nil] *)
Definition secondary_without_primary (d : DataSystemConfigurationBuilder) : bool :=
  negb (is_nil (secondarySyncBuilder d)) && is_nil (primarySyncBuilder d).

Definition Build_body (d : DataSystemConfigurationBuilder) (context : ClientContext)
  : BM Conf :=
  let conf := config d in
  if secondary_without_primary d then
    bfail (errorString
             ("cannot have a secondary synchronizer without " ++ "a primary synchronizer"))
  else
    bbind (match storeBuilder d with
           | Some b => bbind (invoke SlotStore b context)
                             (fun store => bret (with_Store conf store))
           | None => bret conf
           end)
    (fun conf =>
    bbind (build_initializers (initializerBuilders d) 0 context conf)
    (fun conf =>
    bbind (match primarySyncBuilder d with
           | Some b => bbind (invoke SlotPrimary b context)
                             (fun primarySync => bret (with_Primary conf primarySync))
           | None => bret conf
           end)
    (fun conf =>
    bbind (match secondarySyncBuilder d with
           | Some b => bbind (invoke SlotSecondary b context)
                             (fun secondarySync => bret (with_Secondary conf secondarySync))
           | None => bret conf
           end)
    (fun conf => bret conf)))).

(** What [Build] hands back: the Go pair [(DataSystemConfiguration,
    error)], the builders' environment afterwards and the calls made. *)
Record BuildResult : Type :=
  { built : Conf;
    build_err : option error;
    world : W;
    calls : list Invocation }.

Definition Build (d : DataSystemConfigurationBuilder) (context : ClientContext)
           (w : W) : BuildResult :=
  match Build_body d context (w, []) with
  | (Ok conf, (w', log)) =>
      {| built := conf; build_err := None; world := w'; calls := log |}
  | (Err err, (w', log)) =>
      {| built := empty_DataSystemConfiguration; build_err := Some err;
         world := w'; calls := log |}
  end.

(** The builders that are configured, in the order the specification
    gives for their construction. *)
Definition schedule (d : DataSystemConfigurationBuilder) : list Slot :=
  (if is_nil (storeBuilder d) then [] else [SlotStore])
  ++ map SlotInitializer (seq 0 (length (initializerBuilders d)))
  ++ (if is_nil (primarySyncBuilder d) then [] else [SlotPrimary])
  ++ (if is_nil (secondarySyncBuilder d) then [] else [SlotSecondary]).

End Build.

(** ** DataSystemModes *)

Module Endpoints.
Record t : Type := { Streaming : string; Polling : string }.
End Endpoints.

Section Modes.
Variables ClientContext W : Type.
Variables DataStore DataInitializer DataSynchronizer : Type.

(** The builders that [StreamingDataSourceV2()] and [PollingDataSourceV2()]
    return, their [BaseURI] setters, their [Build] methods and
    [AsInitializer], and the two default base URIs, are declared in files of
    the package that are not among the sources. *)
Variables StreamingBuilder PollingBuilder : Type.
Variable StreamingDataSourceV2 : StreamingBuilder.
Variable PollingDataSourceV2 : PollingBuilder.
Variable Streaming_BaseURI : StreamingBuilder -> string -> StreamingBuilder.
Variable Polling_BaseURI : PollingBuilder -> string -> PollingBuilder.
Variable Streaming_Build :
  StreamingBuilder -> ComponentConfigurer ClientContext W (option DataSynchronizer).
Variable Polling_Build :
  PollingBuilder -> ComponentConfigurer ClientContext W (option DataSynchronizer).
Variable AsInitializer :
  PollingBuilder -> ComponentConfigurer ClientContext W (option DataInitializer).
Variables DefaultStreamingBaseURI DefaultPollingBaseURI : string.

Record DataSystemModes : Type := { endpoints : Endpoints.t }.

Definition configured_streaming (d : DataSystemModes) : StreamingBuilder :=
  let streaming := StreamingDataSourceV2 in
  if negb (String.eqb (Endpoints.Streaming (endpoints d)) "")
  then Streaming_BaseURI streaming (Endpoints.Streaming (endpoints d))
  else streaming.

Definition configured_polling (d : DataSystemModes) : PollingBuilder :=
  let polling := PollingDataSourceV2 in
  if negb (String.eqb (Endpoints.Polling (endpoints d)) "")
  then Polling_BaseURI polling (Endpoints.Polling (endpoints d))
  else polling.

Definition Default (d : DataSystemModes)
  : DataSystemConfigurationBuilder ClientContext W DataStore DataInitializer DataSynchronizer :=
  let streaming := configured_streaming d in
  let polling := configured_polling d in
  Synchronizers_
    (Initializers_ (Custom _ _ _ _ _) [Some (AsInitializer polling)])
    (Some (Streaming_Build streaming)) (Some (Polling_Build polling)).

Definition Streaming (d : DataSystemModes)
  : DataSystemConfigurationBuilder ClientContext W DataStore DataInitializer DataSynchronizer :=
  let streaming := configured_streaming d in
  Synchronizers_ (Custom _ _ _ _ _) (Some (Streaming_Build streaming)) None.

Definition Polling (d : DataSystemModes)
  : DataSystemConfigurationBuilder ClientContext W DataStore DataInitializer DataSynchronizer :=
  let polling := configured_polling d in
  Synchronizers_ (Custom _ _ _ _ _) (Some (Polling_Build polling)) None.

Definition Daemon (d : DataSystemModes)
           (store : option (ComponentConfigurer ClientContext W (option DataStore)))
  : DataSystemConfigurationBuilder ClientContext W DataStore DataInitializer DataSynchronizer :=
  DataStore_ (Custom _ _ _ _ _) store DataStoreModeRead.

Definition PersistentStore (d : DataSystemModes)
           (store : option (ComponentConfigurer ClientContext W (option DataStore)))
  : DataSystemConfigurationBuilder ClientContext W DataStore DataInitializer DataSynchronizer :=
  DataStore_ (Default d) store DataStoreModeReadWrite.

Definition WithEndpoints (d : DataSystemModes) (e : Endpoints.t) : DataSystemModes :=
  {| endpoints :=
       {| Endpoints.Streaming :=
            if negb (String.eqb (Endpoints.Streaming e) "")
            then Endpoints.Streaming e else Endpoints.Streaming (endpoints d);
          Endpoints.Polling :=
            if negb (String.eqb (Endpoints.Polling e) "")
            then Endpoints.Polling e else Endpoints.Polling (endpoints d) |} |}.

Definition WithRelayProxyEndpoints (d : DataSystemModes) (baseURI : string)
  : DataSystemModes :=
  WithEndpoints d {| Endpoints.Streaming := baseURI; Endpoints.Polling := baseURI |}.

Definition DataSystem : DataSystemModes :=
  {| endpoints := {| Endpoints.Streaming := DefaultStreamingBaseURI;
                     Endpoints.Polling := DefaultPollingBaseURI |} |}.

End Modes.

End ldcomponents.

(* ================================================================== *)
(** * The request that opens the stream: net/url and net/http *)

Module url.

(** [strings.Cut(s, sep)] for a one-byte separator: the text before the
    first [sep] and the text after it (empty when there is none). *)
Fixpoint Cut (sep : ascii) (s : string) : string * string :=
  match s with
  | EmptyString => (EmptyString, EmptyString)
  | String c r =>
      if Ascii.eqb c sep then (EmptyString, r)
      else let '(before, after) := Cut sep r in (String c before, after)
  end.

(** The part of a parsed URL that the stream request depends on: what
    stands before the query, [RawQuery] (without the question mark) and
    the fragment. *)
Record URL : Type :=
  { Location : string;
    RawQuery : string;
    Fragment : string }.

(** How [url.Parse] divides an accepted URL: the fragment is cut off at
    the first number sign, then the query at the first question mark. *)
Definition Parse (rawURL : string) : URL :=
  let '(u, frag) := Cut "#" rawURL in
  let '(rest, query) := Cut "?" u in
  {| Location := rest; RawQuery := query; Fragment := frag |}.

Definition with_RawQuery (u : URL) (q : string) : URL :=
  {| Location := Location u; RawQuery := q; Fragment := Fragment u |}.

Definition is_unreserved (c : ascii) : bool :=
  let n := N_of_ascii c in
  ((48 <=? n) && (n <=? 57) || (65 <=? n) && (n <=? 90)
   || (97 <=? n) && (n <=? 122)
   || (n =? 45) || (n =? 95) || (n =? 46) || (n =? 126))%N.

Definition upperhex : list ascii :=
  ["0"; "1"; "2"; "3"; "4"; "5"; "6"; "7"; "8"; "9";
   "A"; "B"; "C"; "D"; "E"; "F"]%char.

Definition hex_digit (n : N) : ascii := nth (N.to_nat n) upperhex "0"%char.

Definition escape_byte (c : ascii) : string :=
  if is_unreserved c then String c EmptyString
  else if Ascii.eqb c " " then "+"
  else let n := N_of_ascii c in
       String "%" (String (hex_digit (n / 16)) (String (hex_digit (n mod 16)) EmptyString)).

(** [url.QueryEscape] *)
Fixpoint QueryEscape (s : string) : string :=
  match s with
  | EmptyString => EmptyString
  | String c r => (escape_byte c ++ QueryEscape r)%string
  end.

(** [url.Values], listed by increasing key. *)
Definition Values : Type := list (string * list string).

(** [Values.Encode] *)
Definition Encode (v : Values) : string :=
  String.concat "&"
    (flat_map (fun kv => map (fun x => (QueryEscape (fst kv) ++ "=" ++ QueryEscape x)%string)
                             (snd kv)) v).

(** The components of a raw query, separated by ampersands. *)
Fixpoint components (raw : string) : list string :=
  match raw with
  | EmptyString => [EmptyString]
  | String c r =>
      if Ascii.eqb c "&" then EmptyString :: components r
      else match components r with
           | [] => [String c EmptyString]
           | h :: t => String c h :: t
           end
  end.

Definition ishex (c : ascii) : bool :=
  let n := N_of_ascii c in
  ((48 <=? n) && (n <=? 57) || (97 <=? n) && (n <=? 102)
   || (65 <=? n) && (n <=? 70))%N.

Definition unhex (c : ascii) : N :=
  let n := N_of_ascii c in
  if ((48 <=? n) && (n <=? 57))%N then n - 48
  else if ((97 <=? n) && (n <=? 102))%N then n - 97 + 10
  else if ((65 <=? n) && (n <=? 70))%N then n - 65 + 10
  else 0.

(** [url.QueryUnescape]: a percent sign with two hexadecimal digits gives
    the byte they denote, a plus sign gives a blank; a percent sign that is
    not followed by two hexadecimal digits is an error ([None]). *)
Fixpoint QueryUnescape (s : string) : option string :=
  match s with
  | EmptyString => Some EmptyString
  | String c r =>
      if Ascii.eqb c "%" then
        match r with
        | String a (String b r') =>
            if ishex a && ishex b then
              match QueryUnescape r' with
              | Some t => Some (String (ascii_of_N (unhex a * 16 + unhex b)) t)
              | None => None
              end
            else None
        | _ => None
        end
      else
        match QueryUnescape r with
        | Some t => Some (String (if Ascii.eqb c "+" then " "%char else c) t)
        | None => None
        end
  end.

Definition contains (x : ascii) (s : string) : bool :=
  existsb (Ascii.eqb x) (list_ascii_of_string s).

(** What [url.ParseQuery] makes of one component: nothing when it holds a
    semicolon, is empty, or has a key or a value that is not a valid
    escaping; otherwise the key before the first equals sign and the
    value after it, both unescaped. *)
Definition pair_of (component : string) : option (string * string) :=
  if contains ";" component then None
  else if String.eqb component "" then None
  else let '(key, value) := Cut "=" component in
       match QueryUnescape key with
       | Some key' =>
           match QueryUnescape value with
           | Some value' => Some (key', value')
           | None => None
           end
       | None => None
       end.

(** [url.ParseQuery], without the error it returns beside the values: the
    pairs of the components it accepts, in the order of the query. *)
Definition ParseQuery (raw : string) : list (string * string) :=
  flat_map (fun component => match pair_of component with
                             | Some kv => [kv]
                             | None => []
                             end)
           (components raw).

(** [Values.Has] and [Values.Get] on the parsed query: the first value of
    the parameter [key], if the query has it.  This is what a server that
    reads the parameter is given. *)
Definition Get (raw key : string) : option string :=
  match find (fun kv => String.eqb (fst kv) key) (ParseQuery raw) with
  | Some kv => Some (snd kv)
  | None => None
  end.

End url.

Module http.

Definition Header : Type := list (string * list string).

Record Request : Type :=
  { Method : string;
    URL : url.URL;
    Header_ : Header }.

Definition with_URL (r : Request) (u : url.URL) : Request :=
  {| Method := Method r; URL := u; Header_ := Header_ r |}.
Definition with_Header (r : Request) (h : Header) : Request :=
  {| Method := Method r; URL := URL r; Header_ := h |}.

End http.

(* ================================================================== *)
(** * Package interfaces: data source status *)

Module interfaces.

(** Modelled from the spec: "state in {off, interrupted, valid}". *)
Inductive DataSourceState : Type :=
| DataSourceStateValid
| DataSourceStateInterrupted
| DataSourceStateOff.

(** Modelled from the spec: "errorInfo carries a kind in {invalid-data,
    network-error, error-response (+status code), unknown}";
    [DataSourceErrorKindUnset] is the kind of the zero value
    [DataSourceErrorInfo{}]. *)
Inductive DataSourceErrorKind : Type :=
| DataSourceErrorKindUnset
| DataSourceErrorKindUnknown
| DataSourceErrorKindNetworkError
| DataSourceErrorKindErrorResponse
| DataSourceErrorKindInvalidData.

Record DataSourceErrorInfo : Type :=
  { Kind : DataSourceErrorKind;
    StatusCode : Z;
    Message : string }.

(** [interfaces.DataSourceErrorInfo{}] *)
Definition no_error : DataSourceErrorInfo :=
  {| Kind := DataSourceErrorKindUnset; StatusCode := 0; Message := "" |}.

End interfaces.

(* ================================================================== *)
(** * Package datasourcev2: effects *)

Module datasourcev2.
Import fdv2proto interfaces.

(** What a synchronizer does to its collaborators. *)
Inductive Action : Type :=
| UpdateStatus (st : DataSourceState) (info : DataSourceErrorInfo)
    (* statusReporter.UpdateStatus *)
| SetBasis (events : list Change) (sel : Selector) (persist : bool)
    (* dataDestination.SetBasis *)
| ApplyDelta (events : list Change) (sel : Selector) (persist : bool)
    (* dataDestination.ApplyDelta *)
| ReadyFired      (* close(closeWhenReady) took effect *)
| StreamRestart   (* stream.Restart() *)
| StreamClose     (* stream.Close() *).

(** A run of synchronizer code from a state [S]: it either completes with
    a value, a new state and the actions performed, or panics after the
    actions performed so far. *)
Inductive Outcome (S A : Type) : Type :=
| Done (a : A) (s : S) (tr : list Action)
| Panic (tr : list Action).
Arguments Done {S A} a s tr.
Arguments Panic {S A} tr.

Definition M (S A : Type) : Type := S -> Outcome S A.

Definition ret {S A} (a : A) : M S A := fun s => Done a s [].

Definition bind {S A B} (m : M S A) (k : A -> M S B) : M S B :=
  fun s =>
    match m s with
    | Done a s' tr =>
        match k a s' with
        | Done b s'' tr' => Done b s'' (tr ++ tr')
        | Panic tr' => Panic (tr ++ tr')
        end
    | Panic tr => Panic tr
    end.

Definition emit {S} (a : Action) : M S unit := fun s => Done tt s [a].
Definition get {S} : M S S := fun s => Done s s [].
Definition modify {S} (f : S -> S) : M S unit := fun s => Done tt (f s) [].
Definition panic {S A} : M S A := fun _ => Panic [].
Definition when {S} (b : bool) (m : M S unit) : M S unit :=
  if b then m else ret tt.

Declare Scope go_scope.
Delimit Scope go_scope with go.
Notation "x <- m ;; k" := (bind m (fun x => k))
  (at level 61, m at next level, right associativity) : go_scope.
Notation "m ;; k" := (bind m (fun _ => k))
  (at level 61, right associativity) : go_scope.
Local Open Scope go_scope.

(** The actions of a run, whether it completed or panicked. *)
Definition trace {S A} (o : Outcome S A) : list Action :=
  match o with Done _ _ tr => tr | Panic tr => tr end.

Definition is_ReadyFired (a : Action) : bool :=
  match a with ReadyFired => true | _ => false end.

(** How many times the ready channel was closed. *)
Definition firings (tr : list Action) : nat :=
  length (filter is_ReadyFired tr).

Definition status_updates (tr : list Action)
  : list (DataSourceState * DataSourceErrorInfo) :=
  flat_map (fun a => match a with UpdateStatus st info => [(st, info)] | _ => [] end) tr.

Definition destination_calls (tr : list Action) : list Action :=
  filter (fun a => match a with SetBasis _ _ _ | ApplyDelta _ _ _ => true | _ => false end) tr.

(** Whether the goroutine that runs a loop is still in it. *)
Inductive Loop (B : Type) : Type :=
| Waiting (b : B)     (* blocked in [select], with its local variables *)
| Returned.
Arguments Waiting {B} b.
Arguments Returned {B}.

(** [json.Unmarshal([]byte(data), &x)] for a target of type [T]. *)
Class Unmarshaler (T : Type) : Type := json_Unmarshal : string -> result T.

(** Declarations of the SDK and of the standard library that the two
    synchronizers call and that are not among the sources. *)
Class Environment : Type :=
  { (* endpoints.AddPath and endpoints.StreamingRequestPath *)
    AddPath : string -> string -> string;
    StreamingRequestPath : string;
    (* the error, if any, with which http.NewRequest rejects a URL *)
    NewRequest_error : string -> option error;
    (* the result of checkIfErrorIsRecoverableAndLog for a status code *)
    checkIfErrorIsRecoverableAndLog : Z -> bool }.

(** [http.NewRequest(method, url, nil)] *)
Definition NewRequest `{Environment} (method rawURL : string) : result http.Request :=
  match NewRequest_error rawURL with
  | Some err => Err err
  | None => Ok {| http.Method := method; http.URL := url.Parse rawURL; http.Header_ := [] |}
  end.

(** The three-way dispatch shared by the stream consumer and [poll]. *)
Definition dispatch {S} (changeSet : ChangeSet) : M S unit :=
  match ChangeSet_IntentCode changeSet with
  | IntentTransferFull =>
      emit (SetBasis (Changes changeSet) (ChangeSet_Selector changeSet) true)
  | IntentTransferChanges =>
      emit (ApplyDelta (Changes changeSet) (ChangeSet_Selector changeSet) true)
  | IntentNone => ret tt
  | IntentUnrecognized _ => ret tt
  end.

(** [once.Do(f)] for a [sync.Once] kept in the state as the flag [done]. *)
Definition Once_Do {S} (done : S -> bool) (set_done : S -> S) (f : M S unit)
  : M S unit :=
  s <- get ;;
  if done s then ret tt else (f ;; modify set_done).

(* ---------------------------------------------------------------- *)
(** ** streaming_data_source.go *)

Module StreamProcessor.

(** Modelled from the spec: the configuration of the stream, "retry
    delay" and "an optional filter query parameter" next to the base
    URI; the fields are those [subscribe] reads from [sp.cfg]. *)
Record StreamConfig : Type :=
  { URI : string;
    InitialReconnectDelay : Z;
    FilterKey : string }.

(** The fields of [StreamProcessor] that change or are consulted,
    together with the state of the channel handed to [Sync].  A channel
    is represented by whether it has been closed. *)
Record State : Type := mkState
  { cfg : StreamConfig;
    headers : option http.Header;
    isInitialized : bool;
    halt : bool;
    readyOnce : bool;
    closeOnce : bool;
    closeWhenReady : bool }.

Definition set_isInitialized (v : bool) (s : State) : State :=
  mkState (cfg s) (headers s) v (halt s) (readyOnce s) (closeOnce s) (closeWhenReady s).
Definition set_halt (v : bool) (s : State) : State :=
  mkState (cfg s) (headers s) (isInitialized s) v (readyOnce s) (closeOnce s) (closeWhenReady s).
Definition set_readyOnce (v : bool) (s : State) : State :=
  mkState (cfg s) (headers s) (isInitialized s) (halt s) v (closeOnce s) (closeWhenReady s).
Definition set_closeOnce (v : bool) (s : State) : State :=
  mkState (cfg s) (headers s) (isInitialized s) (halt s) (readyOnce s) v (closeWhenReady s).
Definition set_closeWhenReady (v : bool) (s : State) : State :=
  mkState (cfg s) (headers s) (isInitialized s) (halt s) (readyOnce s) (closeOnce s) v.

(** [NewStreamProcessor], with a ready channel that is still open. *)
Definition NewStreamProcessor (c : StreamConfig) (h : option http.Header) : State :=
  mkState c h false false false false false.

(** [es.Event]: the event name, converted to [fdv2proto.EventName], and
    the data. *)
Record Event : Type := { Name : EventName; Data : string }.

(** [Fetch] returns the Go pair [(nil, errors.New(...))]. *)
Definition Fetch {Context : Type} (_ : Context)
  : option subsystems.Basis * option error :=
  (None, Some (errorString "StreamProcessor does not implement Fetch capability")).

Definition IsInitialized (s : State) : bool := isInitialized s.

(** [close(closeWhenReady)]: closing a closed channel panics. *)
Definition close_closeWhenReady : M State unit :=
  s <- get ;;
  if closeWhenReady s then panic
  else (modify (set_closeWhenReady true) ;; emit ReadyFired).

Definition setInitializedAndNotifyClient (success : bool) : M State unit :=
  when success (modify (set_isInitialized true)) ;;
  Once_Do readyOnce (set_readyOnce true) close_closeWhenReady.

Definition Close : M State (option error) :=
  Once_Do closeOnce (set_closeOnce true)
          (s <- get ;;
           (if halt s then panic else modify (set_halt true)) ;;
           emit (UpdateStatus DataSourceStateOff no_error)) ;;
  ret None.

Section WithEnvironment.
Context {platform : Platform}.
Context {env : Environment}.
Context {U_raw : Unmarshaler RawObject}
        {U_intent : Unmarshaler ServerIntent}
        {U_put : Unmarshaler PutObject.t}
        {U_delete : Unmarshaler DeleteObject.t}
        {U_goodbye : Unmarshaler Goodbye.t}
        {U_error : Unmarshaler ErrorEvent.t}.

(** [json.Unmarshal] on a [Selector] goes through its
    [UnmarshalJSON] method. *)
#[local] Instance U_selector : Unmarshaler Selector :=
  UnmarshalJSON (json_Unmarshal (T := RawObject)).

(** The variables of one pass through the body of the [for] loop. *)
Record Iteration : Type :=
  { changeSetBuilder : ChangeSetBuilder;
    processedEvent : bool;
    shouldRestart : bool }.

Definition processed (b : ChangeSetBuilder) : Iteration :=
  {| changeSetBuilder := b; processedEvent := true; shouldRestart := false |}.

(** The closure [gotMalformedEvent]; every call of it is followed by
    [break]. *)
Definition gotMalformedEvent (event : option Event) (err : error)
  : M State Iteration :=
  emit (UpdateStatus DataSourceStateInterrupted
          {| Kind := DataSourceErrorKindInvalidData;
             StatusCode := 0;
             Message := Error err |}) ;;
  ret {| changeSetBuilder := NewChangeSetBuilder;
         processedEvent := false;
         shouldRestart := true |}.

(** [switch fdv2proto.EventName(event.Event()) { ... }] *)
Definition handle (b : ChangeSetBuilder) (event : Event) : M State Iteration :=
  match Name event with
  | EventHeartbeat => ret (processed b)
  | EventServerIntent =>
      match json_Unmarshal (T := ServerIntent) (Data event) with
      | Err err => gotMalformedEvent (Some event) err
      | Ok serverIntent =>
          match Code (Payload serverIntent) with
          | IntentNone =>
              setInitializedAndNotifyClient true ;; ret (processed b)
          | _ =>
              match Start b serverIntent with
              | (Some err, _) => gotMalformedEvent (Some event) err
              | (None, b') => ret (processed b')
              end
          end
      end
  | EventPutObject =>
      match json_Unmarshal (T := PutObject.t) (Data event) with
      | Err err => gotMalformedEvent (Some event) err
      | Ok p =>
          ret (processed (AddPut b (PutObject.Kind p) (PutObject.Key p)
                                 (PutObject.Version p) (PutObject.Object p)))
      end
  | EventDeleteObject =>
      match json_Unmarshal (T := DeleteObject.t) (Data event) with
      | Err err => gotMalformedEvent (Some event) err
      | Ok d =>
          ret (processed (AddDelete b (DeleteObject.Kind d) (DeleteObject.Key d)
                                    (DeleteObject.Version d)))
      end
  | EventGoodbye =>
      match json_Unmarshal (T := Goodbye.t) (Data event) with
      | Err err => gotMalformedEvent (Some event) err
      | Ok _ => ret (processed b)
      end
  | EventError =>
      match json_Unmarshal (T := ErrorEvent.t) (Data event) with
      | Err err => gotMalformedEvent (Some event) err
      | Ok _ => ret (processed NewChangeSetBuilder)
      end
  | EventPayloadTransferred =>
      match json_Unmarshal (T := Selector) (Data event) with
      | Err err => gotMalformedEvent (Some event) err
      | Ok sel =>
          match Finish b sel with
          | (Err err, _) => gotMalformedEvent None err
          | (Ok changeSet, b') =>
              dispatch changeSet ;;
              setInitializedAndNotifyClient true ;;
              ret (processed b')
          end
      end
  | EventUnrecognized _ => ret (processed b)
  end.

(** The [case event, ok := <-stream.Events] branch with [ok] true. *)
Definition on_event (b : ChangeSetBuilder) (event : Event)
  : M State ChangeSetBuilder :=
  it <- handle b event ;;
  when (processedEvent it) (emit (UpdateStatus DataSourceStateValid no_error)) ;;
  when (shouldRestart it) (emit StreamRestart) ;;
  ret (changeSetBuilder it).

(** The branch that the [select] statement takes. *)
Inductive Select : Type :=
| RecvEvent (event : Event)   (* an event arrives on stream.Events *)
| EventsClosed                (* stream.Events is found closed *)
| RecvHalt                    (* the receive from sp.halt completes *).

(** One pass through [for { select { ... } }].  The receive from
    [sp.halt] completes only once the channel is closed; until then
    the goroutine stays where it is. *)
Definition consumeStream_select (b : ChangeSetBuilder) (sel : Select)
  : M State (Loop ChangeSetBuilder) :=
  match sel with
  | RecvEvent event => b' <- on_event b event ;; ret (Waiting b')
  | EventsClosed => ret Returned
  | RecvHalt =>
      s <- get ;;
      if halt s then (emit StreamClose ;; ret Returned) else ret (Waiting b)
  end.

(** The closure [errorHandler], called by the event source on a
    failed connection attempt; the result is [CloseNow]. *)
Definition errorHandler (err : error) : M State bool :=
  match err with
  | SubscriptionError code _ =>
      let errorInfo := {| Kind := DataSourceErrorKindErrorResponse;
                          StatusCode := code;
                          Message := "" |} in
      if checkIfErrorIsRecoverableAndLog code then
        emit (UpdateStatus DataSourceStateInterrupted errorInfo) ;; ret false
      else
        emit (UpdateStatus DataSourceStateOff errorInfo) ;; ret true
  | _ =>
      emit (UpdateStatus DataSourceStateInterrupted
              {| Kind := DataSourceErrorKindNetworkError;
                 StatusCode := 0;
                 Message := Error err |}) ;;
      ret false
  end.

(** What happens, one after the other, once the stream is being
    consumed: the loop takes a branch of its [select], the event
    source reports a failed reconnection to [errorHandler], or
    another goroutine calls [Close]. *)
Inductive Step : Type :=
| Selects (sel : Select)
| ConnectionFails (err : error)
| CallsClose.

Definition step (l : Loop ChangeSetBuilder) (st : Step)
  : M State (Loop ChangeSetBuilder) :=
  match st with
  | Selects sel =>
      match l with
      | Waiting b => consumeStream_select b sel
      | Returned => ret Returned
      end
  | ConnectionFails err => _ <- errorHandler err ;; ret l
  | CallsClose => _ <- Close ;; ret l
  end.

Fixpoint run (l : Loop ChangeSetBuilder) (steps : list Step)
  : M State (Loop ChangeSetBuilder) :=
  match steps with
  | [] => ret l
  | st :: rest => l' <- step l st ;; run l' rest
  end.

(** [consumeStream] on its own: the loop starts from a new builder. *)
Definition consumeStream (sels : list Select) : M State (Loop ChangeSetBuilder) :=
  run (Waiting NewChangeSetBuilder) (map Selects sels).

(** The request [subscribe] prepares before connecting. *)
Definition subscribe_request (c : StreamConfig) (h : option http.Header)
           (sel : Selector) : result http.Request :=
  let path := AddPath (URI c) StreamingRequestPath in
  let path := if IsDefined sel then (path ++ "?basis=" ++ fdv2proto.State sel)%string
              else path in
  match NewRequest "GET" path with
  | Err reqErr => Err reqErr
  | Ok req =>
      let req :=
        if negb (String.eqb (FilterKey c) "") then
          http.with_URL req
            (url.with_RawQuery (http.URL req)
                               (url.Encode [("filter", [FilterKey c])]))
        else req in
      let req := match h with
                 | Some hs => http.with_Header req hs
                 | None => req
                 end in
      Ok req
  end.

(** What [es.SubscribeWithRequestAndOptions] did: the failed attempts
    it reported to [errorHandler], and whether it returned a stream. *)
Record Connection : Type :=
  { failed_attempts : list error;
    connected : bool }.

Fixpoint report_failures (errs : list error) : M State unit :=
  match errs with
  | [] => ret tt
  | err :: rest => _ <- errorHandler err ;; report_failures rest
  end.

(** [subscribe], followed by what the rest of the program does while
    or after it runs. *)
Definition subscribe (sel : Selector) (conn : Connection) (steps : list Step)
  : M State (Loop ChangeSetBuilder) :=
  s <- get ;;
  l <- match subscribe_request (cfg s) (headers s) sel with
       | Err reqErr =>
           emit (UpdateStatus DataSourceStateOff
                   {| Kind := DataSourceErrorKindUnknown;
                      StatusCode := 0;
                      Message := Error reqErr |}) ;;
           close_closeWhenReady ;;
           ret Returned
       | Ok req =>
           report_failures (failed_attempts conn) ;;
           if connected conn then ret (Waiting NewChangeSetBuilder)
           else (close_closeWhenReady ;; ret Returned)
       end ;;
  run l steps.

(** [Sync] starts [subscribe] on a goroutine of its own. *)
Definition Sync (sel : Selector) (conn : Connection) (steps : list Step)
  : M State (Loop ChangeSetBuilder) :=
  subscribe sel conn steps.

End WithEnvironment.
End StreamProcessor.

(* ---------------------------------------------------------------- *)
(** ** polling_data_source.go *)

Module PollingProcessor.

(** The fields of [PollingProcessor] that change, the [sync.Once] that
    is local to the goroutine of [Sync], and the state of the channel
    handed to [Sync]. *)
Record State : Type := mkState
  { setInitializedOnce : bool;
    isInitialized : bool;
    quit : bool;
    closeOnce : bool;
    readyOnce : bool;
    closeWhenReady : bool }.

Definition set_setInitializedOnce (v : bool) (s : State) : State :=
  mkState v (isInitialized s) (quit s) (closeOnce s) (readyOnce s) (closeWhenReady s).
Definition set_isInitialized (v : bool) (s : State) : State :=
  mkState (setInitializedOnce s) v (quit s) (closeOnce s) (readyOnce s) (closeWhenReady s).
Definition set_quit (v : bool) (s : State) : State :=
  mkState (setInitializedOnce s) (isInitialized s) v (closeOnce s) (readyOnce s) (closeWhenReady s).
Definition set_closeOnce (v : bool) (s : State) : State :=
  mkState (setInitializedOnce s) (isInitialized s) (quit s) v (readyOnce s) (closeWhenReady s).
Definition set_readyOnce (v : bool) (s : State) : State :=
  mkState (setInitializedOnce s) (isInitialized s) (quit s) (closeOnce s) v (closeWhenReady s).
Definition set_closeWhenReady (v : bool) (s : State) : State :=
  mkState (setInitializedOnce s) (isInitialized s) (quit s) (closeOnce s) (readyOnce s) v.

(** [newPollingProcessor], at the start of the goroutine of [Sync], with
    a ready channel that is still open. *)
Definition newPollingProcessor : State :=
  mkState false false false false false false.

(** [Fetch], given what [pp.requester.Request()] returns. *)
Definition Fetch {Context : Type} (_ : Context) (response : result ChangeSet)
  : option subsystems.Basis * option error :=
  match response with
  | Err err => (None, Some err)
  | Ok basis =>
      (Some {| subsystems.Events := Changes basis;
               subsystems.Selector := ChangeSet_Selector basis;
               subsystems.Persist := true |},
       None)
  end.

Definition IsInitialized (s : State) : bool := isInitialized s.

Definition close_closeWhenReady : M State unit :=
  s <- get ;;
  if closeWhenReady s then panic
  else (modify (set_closeWhenReady true) ;; emit ReadyFired).

(** The closure [notifyReady]. *)
Definition notifyReady : M State unit :=
  Once_Do readyOnce (set_readyOnce true) close_closeWhenReady.

(** [poll], given what [pp.requester.Request()] returns. *)
Definition poll (response : result ChangeSet) : M State (option error) :=
  match response with
  | Err err => ret (Some err)
  | Ok changeSet => dispatch changeSet ;; ret None
  end.

Definition Close : M State (option error) :=
  Once_Do closeOnce (set_closeOnce true)
          (s <- get ;; if quit s then panic else modify (set_quit true)) ;;
  ret None.

Section WithEnvironment.
Context {env : Environment}.

(** The branch that the [select] statement takes. *)
Inductive Select : Type :=
| RecvQuit                                 (* the receive from pp.quit completes *)
| RecvTick (response : result ChangeSet)   (* the ticker fires; the request returns *).

(** The [case <-ticker.C] branch: [Waiting] stands for reaching the
    next pass of the loop, [Returned] for [return]. *)
Definition on_tick (response : result ChangeSet) : M State (Loop unit) :=
  r <- poll response ;;
  match r with
  | Some err =>
      match err with
      | httpStatusError _ code =>
          let errorInfo := {| Kind := DataSourceErrorKindErrorResponse;
                              StatusCode := code;
                              Message := "" |} in
          if checkIfErrorIsRecoverableAndLog code then
            emit (UpdateStatus DataSourceStateInterrupted errorInfo) ;;
            ret (Waiting tt)
          else
            emit (UpdateStatus DataSourceStateOff errorInfo) ;;
            notifyReady ;;
            ret Returned
      | _ =>
          let kind := match err with
                      | malformedJSONError _ => DataSourceErrorKindInvalidData
                      | _ => DataSourceErrorKindNetworkError
                      end in
          emit (UpdateStatus DataSourceStateInterrupted
                  {| Kind := kind; StatusCode := 0; Message := Error err |}) ;;
          ret (Waiting tt)
      end
  | None =>
      emit (UpdateStatus DataSourceStateValid no_error) ;;
      Once_Do setInitializedOnce (set_setInitializedOnce true)
              (modify (set_isInitialized true) ;; notifyReady) ;;
      ret (Waiting tt)
  end.

(** One pass through [for { select { ... } }]; when the goroutine
    returns, the deferred [notifyReady] runs.  The receive from
    [pp.quit] completes only once the channel is closed. *)
Definition Sync_select (sel : Select) : M State (Loop unit) :=
  l <- match sel with
       | RecvQuit =>
           s <- get ;;
           if quit s then ret Returned else ret (Waiting tt)
       | RecvTick response => on_tick response
       end ;;
  match l with
  | Returned => notifyReady ;; ret Returned
  | Waiting _ => ret l
  end.

(** What happens, one after the other, once [Sync] has started its
    goroutine: the loop takes a branch of its [select], or another
    goroutine calls [Close]. *)
Inductive Step : Type :=
| Selects (sel : Select)
| CallsClose.

Definition step (l : Loop unit) (st : Step) : M State (Loop unit) :=
  match st with
  | Selects sel =>
      match l with
      | Waiting _ => Sync_select sel
      | Returned => ret Returned
      end
  | CallsClose => _ <- Close ;; ret l
  end.

Fixpoint run (l : Loop unit) (steps : list Step) : M State (Loop unit) :=
  match steps with
  | [] => ret l
  | st :: rest => l' <- step l st ;; run l' rest
  end.

(** [Sync]: the goroutine enters its loop. *)
Definition Sync (steps : list Step) : M State (Loop unit) :=
  run (Waiting tt) steps.

End WithEnvironment.
End PollingProcessor.

End datasourcev2.

(* ================================================================== *)
(** * streaming_data_source.go: connection-attempt telemetry *)

Module StreamDiagnostics.

(** [ldtime.UnixMillisecondTime] is an unsigned 64-bit integer. *)
Definition uint64 (z : Z) : Z := z mod 2 ^ 64.

(** The two fields of [StreamProcessor] that the telemetry uses: the start
    time of the current connection attempt, and whether a diagnostics
    manager was supplied. *)
Record State : Type :=
  { connectionAttemptStartTime : Z;
    diagnosticsManager : bool }.

(** [diagnosticsManager.RecordStreamInit(timestamp, failed, durationMillis)] *)
Record StreamInit : Type :=
  { timestamp : Z; failed : bool; durationMillis : Z }.

(** [logConnectionStarted], given the reading of [ldtime.UnixMillisNow()]. *)
Definition logConnectionStarted (now : Z) (s : State) : State :=
  {| connectionAttemptStartTime := now; diagnosticsManager := diagnosticsManager s |}.

(** [logConnectionResult], given the reading of [ldtime.UnixMillisNow()]. *)
Definition logConnectionResult (success : bool) (now : Z) (s : State)
  : State * list StreamInit :=
  let startTimeWas := connectionAttemptStartTime s in
  let s' := {| connectionAttemptStartTime := 0;
               diagnosticsManager := diagnosticsManager s |} in
  if (0 <? startTimeWas) && diagnosticsManager s then
    (s', [ {| timestamp := now; failed := negb success;
              durationMillis := uint64 (now - startTimeWas) |} ])
  else (s', []).

(** The calls the processor makes, in order. *)
Inductive Call : Type :=
| Started (now : Z)
| Result (success : bool) (now : Z).

Fixpoint calls (cs : list Call) (s : State) : State * list StreamInit :=
  match cs with
  | [] => (s, [])
  | Started now :: rest => calls rest (logConnectionStarted now s)
  | Result success now :: rest =>
      let '(s1, r1) := logConnectionResult success now s in
      let '(s2, r2) := calls rest s1 in
      (s2, r1 ++ r2)
  end.

Definition count_started (cs : list Call) : nat :=
  length (filter (fun c => match c with Started _ => true | Result _ _ => false end) cs).

End StreamDiagnostics.

(* ================================================================== *)
(** * Vocabulary of the properties *)

Import fdv2proto interfaces datasourcev2.
Local Open Scope go_scope.

(** ** ChangeSetBuilder *)

(** A call of [AddPut] or [AddDelete]. *)
Inductive Addition : Type :=
| Put (kind : ObjectKind) (key : string) (ver : Z) (object : RawMessage)
| Delete (kind : ObjectKind) (key : string) (ver : Z).

Definition add (c : ChangeSetBuilder) (a : Addition) : ChangeSetBuilder :=
  match a with
  | Put kind key ver object => AddPut c kind key ver object
  | Delete kind key ver => AddDelete c kind key ver
  end.

(** The change record that an addition appends. *)
Definition change_of (a : Addition) : Change :=
  match a with
  | Put kind key ver object =>
      {| fdv2proto.Action := ChangeTypePut; fdv2proto.Kind := kind; Key := key;
         Version_ := ver; Object := object |}
  | Delete kind key ver =>
      {| fdv2proto.Action := ChangeTypeDelete; fdv2proto.Kind := kind; Key := key;
         Version_ := ver; Object := "" |}
  end.

Definition full_transfer (id : string) (target : Z) (reason : string) : ServerIntent :=
  {| Payload := {| ID := id; Target := target; Code := IntentTransferFull;
                   Reason := reason |} |}.

(** ** DataSystemConfigurationBuilder.Build *)

(** Every recorded builder call succeeded. *)
Definition clean (tr : list ldcomponents.Invocation) : Prop :=
  Forall (fun i => ldcomponents.failure i = None) tr.

Definition nil_initializer_error (i : nat) : error :=
  errorString ("initializer " ++ ldcomponents.decimal i ++ " is nil").

Definition secondary_without_primary_error : error :=
  errorString "cannot have a secondary synchronizer without a primary synchronizer".

Section BuildLog.
Variables ClientContext W : Type.
Variables DataStore DataInitializer DataSynchronizer : Type.

(** What a call of the builder [b] comes to for [Build]: the error it
    returns, if any, and the environment it leaves behind. *)
Definition call_of {T : Type} (b : ldcomponents.ComponentConfigurer ClientContext W T)
           (context : ClientContext) (w : W) : option error * W :=
  (match fst (b context w) with Ok _ => None | Err e => Some e end,
   snd (b context w)).

(** The builder that is configured in the slot [s], if any. *)
Definition builder_at
           (d : ldcomponents.DataSystemConfigurationBuilder
                  ClientContext W DataStore DataInitializer DataSynchronizer)
           (s : ldcomponents.Slot)
  : option (ClientContext -> W -> option error * W) :=
  match s with
  | ldcomponents.SlotStore => option_map call_of (ldcomponents.storeBuilder d)
  | ldcomponents.SlotInitializer i =>
      match nth_error (ldcomponents.initializerBuilders d) i with
      | Some (Some b) => Some (call_of b)
      | _ => None
      end
  | ldcomponents.SlotPrimary => option_map call_of (ldcomponents.primarySyncBuilder d)
  | ldcomponents.SlotSecondary => option_map call_of (ldcomponents.secondarySyncBuilder d)
  end.

(** The log [tr] records calls that were made: each entry names a slot
    with a builder in it, that builder was called with [context] on the
    environment left by the call before it (the first one on [w]), and the
    entry holds the error this call returned, if any; [w'] is the
    environment that the last call left. *)
Fixpoint genuine
         (d : ldcomponents.DataSystemConfigurationBuilder
                ClientContext W DataStore DataInitializer DataSynchronizer)
         (context : ClientContext) (w : W) (tr : list ldcomponents.Invocation) (w' : W)
  : Prop :=
  match tr with
  | [] => w' = w
  | c :: rest =>
      exists call,
        builder_at d (ldcomponents.slot c) = Some call
        /\ ldcomponents.failure c = fst (call context w)
        /\ genuine d context (snd (call context w)) rest w'
  end.

(** A stretch of [Build] calls the builders [slots] of [d] in this order
    and stops at the first failure: the entries it adds to the log record
    calls that were made, from the environment it starts in to the one it
    ends in; when it ends with an error [e], the calls made are an initial
    part of [slots] and either the last of them returned [e], or all of them
    succeeded and [e] is an error that the stretch raises by itself, which
    [N] relates to the slots called before. *)
Definition shaped {A : Type}
           (d : ldcomponents.DataSystemConfigurationBuilder
                  ClientContext W DataStore DataInitializer DataSynchronizer)
           (context : ClientContext)
           (N : error -> list ldcomponents.Slot -> Prop)
           (slots : list ldcomponents.Slot)
           (m : ldcomponents.BM W A) : Prop :=
  forall st, exists tr,
    snd (snd (m st)) = snd st ++ tr /\
    genuine d context (fst st) tr (fst (snd (m st))) /\
    match fst (m st) with
    | Ok _ => map ldcomponents.slot tr = slots /\ clean tr
    | Err e =>
        (exists rest, slots = map ldcomponents.slot tr ++ rest) /\
        ((exists pre s, tr = pre ++ [ {| ldcomponents.slot := s;
                                         ldcomponents.failure := Some e |} ]
                        /\ clean pre)
         \/ (clean tr /\ N e (map ldcomponents.slot tr)))
    end.

End BuildLog.

Arguments call_of {ClientContext W T} b context w.

(** The error [e] reports the first nil entry of [bs], counted from index
    [i], and [called] are the slots of the entries before it. *)
Definition reports_nil {T : Type} (bs : list (option T)) (i : nat) (e : error)
           (called : list ldcomponents.Slot) : Prop :=
  exists j, nth_error bs j = Some None
            /\ (forall k, (k < j)%nat -> nth_error bs k <> Some None)
            /\ e = nil_initializer_error (i + j)%nat
            /\ called = map ldcomponents.SlotInitializer (seq i j).

(** The error [e] reports the first nil entry of the initializer list of
    [d], and [called] are the slots that [Build] goes through before it:
    the store, if there is one, and the initializers before the nil one. *)
Definition stops_at_nil {ClientContext W DataStore DataInitializer DataSynchronizer : Type}
           (d : ldcomponents.DataSystemConfigurationBuilder
                  ClientContext W DataStore DataInitializer DataSynchronizer)
           (e : error) (called : list ldcomponents.Slot) : Prop :=
  exists i, nth_error (ldcomponents.initializerBuilders d) i = Some None
            /\ (forall j, (j < i)%nat ->
                          nth_error (ldcomponents.initializerBuilders d) j <> Some None)
            /\ e = nil_initializer_error i
            /\ called = (if ldcomponents.is_nil (ldcomponents.storeBuilder d) then []
                         else [ldcomponents.SlotStore])
                        ++ map ldcomponents.SlotInitializer (seq 0 i).

(** ** The synchronizers *)

(** The ready channel counts as one firing once it is closed. *)
Definition fired (closed : bool) : nat := if closed then 1%nat else 0%nat.

(** The run [o] completes with the value, state and trace that [P] accepts. *)
Definition completes {S A : Type} (o : Outcome S A) (P : A -> S -> list Action -> Prop)
  : Prop :=
  match o with
  | Done a s tr => P a s tr
  | Panic _ => False
  end.

(** From a state in which [P] holds, the computation [m] completes in a
    state in which [P] holds, and its trace shows a firing exactly when the
    ready channel [chan] went from open to closed. *)
Definition keeps {S A : Type} (chan : S -> bool) (P : S -> Prop) (m : M S A) : Prop :=
  forall s, P s ->
    completes (m s) (fun _ s' tr =>
      P s' /\ (firings tr + fired (chan s) = fired (chan s'))%nat).

Module StreamInv.
Import StreamProcessor.

(** Only the one-shot guards have closed the channels so far: [halt] by
    [closeOnce], the ready channel by [readyOnce]. *)
Definition guarded (s : State) : Prop :=
  halt s = closeOnce s /\ closeWhenReady s = readyOnce s.

(** The weaker fact that survives a connection-setup failure. *)
Definition halt_guarded (s : State) : Prop := halt s = closeOnce s.

(** The ready channel, if closed, was closed through [readyOnce]. *)
Definition fired_through_guard (s : State) : Prop :=
  closeWhenReady s = true -> readyOnce s = true.

End StreamInv.

Module PollInv.
Import PollingProcessor.

Definition guarded (s : State) : Prop :=
  quit s = closeOnce s /\ closeWhenReady s = readyOnce s.

Definition fired_through_guard (s : State) : Prop :=
  closeWhenReady s = true -> readyOnce s = true.

End PollInv.

Section StreamVocabulary.
Import StreamProcessor.
Context {platform : Platform}.
Context {U_raw : Unmarshaler RawObject}
        {U_intent : Unmarshaler ServerIntent}
        {U_put : Unmarshaler PutObject.t}
        {U_delete : Unmarshaler DeleteObject.t}
        {U_goodbye : Unmarshaler Goodbye.t}
        {U_error : Unmarshaler ErrorEvent.t}.

Definition decode_error {T} (r : result T) : option error :=
  match r with Ok _ => None | Err e => Some e end.

(** The error, if any, with which the body of an event fails to parse.  The
    consumer decodes the body of the six event types below; a heartbeat and
    an event of an unrecognized type carry no body that is parsed. *)
Definition body_error (event : Event) : option error :=
  match Name event with
  | EventServerIntent => decode_error (json_Unmarshal (T := ServerIntent) (Data event))
  | EventPutObject => decode_error (json_Unmarshal (T := PutObject.t) (Data event))
  | EventDeleteObject => decode_error (json_Unmarshal (T := DeleteObject.t) (Data event))
  | EventGoodbye => decode_error (json_Unmarshal (T := Goodbye.t) (Data event))
  | EventError => decode_error (json_Unmarshal (T := ErrorEvent.t) (Data event))
  | EventPayloadTransferred =>
      decode_error (UnmarshalJSON (json_Unmarshal (T := RawObject)) (Data event))
  | EventHeartbeat => None
  | EventUnrecognized _ => None
  end.

End StreamVocabulary.

Definition invalid_data (err : error) : DataSourceErrorInfo :=
  {| interfaces.Kind := DataSourceErrorKindInvalidData; StatusCode := 0;
     Message := Error err |}.

Definition error_response (code : Z) : DataSourceErrorInfo :=
  {| interfaces.Kind := DataSourceErrorKindErrorResponse; StatusCode := code;
     Message := "" |}.

(** The change set that a destination call carries, by intent code. *)
Definition expected_destination_calls (cs : ChangeSet) : list Action :=
  match intentCode cs with
  | IntentTransferFull => [SetBasis (changes cs) (selector cs) true]
  | IntentTransferChanges => [ApplyDelta (changes cs) (selector cs) true]
  | IntentNone => []
  | IntentUnrecognized _ => []
  end.

(** ** A sample environment *)

(** A 64-bit target on which an unrepresentable conversion gives the least
    [int], as the x86-64 instruction does. *)
Definition linux_amd64 : Platform :=
  {| IntSize := 64; int_of_unrepresentable := fun _ => - 2 ^ 63 |}.

(** Stand-ins for the collaborators, used to run the model on concrete
    inputs: a path joiner, a URL check that refuses blanks, the usual
    classification of HTTP statuses, and decoders for a handful of bodies. *)
Definition has_blank (u : string) : bool :=
  match index 0 " " u with Some _ => true | None => false end.

Definition sample_env : Environment :=
  {| AddPath := fun base path => (base ++ path)%string;
     StreamingRequestPath := "/sdk/stream";
     NewRequest_error :=
       fun u => if has_blank u then Some (errorString "invalid character in URL")
                else None;
     checkIfErrorIsRecoverableAndLog :=
       fun code => negb ((400 <=? code) && (code <? 500))
                   || (code =? 400) || (code =? 408) || (code =? 429) |}.

Definition sample_raw : Unmarshaler RawObject :=
  fun data =>
    if String.eqb data "selector s1 1" then
      Ok (fun k => if String.eqb k "state" then Some (JString "s1")
                   else if String.eqb k "version" then Some (JNumber 1%Q)
                   else None)
    else Err (errorString "invalid character").

Definition sample_intent : Unmarshaler ServerIntent :=
  fun data =>
    if String.eqb data "intent full" then Ok (full_transfer "p1" 1 "payload-missing")
    else if String.eqb data "intent none" then
      Ok {| Payload := {| ID := "p1"; Target := 1; Code := IntentNone;
                          Reason := "up-to-date" |} |}
    else Err (errorString "invalid character").

Definition sample_put : Unmarshaler PutObject.t :=
  fun data =>
    if String.eqb data "put A" then
      Ok {| PutObject.Version := 1; PutObject.Kind := "flag"; PutObject.Key := "A";
            PutObject.Object := "{}" |}
    else if String.eqb data "put B" then
      Ok {| PutObject.Version := 1; PutObject.Kind := "flag"; PutObject.Key := "B";
            PutObject.Object := "{}" |}
    else Err (errorString "invalid character").

Definition sample_delete : Unmarshaler DeleteObject.t :=
  fun data => Err (errorString "invalid character").

Definition sample_goodbye : Unmarshaler Goodbye.t :=
  fun data => Err (errorString "invalid character").

Definition sample_error : Unmarshaler ErrorEvent.t :=
  fun data => Err (errorString "invalid character").

Definition sample_config : StreamProcessor.StreamConfig :=
  {| StreamProcessor.URI := "http://localhost:8765";
     StreamProcessor.InitialReconnectDelay := 0;
     StreamProcessor.FilterKey := "" |}.

Definition sample_filtered_config : StreamProcessor.StreamConfig :=
  {| StreamProcessor.URI := "http://localhost:8765";
     StreamProcessor.InitialReconnectDelay := 0;
     StreamProcessor.FilterKey := "f" |}.

Definition sample_events : list StreamProcessor.Select :=
  [StreamProcessor.RecvEvent
     {| StreamProcessor.Name := EventServerIntent; StreamProcessor.Data := "intent full" |};
   StreamProcessor.RecvEvent
     {| StreamProcessor.Name := EventPutObject; StreamProcessor.Data := "put A" |};
   StreamProcessor.RecvEvent
     {| StreamProcessor.Name := EventPutObject; StreamProcessor.Data := "put B" |};
   StreamProcessor.RecvEvent
     {| StreamProcessor.Name := EventPayloadTransferred;
        StreamProcessor.Data := "selector s1 1" |}].

Definition sample_connection : StreamProcessor.Connection :=
  {| StreamProcessor.failed_attempts := [errorString "connection refused"];
     StreamProcessor.connected := true |}.

Definition sample_stream_steps : list StreamProcessor.Step :=
  map StreamProcessor.Selects sample_events
  ++ [StreamProcessor.Selects
        (StreamProcessor.RecvEvent
           {| StreamProcessor.Name := EventServerIntent;
              StreamProcessor.Data := "intent none" |});
      StreamProcessor.CallsClose;
      StreamProcessor.Selects StreamProcessor.RecvHalt].

Definition sample_poll_steps : list PollingProcessor.Step :=
  [PollingProcessor.Selects
     (PollingProcessor.RecvTick (Ok (NoChanges NewChangeSetBuilder)));
   PollingProcessor.Selects
     (PollingProcessor.RecvTick (Err (httpStatusError "unauthorized" 401)));
   PollingProcessor.CallsClose].

(** Sample component builders: each counts its call in the environment. *)
Definition sample_store : ldcomponents.ComponentConfigurer unit nat (option string) :=
  fun _ w => (Ok (Some "store"), S w).

Definition sample_initializer : ldcomponents.ComponentConfigurer unit nat (option string) :=
  fun _ w => (Ok (Some "initializer"), S w).

Definition sample_synchronizer : ldcomponents.ComponentConfigurer unit nat (option string) :=
  fun _ w => (Ok (Some "synchronizer"), S w).

Definition failing_synchronizer : ldcomponents.ComponentConfigurer unit nat (option string) :=
  fun _ w => (Err (errorString "no such endpoint"), S w).

Definition secondary_only
  : ldcomponents.DataSystemConfigurationBuilder unit nat string string string :=
  ldcomponents.Synchronizers_
    (ldcomponents.Initializers_
       (ldcomponents.DataStore_ (ldcomponents.Custom _ _ _ _ _) (Some sample_store)
                                subsystems.DataStoreModeReadWrite)
       [Some sample_initializer])
    None (Some sample_synchronizer).

Definition failing_primary
  : ldcomponents.DataSystemConfigurationBuilder unit nat string string string :=
  ldcomponents.Synchronizers_
    (ldcomponents.Initializers_
       (ldcomponents.DataStore_ (ldcomponents.Custom _ _ _ _ _) (Some sample_store)
                                subsystems.DataStoreModeReadWrite)
       [Some sample_initializer; Some sample_initializer])
    (Some failing_synchronizer) (Some sample_synchronizer).

Definition nil_initializer
  : ldcomponents.DataSystemConfigurationBuilder unit nat string string string :=
  ldcomponents.Synchronizers_
    (ldcomponents.Initializers_ (ldcomponents.Custom _ _ _ _ _)
                                [Some sample_initializer; None; Some sample_initializer])
    (Some sample_synchronizer) None.

(** ** Further vocabulary *)

(** The intent code a builder holds after sealing a change set of code [c]. *)
Definition next_code (c : IntentCode) : IntentCode :=
  match c with
  | IntentTransferFull => IntentTransferChanges
  | _ => c
  end.

(** Rounds of additions, each closed by [Finish]; the results in order, and
    the builder afterwards. *)
Fixpoint finish_rounds (c : ChangeSetBuilder) (rounds : list (list Addition * Selector))
  : list (result ChangeSet) * ChangeSetBuilder :=
  match rounds with
  | [] => ([], c)
  | (adds, sel) :: rest =>
      let '(r, c1) := Finish (fold_left add adds c) sel in
      let '(rs, c2) := finish_rounds c1 rest in
      (r :: rs, c2)
  end.

Fixpoint sealed_rounds (code : IntentCode) (rounds : list (list Addition * Selector))
  : list (result ChangeSet) :=
  match rounds with
  | [] => []
  | (adds, sel) :: rest =>
      Ok {| intentCode := code; changes := map change_of adds; selector := sel |}
      :: sealed_rounds (next_code code) rest
  end.

(** The outcome [o] with the actions [pre] performed before it. *)
Definition prepend {S A : Type} (pre : list Action) (o : Outcome S A) : Outcome S A :=
  match o with
  | Done a s tr => Done a s (pre ++ tr)
  | Panic tr => Panic (pre ++ tr)
  end.

(** From a state in [P], the computation completes with a value and a state
    in [Q]. *)
Definition triple {S A : Type} (P : S -> Prop) (m : M S A) (Q : A -> S -> Prop) : Prop :=
  forall s, P s -> completes (m s) (fun a s' _ => Q a s').

Definition is_StreamRestart (a : Action) : bool :=
  match a with StreamRestart => true | _ => false end.

Definition valid_status : Action := UpdateStatus DataSourceStateValid no_error.

Section EventVocabulary.
Import StreamProcessor.
Context {U_put : Unmarshaler PutObject.t}
        {U_delete : Unmarshaler DeleteObject.t}.

(** The event is a well-formed put-object or delete-object event that
    carries the addition [a]. *)
Definition decodes (event : Event) (a : Addition) : Prop :=
  match a with
  | Put kind key ver object =>
      Name event = EventPutObject
      /\ json_Unmarshal (Data event)
         = Ok {| PutObject.Version := ver; PutObject.Kind := kind;
                 PutObject.Key := key; PutObject.Object := object |}
  | Delete kind key ver =>
      Name event = EventDeleteObject
      /\ json_Unmarshal (Data event)
         = Ok {| DeleteObject.Version := ver; DeleteObject.Kind := kind;
                 DeleteObject.Key := key |}
  end.

End EventVocabulary.

Definition receive (events : list StreamProcessor.Event) : list StreamProcessor.Step :=
  map (fun e => StreamProcessor.Selects (StreamProcessor.RecvEvent e)) events.

Module StreamInit.
Import StreamProcessor.

(** The processor says it is initialized only after the ready channel was
    closed, and only the one-shot guards have closed the channels. *)
Definition initialized_after_ready (s : State) : Prop :=
  halt s = closeOnce s
  /\ closeWhenReady s = readyOnce s
  /\ (isInitialized s = true -> closeWhenReady s = true).

End StreamInit.

Module PollInit.
Import PollingProcessor.

Definition initialized_after_ready (s : State) : Prop :=
  quit s = closeOnce s
  /\ closeWhenReady s = readyOnce s
  /\ (isInitialized s = true -> closeWhenReady s = true)
  /\ (setInitializedOnce s = false -> isInitialized s = false).


End PollInit.

(** How many of the steps are payload-transferred events taken by the loop. *)
Definition transfers (steps : list StreamProcessor.Step) : nat :=
  length (filter (fun st =>
                    match st with
                    | StreamProcessor.Selects (StreamProcessor.RecvEvent e) =>
                        match StreamProcessor.Name e with
                        | EventPayloadTransferred => true
                        | _ => false
                        end
                    | _ => false
                    end) steps).

Definition server_intent_event (data : string) : StreamProcessor.Event :=
  {| StreamProcessor.Name := EventServerIntent; StreamProcessor.Data := data |}.

Definition payload_transferred_event (data : string) : StreamProcessor.Event :=
  {| StreamProcessor.Name := EventPayloadTransferred; StreamProcessor.Data := data |}.

Definition missing_intent_error : error :=
  errorString "changeset: cannot complete without a server-intent".

Section PassiveVocabulary.
Import StreamProcessor.
Context {U_goodbye : Unmarshaler Goodbye.t}.

(** A heartbeat, an event of an unrecognized type, or a well-formed goodbye. *)
Definition passive (event : Event) : Prop :=
  match Name event with
  | EventHeartbeat => True
  | EventUnrecognized _ => True
  | EventGoodbye => exists goodbye, json_Unmarshal (T := Goodbye.t) (Data event) = Ok goodbye
  | _ => False
  end.

End PassiveVocabulary.

Section PollVocabulary.
Context {env : Environment}.

(** A failed poll after which the loop goes on: anything but an HTTP status
    that is classified as not recoverable. *)
Definition survivable (err : error) : bool :=
  match err with
  | httpStatusError _ code => checkIfErrorIsRecoverableAndLog code
  | _ => true
  end.

End PollVocabulary.

(** What the polling loop reports for a failed poll that it survives. *)
Definition poll_failure_report (err : error) : Action :=
  UpdateStatus DataSourceStateInterrupted
    match err with
    | httpStatusError _ code => error_response code
    | malformedJSONError _ =>
        {| interfaces.Kind := DataSourceErrorKindInvalidData; StatusCode := 0;
           Message := Error err |}
    | _ =>
        {| interfaces.Kind := DataSourceErrorKindNetworkError; StatusCode := 0;
           Message := Error err |}
    end.

Definition failed_ticks (errs : list error) : list PollingProcessor.Step :=
  map (fun e => PollingProcessor.Selects (PollingProcessor.RecvTick (Err e))) errs.

(** The byte [x] does not occur in [s]. *)
Definition lacks (x : ascii) (s : string) : Prop := ~ In x (list_ascii_of_string s).

Section BuildVocabulary.
Variables W DataStore DataInitializer DataSynchronizer : Type.

(** Every configuration that the stretch [m] of [Build] hands on has the
    store mode [mode]. *)
Definition mode_kept (mode : subsystems.DataStoreMode)
           (m : ldcomponents.BM W (ldcomponents.Conf DataStore DataInitializer DataSynchronizer))
  : Prop :=
  forall st, match fst (m st) with
             | Ok conf => subsystems.StoreMode conf = mode
             | Err _ => True
             end.

End BuildVocabulary.

(** ** Further sample data *)

(** Decoders that accept one delete-object, goodbye and error body each. *)
Definition accepting_delete : Unmarshaler DeleteObject.t :=
  fun data =>
    if String.eqb data "delete A" then
      Ok {| DeleteObject.Version := 2; DeleteObject.Kind := "flag";
            DeleteObject.Key := "A" |}
    else Err (errorString "invalid character").

Definition accepting_goodbye : Unmarshaler Goodbye.t :=
  fun data =>
    if String.eqb data "goodbye" then
      Ok {| Goodbye.Reason := "maintenance"; Goodbye.Silent := false;
            Goodbye.Catastrophe := false |}
    else Err (errorString "invalid character").

Definition accepting_error : Unmarshaler ErrorEvent.t :=
  fun data =>
    if String.eqb data "error p1" then
      Ok {| ErrorEvent.PayloadID := "p1"; ErrorEvent.Reason := "not found" |}
    else Err (errorString "invalid character").

Definition put_A : StreamProcessor.Event :=
  {| StreamProcessor.Name := EventPutObject; StreamProcessor.Data := "put A" |}.

Definition put_B : StreamProcessor.Event :=
  {| StreamProcessor.Name := EventPutObject; StreamProcessor.Data := "put B" |}.

Definition delete_A : StreamProcessor.Event :=
  {| StreamProcessor.Name := EventDeleteObject; StreamProcessor.Data := "delete A" |}.

Definition new_stream : StreamProcessor.State :=
  StreamProcessor.NewStreamProcessor sample_config None.

Definition started_builder : ChangeSetBuilder :=
  AddPut (snd (Start NewChangeSetBuilder (full_transfer "p1" 1 "payload-missing")))
         "flag" "A" 1 "{}".

(* ================================================================== *)
(** * Properties of ChangeSetBuilder *)

Lemma fold_add_intent (adds : list Addition) (c : ChangeSetBuilder) :
  intent (fold_left add adds c) = intent c.
Proof.
  revert c; induction adds as [|a adds IH]; intros c; simpl; [reflexivity|].
  rewrite IH. destruct a; reflexivity.
Qed.

Lemma fold_add_pending (adds : list Addition) (c : ChangeSetBuilder) :
  pending (fold_left add adds c) = pending c ++ map change_of adds.
Proof.
  revert c; induction adds as [|a adds IH]; intros c; simpl.
  - now rewrite app_nil_r.
  - rewrite IH. destruct a; simpl; now rewrite <- app_assoc.
Qed.

Lemma Finish_started (c : ChangeSetBuilder) (i : ServerIntent) (sel : Selector) :
  intent c = Some i ->
  Finish c sel =
    (Ok {| intentCode := Code (Payload i); changes := pending c; selector := sel |},
     {| intent := Some (if IntentCode_is_full (Code (Payload i))
                        then {| Payload := {| ID := ID (Payload i);
                                              Target := Target (Payload i);
                                              Code := IntentTransferChanges;
                                              Reason := Reason (Payload i) |} |}
                        else i);
        pending := [] |}).
Proof. intros H. unfold Finish. rewrite H. reflexivity. Qed.

(** C7.  After [Start] with a full-transfer intent, [Finish] returns a
    change set tagged full-transfer that holds the changes added so far, and
    empties the builder; a second [Finish] with no [Start] in between
    succeeds and returns a change set tagged incremental-transfer that holds
    only the changes added after the first [Finish].  On a builder that was
    never started, [Finish] returns an error and no change set. *)
Theorem Finish_full_then_incremental :
  forall (c : ChangeSetBuilder) (id : string) (target : Z) (reason : string)
         (adds1 adds2 adds : list Addition) (sel sel' : Selector),
    let started := snd (Start c (full_transfer id target reason)) in
    fst (Start c (full_transfer id target reason)) = None
    /\ (exists c1,
          Finish (fold_left add adds1 started) sel
          = (Ok {| intentCode := IntentTransferFull;
                   changes := map change_of adds1;
                   selector := sel |}, c1)
          /\ pending c1 = []
          /\ exists c2,
              Finish (fold_left add adds2 c1) sel'
              = (Ok {| intentCode := IntentTransferChanges;
                       changes := map change_of adds2;
                       selector := sel' |}, c2)
              /\ pending c2 = [])
    /\ Finish (fold_left add adds NewChangeSetBuilder) sel
       = (Err (errorString "changeset: cannot complete without a server-intent"),
          fold_left add adds NewChangeSetBuilder).
Proof.
  intros c id target reason adds1 adds2 adds sel sel' started.
  split; [reflexivity|]. split.
  - eexists. split.
    + rewrite (@Finish_started _ (full_transfer id target reason));
        [| now rewrite fold_add_intent].
      rewrite fold_add_pending. simpl. reflexivity.
    + split; [reflexivity|].
      eexists. split.
      * erewrite Finish_started; [| rewrite fold_add_intent; reflexivity].
        rewrite fold_add_pending. simpl. reflexivity.
      * reflexivity.
  - unfold Finish. rewrite fold_add_intent. reflexivity.
Qed.

(* ================================================================== *)
(** * Properties of DataSystemConfigurationBuilder.Build *)

Section BuildProperties.
Import ldcomponents subsystems.
Variables ClientContext W : Type.
Variables DataStore DataInitializer DataSynchronizer : Type.

Local Notation Builder :=
  (DataSystemConfigurationBuilder ClientContext W DataStore DataInitializer DataSynchronizer).

Lemma genuine_app (d : Builder) (context : ClientContext) (tr1 tr2 : list Invocation) :
  forall w w1 w2,
    genuine d context w tr1 w1 -> genuine d context w1 tr2 w2 ->
    genuine d context w (tr1 ++ tr2) w2.
Proof.
  induction tr1 as [| c tr1 IH]; intros w w1 w2 H1 H2; simpl in *.
  - now subst w1.
  - destruct H1 as (call & Hat & Hf & Hrest).
    exists call. split; [exact Hat|]. split; [exact Hf|].
    now apply IH with w1.
Qed.

Lemma shaped_weaken {A} (d : Builder) (context : ClientContext)
      (N N' : error -> list Slot -> Prop) slots (m : BM W A) :
  (forall e c, N e c -> N' e c) -> shaped d context N slots m -> shaped d context N' slots m.
Proof.
  intros HN Hm st. destruct (Hm st) as (tr & Hlog & Hg & Hr).
  exists tr. split; [exact Hlog|]. split; [exact Hg|].
  destruct (fst (m st)); [exact Hr|].
  destruct Hr as [Hp [Hl | [Hc Hn]]]; (split; [exact Hp|]); auto.
Qed.

Lemma shaped_bret {A} (d : Builder) (context : ClientContext)
      (N : error -> list Slot -> Prop) (a : A) :
  shaped d context N [] (bret (W := W) a).
Proof.
  intros st. exists []. simpl. rewrite app_nil_r.
  repeat split; constructor.
Qed.

Lemma shaped_bfail {A} (d : Builder) (context : ClientContext)
      (N : error -> list Slot -> Prop) slots (e : error) :
  N e [] -> shaped d context N slots (bfail (W := W) (A := A) e).
Proof.
  intros HN st. exists []. simpl. rewrite app_nil_r.
  split; [reflexivity|]. split; [reflexivity|]. split; [now exists slots|].
  right. split; [constructor | exact HN].
Qed.

Lemma shaped_invoke {T} (d : Builder) (N : error -> list Slot -> Prop) (s : Slot)
      (b : ComponentConfigurer ClientContext W T) (context : ClientContext) :
  builder_at d s = Some (call_of b) ->
  shaped d context N [s] (invoke s b context).
Proof.
  intros Hat st. unfold invoke.
  assert (forall f w',
             f = fst (call_of b context (fst st)) ->
             w' = snd (call_of b context (fst st)) ->
             genuine d context (fst st) [ {| slot := s; failure := f |} ] w') as Hg.
  { intros f w' Hf Hw. simpl. exists (call_of b). now repeat split. }
  unfold call_of in Hg.
  destruct (b context (fst st)) as [r w'] eqn:Hb.
  destruct r as [x | e]; simpl in *.
  - exists [ {| slot := s; failure := None |} ]. simpl.
    split; [reflexivity|]. split; [now apply Hg|].
    repeat split. repeat constructor.
  - exists [ {| slot := s; failure := Some e |} ]. simpl.
    split; [reflexivity|]. split; [now apply Hg|]. split; [now exists []|].
    left. exists [], s. split; [reflexivity | constructor].
Qed.

Lemma clean_app (tr1 tr2 : list Invocation) :
  clean tr1 -> clean tr2 -> clean (tr1 ++ tr2).
Proof. intros H1 H2. apply Forall_app. now split. Qed.

Lemma shaped_bbind {A B} (d : Builder) (context : ClientContext)
      (N1 N2 : error -> list Slot -> Prop) s1 s2 (m : BM W A) (k : A -> BM W B) :
  shaped d context N1 s1 m -> (forall a, shaped d context N2 s2 (k a)) ->
  shaped d context
         (fun e called => N1 e called \/ exists later, called = s1 ++ later /\ N2 e later)
         (s1 ++ s2) (bbind m k).
Proof.
  intros Hm Hk st. unfold bbind.
  destruct (Hm st) as (tr1 & Hlog1 & Hg1 & Hr1).
  destruct (m st) as [[a | e] st1]; simpl in *.
  - destruct Hr1 as [Hs1 Hc1].
    destruct (Hk a st1) as (tr2 & Hlog2 & Hg2 & Hr2).
    exists (tr1 ++ tr2). split.
    { rewrite Hlog2, Hlog1. now rewrite app_assoc. }
    split.
    { now apply genuine_app with (fst st1). }
    destruct (fst (k a st1)) as [b | e].
    + destruct Hr2 as [Hs2 Hc2]. split.
      * now rewrite map_app, Hs1, Hs2.
      * now apply clean_app.
    + destruct Hr2 as [[rest Hrest] Hshape]. split.
      * exists rest. now rewrite map_app, Hs1, Hrest, app_assoc.
      * destruct Hshape as [(pre & s & Htr & Hpre) | [Hc2 HN]].
        -- left. exists (tr1 ++ pre), s. split.
           ++ now rewrite Htr, app_assoc.
           ++ now apply clean_app.
        -- right. split; [now apply clean_app|].
           right. exists (map slot tr2). split; [| exact HN].
           now rewrite map_app, Hs1.
  - exists tr1. split; [exact Hlog1|]. split; [exact Hg1|].
    destruct Hr1 as [[rest Hrest] Hshape]. split.
    + exists (rest ++ s2). now rewrite Hrest, app_assoc.
    + destruct Hshape as [Hl | [Hc HN]]; [now left | right; split; auto].
Qed.

Lemma shaped_build_initializers (d : Builder) (context : ClientContext)
      (bs : list (option (ComponentConfigurer ClientContext W (option DataInitializer)))) :
  forall (i : nat) (conf : Conf DataStore DataInitializer DataSynchronizer),
    (forall j, nth_error bs j = nth_error (initializerBuilders d) (i + j)) ->
    shaped d context (reports_nil bs i)
           (map SlotInitializer (seq i (length bs)))
           (build_initializers bs i context conf).
Proof.
  induction bs as [| [b |] rest IH]; intros i conf Hbs; simpl.
  - apply shaped_bret.
  - change (SlotInitializer i :: map SlotInitializer (seq (S i) (length rest)))
      with ([SlotInitializer i] ++ map SlotInitializer (seq (S i) (length rest))).
    eapply shaped_weaken;
      [| apply shaped_bbind with (N1 := fun _ _ => False)
                                 (N2 := reports_nil rest (S i))].
    + intros e called [H | (later & Hcalled & (j & Hj & Hfirst & He & Hlater))];
        [destruct H|].
      exists (S j). split; [exact Hj|]. split; [| split].
      * intros [| k] Hk; simpl; [discriminate | apply Hfirst; lia].
      * rewrite He. f_equal. lia.
      * now rewrite Hcalled, Hlater.
    + apply shaped_invoke. simpl.
      rewrite <- (Nat.add_0_r i), <- (Hbs 0%nat). reflexivity.
    + intros x. apply IH. intros j.
      replace (S i + j)%nat with (i + S j)%nat by lia. exact (Hbs (S j)).
  - apply shaped_bfail. exists 0%nat. split; [reflexivity|]. split; [| split].
    + intros k Hk. lia.
    + now rewrite Nat.add_0_r.
    + reflexivity.
Qed.

Lemma shaped_optional {T} (d : Builder) (s : Slot)
      (o : option (ComponentConfigurer ClientContext W T)) (context : ClientContext)
      (conf : Conf DataStore DataInitializer DataSynchronizer)
      (k : Conf DataStore DataInitializer DataSynchronizer -> T ->
           Conf DataStore DataInitializer DataSynchronizer) :
  builder_at d s = option_map call_of o ->
  shaped d context (fun _ _ => False) (if is_nil o then [] else [s])
         (match o with
          | Some b => bbind (invoke s b context) (fun x => bret (k conf x))
          | None => bret conf
          end).
Proof.
  intros Hat. destruct o as [b |]; simpl.
  - change [s] with ([s] ++ []).
    eapply shaped_weaken;
      [| apply shaped_bbind with (N1 := fun _ _ => False) (N2 := fun _ _ => False)].
    + intros e called [H | (later & _ & H)]; destruct H.
    + now apply shaped_invoke.
    + intros x. apply shaped_bret.
  - apply shaped_bret.
Qed.

Lemma shaped_Build_body (d : Builder) (context : ClientContext) :
  secondary_without_primary d = false ->
  shaped d context (stops_at_nil d) (schedule d) (Build_body d context).
Proof.
  intros Hguard. unfold Build_body, schedule. rewrite Hguard.
  eapply shaped_weaken;
    [| apply shaped_bbind with (N1 := fun _ _ => False)
                               (N2 := reports_nil (initializerBuilders d) 0)].
  - intros e called [H | (later & Hcalled & (j & Hj & Hfirst & He & Hlater))];
      [destruct H|].
    exists j. now rewrite Hcalled, Hlater.
  - apply shaped_optional with (k := @with_Store _ _ _). reflexivity.
  - intros conf1.
    eapply shaped_weaken;
      [| apply shaped_bbind with (N1 := reports_nil (initializerBuilders d) 0)
                                 (N2 := fun _ _ => False)].
    + intros e called [H | (later & _ & H)]; [exact H | destruct H].
    + apply shaped_build_initializers. reflexivity.
    + intros conf2.
      eapply shaped_weaken;
        [| apply shaped_bbind with (N1 := fun _ _ => False) (N2 := fun _ _ => False)].
      * intros e called [H | (later & _ & H)]; destruct H.
      * apply shaped_optional with (k := @with_Primary _ _ _). reflexivity.
      * intros conf3.
        rewrite <- (app_nil_r (if is_nil (secondarySyncBuilder d) then []
                               else [SlotSecondary])).
        eapply shaped_weaken;
          [| apply shaped_bbind with (N1 := fun _ _ => False) (N2 := fun _ _ => False)].
        -- intros e called [H | (later & _ & H)]; destruct H.
        -- apply shaped_optional with (k := @with_Secondary _ _ _). reflexivity.
        -- intros conf4. apply shaped_bret.
Qed.

Lemma failure_is_last (pre post pre' : list Invocation) (a x : Invocation) :
  pre ++ a :: post = pre' ++ [x] ->
  failure a <> None -> clean pre' ->
  post = [] /\ a = x.
Proof.
  revert pre'. induction pre as [| p pre IH]; intros pre' Heq Ha Hc.
  - destruct pre' as [| q pre']; simpl in Heq.
    + inversion Heq. now split.
    + inversion Heq; subst. inversion Hc; subst. contradiction.
  - destruct pre' as [| q pre']; simpl in Heq.
    + inversion Heq. destruct pre; discriminate.
    + inversion Heq; subst. inversion Hc; subst. now apply IH with pre'.
Qed.

Lemma clean_no_failure (pre post : list Invocation) (a : Invocation) :
  clean (pre ++ a :: post) -> failure a = None.
Proof.
  intros H. apply Forall_app in H. destruct H as [_ H]. now inversion H.
Qed.

(** What [Build] does once the check of the synchronizers has passed. *)
Lemma Build_runs_the_builders (d : Builder) (context : ClientContext) (w : W) :
  secondary_without_primary d = false ->
  genuine d context w (calls (Build d context w)) (world (Build d context w))
  /\ (exists rest, schedule d = map slot (calls (Build d context w)) ++ rest)
  /\ (forall pre s e post,
         calls (Build d context w)
         = pre ++ {| slot := s; failure := Some e |} :: post ->
         post = []
         /\ build_err (Build d context w) = Some e
         /\ built (Build d context w) = empty_DataSystemConfiguration)
  /\ (build_err (Build d context w) = None ->
        map slot (calls (Build d context w)) = schedule d
        /\ clean (calls (Build d context w)))
  /\ (forall e, build_err (Build d context w) = Some e ->
        built (Build d context w) = empty_DataSystemConfiguration
        /\ ((exists pre s, calls (Build d context w)
                           = pre ++ [ {| slot := s; failure := Some e |} ]
                           /\ clean pre)
            \/ (clean (calls (Build d context w))
                /\ stops_at_nil d e (map slot (calls (Build d context w)))))).
Proof.
  intros Hguard.
  destruct (shaped_Build_body d context Hguard (w, [])) as (tr & Hlog & Hg & Hr).
  unfold Build.
  destruct (Build_body d context (w, [])) as [[conf | err] [w' log]];
    simpl in *; subst log.
  - destruct Hr as [Hs Hc]. split; [exact Hg|]. split; [|split; [|split]].
    + exists []. now rewrite app_nil_r.
    + intros pre s e post Hcalls. exfalso.
      rewrite Hcalls in Hc. apply clean_no_failure in Hc. discriminate.
    + intros _. now split.
    + intros e He. discriminate.
  - destruct Hr as [Hp Hshape]. split; [exact Hg|]. split; [exact Hp|].
    split; [|split].
    + intros pre s e post Hcalls.
      destruct Hshape as [(pre' & s' & Htr & Hpre) | [Hc _]].
      * rewrite Htr in Hcalls. symmetry in Hcalls.
        apply failure_is_last in Hcalls; [| discriminate | exact Hpre].
        destruct Hcalls as [Hpost Heq]. inversion Heq. now subst.
      * rewrite Hcalls in Hc. apply clean_no_failure in Hc. discriminate.
    + discriminate.
    + intros e He. inversion He; subst e. split; [reflexivity|].
      destruct Hshape as [(pre' & s' & Htr & Hpre) | [Hc Hnil]].
      * left. now exists pre', s'.
      * right. now split.
Qed.

(** C2.  With a secondary but no primary synchronizer builder, [Build]
    returns the configuration error and the empty configuration without
    calling any builder.  Otherwise the builders are called in the order
    store, initializers in list order, primary, secondary, each on the
    environment that the call before it left; a builder that fails is the
    last one called, and [Build] returns its error with the empty
    configuration; [Build] succeeds only after calling every configured
    builder, all with success; and the only other way it ends is at the
    first nil entry of the initializer list, after the store and the
    initializers before it were built with success. *)
Theorem Build_order_and_abort (d : Builder) (context : ClientContext) (w : W) :
  (secondary_without_primary d = true ->
     build_err (Build d context w) = Some secondary_without_primary_error
     /\ built (Build d context w) = empty_DataSystemConfiguration
     /\ calls (Build d context w) = []
     /\ world (Build d context w) = w)
  /\ (secondary_without_primary d = false ->
        genuine d context w (calls (Build d context w)) (world (Build d context w))
        /\ (exists rest, schedule d = map slot (calls (Build d context w)) ++ rest)
        /\ (forall pre s e post,
               calls (Build d context w)
               = pre ++ {| slot := s; failure := Some e |} :: post ->
               post = []
               /\ build_err (Build d context w) = Some e
               /\ built (Build d context w) = empty_DataSystemConfiguration)
        /\ (build_err (Build d context w) = None ->
              map slot (calls (Build d context w)) = schedule d
              /\ clean (calls (Build d context w)))
        /\ (forall e, build_err (Build d context w) = Some e ->
              built (Build d context w) = empty_DataSystemConfiguration
              /\ ((exists pre s, calls (Build d context w)
                                 = pre ++ [ {| slot := s; failure := Some e |} ]
                                 /\ clean pre)
                  \/ (clean (calls (Build d context w))
                      /\ exists i,
                          nth_error (initializerBuilders d) i = Some None
                          /\ (forall j, (j < i)%nat ->
                                        nth_error (initializerBuilders d) j <> Some None)
                          /\ e = nil_initializer_error i
                          /\ map slot (calls (Build d context w))
                             = (if is_nil (storeBuilder d) then [] else [SlotStore])
                               ++ map SlotInitializer (seq 0 i))))).
Proof.
  split.
  - intros Hguard. unfold Build, Build_body. rewrite Hguard. simpl.
    repeat split.
  - intros Hguard. exact (Build_runs_the_builders d context w Hguard).
Qed.

End BuildProperties.

(* ================================================================== *)
(** * Properties of the effect monad *)

Lemma bind_Done {S A B} (m : M S A) (k : A -> M S B) (s s' : S) (a : A) (tr : list Action) :
  m s = Done a s' tr ->
  bind m k s = match k a s' with
               | Done b s'' tr' => Done b s'' (tr ++ tr')
               | Panic tr' => Panic (tr ++ tr')
               end.
Proof. intros H. unfold bind. now rewrite H. Qed.

Lemma firings_app (tr1 tr2 : list Action) :
  firings (tr1 ++ tr2) = (firings tr1 + firings tr2)%nat.
Proof. unfold firings. now rewrite filter_app, length_app. Qed.

(* ================================================================== *)
(** * Properties of the streaming synchronizer *)

Section StreamProperties.
Import StreamProcessor.
Context {platform : Platform}.
Context {env : Environment}.
Context {U_raw : Unmarshaler RawObject}
        {U_intent : Unmarshaler ServerIntent}
        {U_put : Unmarshaler PutObject.t}
        {U_delete : Unmarshaler DeleteObject.t}
        {U_goodbye : Unmarshaler Goodbye.t}
        {U_error : Unmarshaler ErrorEvent.t}.

Lemma on_event_malformed (b : ChangeSetBuilder) (event : Event) (err : error) (s : State) :
  body_error event = Some err ->
  on_event b event s
  = Done NewChangeSetBuilder s
         [UpdateStatus DataSourceStateInterrupted (invalid_data err); StreamRestart].
Proof.
  destruct event as [name data]. unfold body_error, on_event, handle. simpl.
  destruct name; simpl; try discriminate;
    cbv beta delta [json_Unmarshal U_selector];
    match goal with
    | |- decode_error ?r = _ -> _ => destruct r as [x | e]; simpl; intros H; inversion H; subst
    end; reflexivity.
Qed.

(** C3.  When the body of an event fails to parse, whatever its type, the
    consumer reports Interrupted with kind Invalid-Data, does not report
    Valid, restarts the stream, leaves the processor as it was and goes on
    with a new builder: what follows is what follows from an empty builder,
    so nothing of the discarded accumulation can reach the destination. *)
Theorem malformed_event_discards_and_restarts :
  forall (b : ChangeSetBuilder) (event : Event) (err : error) (s : State)
         (rest : list Step),
    body_error event = Some err ->
    on_event b event s
    = Done NewChangeSetBuilder s
           [UpdateStatus DataSourceStateInterrupted (invalid_data err); StreamRestart]
    /\ run (Waiting b) (Selects (RecvEvent event) :: rest) s
       = (emit (UpdateStatus DataSourceStateInterrupted (invalid_data err)) ;;
          emit StreamRestart ;;
          run (Waiting NewChangeSetBuilder) rest) s.
Proof.
  intros b event err s rest H.
  pose proof (on_event_malformed b event s H) as Hev.
  split; [exact Hev|].
  simpl run. unfold step, consumeStream_select.
  unfold bind at 1. unfold bind at 1. rewrite Hev. simpl.
  unfold bind, emit.
  destruct (run (Waiting NewChangeSetBuilder) rest s); reflexivity.
Qed.

Lemma on_event_payload_transferred (b : ChangeSetBuilder) (i : ServerIntent)
      (data : string) (sel : Selector) (s : State) :
  intent b = Some i ->
  UnmarshalJSON (json_Unmarshal (T := RawObject)) data = Ok sel ->
  on_event b {| Name := EventPayloadTransferred; Data := data |} s
  = (dispatch {| intentCode := Code (Payload i); changes := pending b; selector := sel |} ;;
     setInitializedAndNotifyClient true ;;
     emit (UpdateStatus DataSourceStateValid no_error) ;;
     ret (snd (Finish b sel))) s.
Proof.
  intros Hi Hsel. unfold on_event, handle. simpl.
  cbv beta delta [json_Unmarshal U_selector] in *. rewrite Hsel.
  rewrite (Finish_started b sel Hi). simpl.
  destruct s as [c h ini hlt rdy cls chan].
  destruct (Code (Payload i)), rdy, chan; reflexivity.
Qed.

Lemma destination_calls_dispatch (cs : ChangeSet) (k : M State ChangeSetBuilder) (s : State) :
  (forall s', destination_calls (trace (k s')) = []) ->
  destination_calls (trace ((dispatch cs ;; k) s)) = expected_destination_calls cs.
Proof.
  intros Hk. unfold dispatch, expected_destination_calls, ChangeSet_IntentCode, bind.
  destruct (intentCode cs); simpl;
    specialize (Hk s); destruct (k s); simpl in *; rewrite ?Hk; reflexivity.
Qed.

(** C4.  From a new processor, a full-transfer server-intent, put-object
    events for two keys at version 1 and a payload-transferred event with
    selector (s1, 1) make the consumer call [SetBasis] once, with the two
    puts in order, that selector and persist set, call [ApplyDelta] never,
    and then mark the processor initialized and close the ready channel.
    In general a payload-transferred event on a started builder seals the
    accumulation and hands it to [SetBasis] when the intent is
    full-transfer, to [ApplyDelta] when it is incremental-transfer, and to
    neither otherwise, before the processor is marked initialized. *)
Theorem sealed_change_set_is_dispatched_by_intent :
  forall (c : StreamConfig) (h : option http.Header)
         (d1 d2 d3 d4 id reason : string) (target : Z)
         (kindA keyA kindB keyB : string) (objA objB : RawMessage) (s1 : string)
         (b : ChangeSetBuilder) (i : ServerIntent) (data : string) (sel : Selector)
         (s : State),
    json_Unmarshal d1 = Ok (full_transfer id target reason) ->
    json_Unmarshal d2 = Ok {| PutObject.Version := 1; PutObject.Kind := kindA;
                              PutObject.Key := keyA; PutObject.Object := objA |} ->
    json_Unmarshal d3 = Ok {| PutObject.Version := 1; PutObject.Kind := kindB;
                              PutObject.Key := keyB; PutObject.Object := objB |} ->
    UnmarshalJSON (json_Unmarshal (T := RawObject)) d4 = Ok (NewSelector s1 1) ->
    intent b = Some i ->
    UnmarshalJSON (json_Unmarshal (T := RawObject)) data = Ok sel ->
    consumeStream [RecvEvent {| Name := EventServerIntent; Data := d1 |};
                   RecvEvent {| Name := EventPutObject; Data := d2 |};
                   RecvEvent {| Name := EventPutObject; Data := d3 |};
                   RecvEvent {| Name := EventPayloadTransferred; Data := d4 |}]
                  (NewStreamProcessor c h)
    = Done (Waiting {| intent := Some {| Payload := {| ID := id; Target := target;
                                                       Code := IntentTransferChanges;
                                                       Reason := reason |} |};
                       pending := [] |})
           (mkState c h true false true false true)
           [UpdateStatus DataSourceStateValid no_error;
            UpdateStatus DataSourceStateValid no_error;
            UpdateStatus DataSourceStateValid no_error;
            SetBasis [change_of (Put kindA keyA 1 objA); change_of (Put kindB keyB 1 objB)]
                     (NewSelector s1 1) true;
            ReadyFired;
            UpdateStatus DataSourceStateValid no_error]
    /\ on_event b {| Name := EventPayloadTransferred; Data := data |} s
       = (dispatch {| intentCode := Code (Payload i); changes := pending b;
                      selector := sel |} ;;
          setInitializedAndNotifyClient true ;;
          emit (UpdateStatus DataSourceStateValid no_error) ;;
          ret (snd (Finish b sel))) s
    /\ destination_calls
         (trace (on_event b {| Name := EventPayloadTransferred; Data := data |} s))
       = expected_destination_calls
           {| intentCode := Code (Payload i); changes := pending b; selector := sel |}.
Proof.
  intros c h d1 d2 d3 d4 id reason target kindA keyA kindB keyB objA objB s1
         b i data sel s H1 H2 H3 H4 Hi Hsel.
  split; [| split].
  - unfold consumeStream. simpl.
    unfold consumeStream_select, on_event, handle, bind. simpl.
    cbv beta delta [json_Unmarshal U_selector] in *.
    rewrite H1. simpl. rewrite H2. simpl. rewrite H3. simpl. rewrite H4. simpl.
    reflexivity.
  - now apply on_event_payload_transferred.
  - rewrite (on_event_payload_transferred b data s Hi Hsel).
    apply destination_calls_dispatch.
    intros s'. destruct s' as [c' h' ini hlt rdy cls chan].
    destruct rdy, chan; reflexivity.
Qed.

(** C5.  A well-formed server-intent whose code is none marks the processor
    initialized and closes the ready channel (if it is still open) within
    the handling of that very event, reports Valid, leaves the builder as it
    was and calls neither [SetBasis] nor [ApplyDelta]. *)
Theorem server_intent_none_signals_ready :
  forall (b : ChangeSetBuilder) (data : string) (serverIntent : ServerIntent) (s : State),
    json_Unmarshal data = Ok serverIntent ->
    Code (Payload serverIntent) = IntentNone ->
    closeWhenReady s = readyOnce s ->
    on_event b {| Name := EventServerIntent; Data := data |} s
    = Done b (set_readyOnce true (set_closeWhenReady true (set_isInitialized true s)))
           ((if readyOnce s then [] else [ReadyFired])
            ++ [UpdateStatus DataSourceStateValid no_error])
    /\ destination_calls
         (trace (on_event b {| Name := EventServerIntent; Data := data |} s)) = [].
Proof.
  intros b data serverIntent s Hd Hc Hinv.
  assert (on_event b {| Name := EventServerIntent; Data := data |} s
          = Done b (set_readyOnce true (set_closeWhenReady true (set_isInitialized true s)))
                 ((if readyOnce s then [] else [ReadyFired])
                  ++ [UpdateStatus DataSourceStateValid no_error])) as Heq.
  { unfold on_event, handle. simpl.
    cbv beta delta [json_Unmarshal] in *. rewrite Hd, Hc.
    destruct s as [c h ini hlt rdy cls chan]. simpl in Hinv. subst chan.
    destruct rdy; reflexivity. }
  split; [exact Heq|].
  rewrite Heq. simpl. destruct (readyOnce s); reflexivity.
Qed.

End StreamProperties.

(* ================================================================== *)
(** * Properties of the stream request *)

Lemma list_ascii_of_string_app (a b : string) :
  list_ascii_of_string (a ++ b) = list_ascii_of_string a ++ list_ascii_of_string b.
Proof. induction a as [| c a IH]; simpl; [reflexivity | now rewrite IH]. Qed.

Lemma escape_byte_no_ampersand (c x : ascii) :
  In x (list_ascii_of_string (url.escape_byte c)) -> x <> "&"%char.
Proof.
  destruct c as [[] [] [] [] [] [] [] []]; vm_compute; intros H;
    repeat (destruct H as [H | H]; [subst x; discriminate|]); contradiction.
Qed.

Lemma QueryEscape_no_ampersand (s : string) (x : ascii) :
  In x (list_ascii_of_string (url.QueryEscape s)) -> x <> "&"%char.
Proof.
  induction s as [| c s IH]; simpl; [contradiction|].
  rewrite list_ascii_of_string_app, in_app_iff.
  intros [H | H]; [now apply escape_byte_no_ampersand with c | now apply IH].
Qed.

Lemma components_single (s : string) :
  (forall x, In x (list_ascii_of_string s) -> x <> "&"%char) ->
  url.components s = [s].
Proof.
  induction s as [| c s IH]; intros H; simpl; [reflexivity|].
  destruct (Ascii.eqb_spec c "&") as [-> | _].
  - exfalso. apply (H "&"%char); [now left | reflexivity].
  - rewrite IH; [reflexivity|]. intros x Hx. apply H. now right.
Qed.

Lemma Encode_filter (key : string) :
  url.Encode [("filter", [key])] = ("filter=" ++ url.QueryEscape key)%string.
Proof. reflexivity. Qed.

Lemma Get_basis_of_filter (key : string) :
  url.Get ("filter=" ++ url.QueryEscape key) "basis" = None.
Proof.
  unfold url.Get, url.ParseQuery. rewrite components_single.
  - unfold flat_map, url.pair_of.
    destruct (url.contains ";" _); [reflexivity|].
    cbn [append String.eqb Ascii.eqb Bool.eqb url.Cut].
    cbn [url.QueryUnescape Ascii.eqb Bool.eqb].
    destruct (url.QueryUnescape (url.QueryEscape key)); reflexivity.
  - intros x. simpl.
    intros [H | [H | [H | [H | [H | [H | [H | H]]]]]]];
      try (subst x; discriminate).
    now apply QueryEscape_no_ampersand with key.
Qed.

Section RequestProperties.
Import StreamProcessor.
Context {env : Environment}.

(** C1, as the code has it.  With a filter key configured, the request that
    [subscribe] prepares carries the filter as its whole query, whatever the
    resume selector: assigning [RawQuery] replaces the basis that was
    appended to the path, so a defined selector's state does not reach the
    server. *)
Theorem filter_key_replaces_basis_query :
  forall (c : StreamConfig) (h : option http.Header) (sel : Selector)
         (req : http.Request),
    FilterKey c <> "" ->
    subscribe_request c h sel = Ok req ->
    url.RawQuery (http.URL req) = ("filter=" ++ url.QueryEscape (FilterKey c))%string
    /\ url.Get (url.RawQuery (http.URL req)) "basis" = None.
Proof.
  intros c h sel req Hkey Hreq.
  assert (url.RawQuery (http.URL req)
          = ("filter=" ++ url.QueryEscape (FilterKey c))%string) as Hq.
  { unfold subscribe_request in Hreq.
    destruct (NewRequest "GET" _) as [r | e]; [| discriminate].
    apply String.eqb_neq in Hkey. rewrite Hkey in Hreq. simpl in Hreq.
    rewrite Encode_filter in Hreq.
    destruct h; inversion Hreq; reflexivity. }
  split; [exact Hq|]. rewrite Hq. apply Get_basis_of_filter.
Qed.

End RequestProperties.

(** The request for the sample configuration with filter key f and the
    defined selector (s1, 1) is accepted, and its query is the filter alone. *)
Lemma filter_key_replaces_basis_query_witness :
  StreamProcessor.subscribe_request (env := sample_env) sample_filtered_config None
                                    (NewSelector "s1" 1)
  = Ok {| http.Method := "GET";
          http.URL := {| url.Location := "http://localhost:8765/sdk/stream";
                         url.RawQuery := "filter=f";
                         url.Fragment := "" |};
          http.Header_ := [] |}
  /\ IsDefined (NewSelector "s1" 1) = true
  /\ url.Get "filter=f" "basis" = None.
Proof.
  split; [reflexivity|]. split; [reflexivity|].
  refine (proj2 (@filter_key_replaces_basis_query sample_env sample_filtered_config None
                   (NewSelector "s1" 1) _ _ eq_refl)).
  discriminate.
Defined.

(* ================================================================== *)
(** * The one-shot guards as an invariant *)

Section Keeps.
Variables (S : Type) (chan : S -> bool) (P : S -> Prop).

Lemma keeps_ret {A} (a : A) : keeps chan P (ret a).
Proof. intros s Hs. simpl. now split. Qed.

Lemma keeps_bind {A B} (m : M S A) (k : A -> M S B) :
  keeps chan P m -> (forall a, keeps chan P (k a)) -> keeps chan P (bind m k).
Proof.
  intros Hm Hk s Hs. unfold bind.
  specialize (Hm s Hs). destruct (m s) as [a s1 tr1 |]; [| contradiction].
  destruct Hm as [H1 F1].
  specialize (Hk a s1 H1). destruct (k a s1) as [b s2 tr2 |]; [| contradiction].
  destruct Hk as [H2 F2]. simpl. split; [exact H2|].
  rewrite firings_app. lia.
Qed.

Lemma keeps_emit (a : Action) : is_ReadyFired a = false -> keeps chan P (emit a).
Proof.
  intros Ha s Hs. simpl. split; [exact Hs|].
  unfold firings. simpl. now rewrite Ha.
Qed.

Lemma keeps_when (b : bool) (m : M S unit) :
  keeps chan P m -> keeps chan P (when b m).
Proof. intros Hm. destruct b; [exact Hm | apply keeps_ret]. Qed.

Lemma keeps_dispatch (cs : ChangeSet) : keeps chan P (dispatch cs).
Proof.
  unfold dispatch. destruct (ChangeSet_IntentCode cs);
    first [now apply keeps_emit | apply keeps_ret].
Qed.

Lemma keeps_fires_once {A} (m : M S A) (s : S) :
  keeps chan P m -> P s ->
  completes (m s) (fun _ s' tr =>
    P s' /\ (firings tr <= 1)%nat
    /\ (firings tr + fired (chan s) = fired (chan s'))%nat).
Proof.
  intros Hm Hs. specialize (Hm s Hs).
  destruct (m s) as [a s' tr |]; [| contradiction].
  destruct Hm as [H' F]. simpl. repeat split; try assumption.
  unfold fired in F. destruct (chan s), (chan s'); lia.
Qed.

End Keeps.

(* ================================================================== *)
(** * Properties of the polling synchronizer *)

Lemma Polling_Fetch_success {Context : Type} (ctx : Context) (cs : ChangeSet) :
  PollingProcessor.Fetch ctx (Ok cs)
  = (Some {| subsystems.Events := changes cs;
             subsystems.Selector := selector cs;
             subsystems.Persist := true |}, None).
Proof. reflexivity. Qed.

(** C10.  [StreamProcessor.Fetch] returns no basis and an error for every
    context.  [PollingProcessor.Fetch] returns, when the request succeeds, a
    basis that holds the changes and the selector of the requester's change
    set with the persist flag set, and otherwise the requester's error. *)
Theorem Fetch_capabilities :
  forall (Context : Type) (ctx : Context) (cs : ChangeSet) (err : error),
    (exists e, StreamProcessor.Fetch ctx = (None, Some e))
    /\ PollingProcessor.Fetch ctx (Ok cs)
       = (Some {| subsystems.Events := Changes cs;
                  subsystems.Selector := ChangeSet_Selector cs;
                  subsystems.Persist := true |}, None)
    /\ PollingProcessor.Fetch ctx (Err err) = (None, Some err).
Proof.
  intros Context ctx cs err. split; [| split].
  - eexists. reflexivity.
  - apply Polling_Fetch_success.
  - reflexivity.
Qed.

Section PollProperties.
Import PollingProcessor.
Context {env : Environment}.

Lemma keeps_notifyReady : keeps closeWhenReady PollInv.guarded notifyReady.
Proof.
  intros [once ini q cls rdy ch] [Hq Hr]. simpl in *. subst.
  unfold notifyReady, Once_Do, bind, get. simpl.
  destruct rdy; simpl; repeat split.
Qed.

Lemma keeps_Polling_Close : keeps closeWhenReady PollInv.guarded Close.
Proof.
  intros [once ini q cls rdy ch] [Hq Hr]. simpl in *. subst.
  unfold Close, Once_Do, bind, get. simpl.
  destruct cls; simpl; repeat split; destruct rdy; reflexivity.
Qed.

Lemma keeps_set_isInitialized (v : bool) :
  keeps closeWhenReady PollInv.guarded (modify (set_isInitialized v)).
Proof.
  intros [once ini q cls rdy ch] [Hq Hr]. simpl in *. subst. repeat split.
Qed.

Lemma keeps_setInitializedOnce :
  keeps closeWhenReady PollInv.guarded
        (Once_Do setInitializedOnce (set_setInitializedOnce true)
                 (modify (set_isInitialized true) ;; notifyReady)).
Proof.
  intros [once ini q cls rdy ch] [Hq Hr]. simpl in *. subst.
  unfold notifyReady, Once_Do, bind, get. simpl.
  destruct once, rdy; simpl; repeat split.
Qed.

Lemma keeps_on_tick (response : result ChangeSet) :
  keeps closeWhenReady PollInv.guarded (on_tick response).
Proof.
  unfold on_tick, poll. destruct response as [cs | err].
  - apply keeps_bind.
    + apply keeps_bind; [apply keeps_dispatch | intros; apply keeps_ret].
    + intros [e |].
      * destruct e as [m | m code | m | code m];
          try (apply keeps_bind; [now apply keeps_emit | intros; apply keeps_ret]).
        destruct (checkIfErrorIsRecoverableAndLog code).
        -- apply keeps_bind; [now apply keeps_emit | intros; apply keeps_ret].
        -- apply keeps_bind; [now apply keeps_emit | intros].
           apply keeps_bind; [apply keeps_notifyReady | intros; apply keeps_ret].
      * apply keeps_bind; [now apply keeps_emit | intros].
        apply keeps_bind; [apply keeps_setInitializedOnce | intros; apply keeps_ret].
  - apply keeps_bind; [apply keeps_ret|].
    intros [e |].
    + destruct e as [m | m code | m | code m];
        try (apply keeps_bind; [now apply keeps_emit | intros; apply keeps_ret]).
      destruct (checkIfErrorIsRecoverableAndLog code).
      * apply keeps_bind; [now apply keeps_emit | intros; apply keeps_ret].
      * apply keeps_bind; [now apply keeps_emit | intros].
        apply keeps_bind; [apply keeps_notifyReady | intros; apply keeps_ret].
    + apply keeps_bind; [now apply keeps_emit | intros].
      apply keeps_bind; [apply keeps_setInitializedOnce | intros; apply keeps_ret].
Qed.

Lemma keeps_Sync_select (sel : Select) :
  keeps closeWhenReady PollInv.guarded (Sync_select sel).
Proof.
  unfold Sync_select. apply keeps_bind.
  - destruct sel; [| apply keeps_on_tick].
    apply keeps_bind; [intros s Hs; simpl; now split|].
    intros s. destruct (quit s); apply keeps_ret.
  - intros [u |]; [apply keeps_ret|].
    apply keeps_bind; [apply keeps_notifyReady | intros; apply keeps_ret].
Qed.

Lemma keeps_Polling_run (steps : list Step) :
  forall l, keeps closeWhenReady PollInv.guarded (run l steps).
Proof.
  induction steps as [| st rest IH]; intros l; simpl; [apply keeps_ret|].
  apply keeps_bind; [| intros; apply IH].
  destruct st as [sel |]; simpl.
  - destruct l; [apply keeps_Sync_select | apply keeps_ret].
  - apply keeps_bind; [apply keeps_Polling_Close | intros; apply keeps_ret].
Qed.

Lemma Polling_ready_once (steps : list Step) :
  completes (Sync steps newPollingProcessor)
            (fun _ s' tr => (firings tr <= 1)%nat
                            /\ firings tr = fired (closeWhenReady s')
                            /\ PollInv.fired_through_guard s').
Proof.
  assert (PollInv.guarded newPollingProcessor) as H0 by (split; reflexivity).
  pose proof (keeps_fires_once (keeps_Polling_run steps (Waiting tt)) H0) as H.
  unfold Sync. destruct (run (Waiting tt) steps newPollingProcessor) as [l s' tr |];
    [| contradiction].
  simpl in *. destruct H as [[Hq Hr] [H1 HF]].
  repeat split; [exact H1 | lia |].
  intros Hc. now rewrite <- Hr.
Qed.

Lemma Polling_returned_is_silent (steps : list Step) :
  forall s, trace (run Returned steps s) = [].
Proof.
  induction steps as [| st rest IH]; intros s; simpl; [reflexivity|].
  destruct st as [sel |]; simpl.
  - unfold bind, ret. specialize (IH s).
    destruct (run Returned rest s); simpl in *; now rewrite IH.
  - destruct s as [once ini q cls rdy ch].
    unfold bind, Close, Once_Do, get, ret. simpl.
    destruct cls; simpl.
    + match goal with |- context [run Returned rest ?x] => specialize (IH x) end.
      destruct (run Returned rest _); simpl in *; now rewrite IH.
    + destruct q; simpl; [reflexivity|].
      match goal with |- context [run Returned rest ?x] => specialize (IH x) end.
      destruct (run Returned rest _); simpl in *; now rewrite IH.
Qed.

(** C6.  When a poll fails with an HTTP status error, the loop consults the
    classification of the status code.  A recoverable status is reported as
    Interrupted with an Error-Response that carries the code, and the loop
    waits for the next tick with nothing else changed.  Any other status is
    reported as Off with the same error info, the ready channel is closed
    unless it was closed before, and the goroutine returns: from then on the
    run reports, polls and applies nothing. *)
Theorem http_status_error_is_classified :
  forall (s : State) (msg : string) (code : Z) (rest : list Step),
    closeWhenReady s = readyOnce s ->
    Sync_select (RecvTick (Err (httpStatusError msg code))) s
    = (if checkIfErrorIsRecoverableAndLog code
       then Done (Waiting tt) s
                 [UpdateStatus DataSourceStateInterrupted (error_response code)]
       else Done Returned (set_readyOnce true (set_closeWhenReady true s))
                 (UpdateStatus DataSourceStateOff (error_response code)
                  :: (if readyOnce s then [] else [ReadyFired])))
    /\ run (Waiting tt) (Selects (RecvTick (Err (httpStatusError msg code))) :: rest) s
       = (if checkIfErrorIsRecoverableAndLog code
          then (emit (UpdateStatus DataSourceStateInterrupted (error_response code)) ;;
                run (Waiting tt) rest) s
          else (emit (UpdateStatus DataSourceStateOff (error_response code)) ;;
                notifyReady ;;
                run Returned rest) s)
    /\ (forall s', trace (run Returned rest s') = []).
Proof.
  intros s msg code rest Hinv.
  assert (Sync_select (RecvTick (Err (httpStatusError msg code))) s
          = (if checkIfErrorIsRecoverableAndLog code
             then Done (Waiting tt) s
                       [UpdateStatus DataSourceStateInterrupted (error_response code)]
             else Done Returned (set_readyOnce true (set_closeWhenReady true s))
                       (UpdateStatus DataSourceStateOff (error_response code)
                        :: (if readyOnce s then [] else [ReadyFired])))) as Hsel.
  { destruct s as [once ini q cls rdy ch]. simpl in Hinv. subst ch.
    unfold Sync_select, on_tick, poll, notifyReady, Once_Do, bind, get. simpl.
    destruct (checkIfErrorIsRecoverableAndLog code); [reflexivity|].
    destruct rdy; reflexivity. }
  split; [exact Hsel|]. split; [| apply Polling_returned_is_silent].
  simpl run. unfold step. unfold bind at 1. rewrite Hsel.
  destruct (checkIfErrorIsRecoverableAndLog code).
  - unfold bind, emit. destruct (run (Waiting tt) rest s); reflexivity.
  - destruct s as [once ini q cls rdy ch]. simpl in Hinv. subst ch.
    unfold notifyReady, Once_Do, bind, emit, get.
    destruct rdy; cbn; unfold set_readyOnce, set_closeWhenReady; cbn;
      match goal with |- context [run Returned rest ?x] =>
        destruct (run Returned rest x) end; reflexivity.
Qed.

End PollProperties.

(* ================================================================== *)
(** * The ready signal and Close in the streaming synchronizer *)

Lemma bind_get {S A} (k : S -> M S A) (s : S) : bind get k s = k s s.
Proof. unfold bind, get. destruct (k s s); reflexivity. Qed.

Lemma bind_ret_l {S A B} (a : A) (k : A -> M S B) (s : S) : bind (ret a) k s = k a s.
Proof. unfold bind, ret. destruct (k a s); reflexivity. Qed.

Lemma bind_then_ret {S A B C} (m : M S A) (b : B) (k : B -> M S C) (s : S) :
  bind (bind m (fun _ => ret b)) k s = bind m (fun _ => k b) s.
Proof.
  unfold bind, ret. destruct (m s) as [a s1 tr1 |]; [| reflexivity].
  destruct (k b s1); now rewrite app_nil_r.
Qed.

Lemma keeps_ext {S A} (chan : S -> bool) (P : S -> Prop) (m m' : M S A) :
  (forall s, m s = m' s) -> keeps chan P m' -> keeps chan P m.
Proof. intros He Hm s Hs. rewrite He. now apply Hm. Qed.

Section StreamReady.
Import StreamProcessor.
Context {platform : Platform}.
Context {env : Environment}.
Context {U_raw : Unmarshaler RawObject}
        {U_intent : Unmarshaler ServerIntent}
        {U_put : Unmarshaler PutObject.t}
        {U_delete : Unmarshaler DeleteObject.t}
        {U_goodbye : Unmarshaler Goodbye.t}
        {U_error : Unmarshaler ErrorEvent.t}.

Lemma keeps_setInitializedAndNotifyClient (success : bool) :
  keeps closeWhenReady StreamInv.guarded (setInitializedAndNotifyClient success).
Proof.
  intros [c h ini hlt rdy cls ch] [Hh Hr]. simpl in *. subst.
  unfold setInitializedAndNotifyClient, Once_Do, when, bind, get.
  destruct success, rdy; simpl; repeat split.
Qed.

Lemma keeps_Stream_Close (P : State -> Prop) :
  (forall s, P s -> halt s = closeOnce s) ->
  (forall s, P s -> P (set_closeOnce true (set_halt true s))) ->
  keeps closeWhenReady P Close.
Proof.
  intros Hhalt Hset [c h ini hlt rdy cls ch] Hs.
  pose proof (Hhalt _ Hs) as Hh. pose proof (Hset _ Hs) as Hs'.
  simpl in Hh. subst hlt.
  unfold Close, Once_Do, bind, get. simpl.
  destruct cls; simpl; (split; [assumption | destruct ch; reflexivity]).
Qed.

Lemma keeps_Close_guarded : keeps closeWhenReady StreamInv.guarded Close.
Proof.
  apply keeps_Stream_Close.
  - now intros s [Hh _].
  - intros s [Hh Hr]. split; [reflexivity | exact Hr].
Qed.

Lemma keeps_Close_halt_guarded : keeps closeWhenReady StreamInv.halt_guarded Close.
Proof.
  apply keeps_Stream_Close.
  - now intros s Hh.
  - intros s Hh. reflexivity.
Qed.

Lemma keeps_errorHandler (P : State -> Prop) (err : error) :
  keeps closeWhenReady P (errorHandler err).
Proof.
  unfold errorHandler.
  destruct err as [m | m code | m | code m];
    try (apply keeps_bind; [now apply keeps_emit | intros; apply keeps_ret]).
  destruct (checkIfErrorIsRecoverableAndLog code);
    (apply keeps_bind; [now apply keeps_emit | intros; apply keeps_ret]).
Qed.

Lemma keeps_gotMalformedEvent (event : option Event) (err : error) :
  keeps closeWhenReady StreamInv.guarded (gotMalformedEvent event err).
Proof.
  unfold gotMalformedEvent.
  apply keeps_bind; [now apply keeps_emit | intros; apply keeps_ret].
Qed.

Lemma keeps_handle (b : ChangeSetBuilder) (event : Event) :
  keeps closeWhenReady StreamInv.guarded (handle b event).
Proof.
  unfold handle. destruct (Name event); try apply keeps_ret.
  - destruct (json_Unmarshal (Data event)) as [i | e];
      [| apply keeps_gotMalformedEvent].
    destruct (Code (Payload i)); simpl; try apply keeps_ret.
    apply keeps_bind;
      [apply keeps_setInitializedAndNotifyClient | intros; apply keeps_ret].
  - destruct (json_Unmarshal (Data event)) as [p | e];
      [apply keeps_ret | apply keeps_gotMalformedEvent].
  - destruct (json_Unmarshal (Data event)) as [p | e];
      [apply keeps_ret | apply keeps_gotMalformedEvent].
  - destruct (json_Unmarshal (Data event)) as [p | e];
      [apply keeps_ret | apply keeps_gotMalformedEvent].
  - destruct (json_Unmarshal (Data event)) as [p | e];
      [apply keeps_ret | apply keeps_gotMalformedEvent].
  - destruct (json_Unmarshal (Data event)) as [sel | e];
      [| apply keeps_gotMalformedEvent].
    destruct (Finish b sel) as [[cs | e] b']; [| apply keeps_gotMalformedEvent].
    apply keeps_bind; [apply keeps_dispatch | intros].
    apply keeps_bind;
      [apply keeps_setInitializedAndNotifyClient | intros; apply keeps_ret].
Qed.

Lemma keeps_on_event (b : ChangeSetBuilder) (event : Event) :
  keeps closeWhenReady StreamInv.guarded (on_event b event).
Proof.
  unfold on_event. apply keeps_bind; [apply keeps_handle | intros it].
  apply keeps_bind; [apply keeps_when; now apply keeps_emit | intros].
  apply keeps_bind; [apply keeps_when; now apply keeps_emit | intros].
  apply keeps_ret.
Qed.

Lemma keeps_consumeStream_select (b : ChangeSetBuilder) (sel : Select) :
  keeps closeWhenReady StreamInv.guarded (consumeStream_select b sel).
Proof.
  destruct sel as [event | |]; simpl.
  - apply keeps_bind; [apply keeps_on_event | intros; apply keeps_ret].
  - apply keeps_ret.
  - apply keeps_bind; [intros s Hs; simpl; now split|].
    intros s. destruct (halt s); [| apply keeps_ret].
    apply keeps_bind; [now apply keeps_emit | intros; apply keeps_ret].
Qed.

Lemma keeps_Stream_run (steps : list Step) :
  forall l, keeps closeWhenReady StreamInv.guarded (run l steps).
Proof.
  induction steps as [| st rest IH]; intros l; simpl; [apply keeps_ret|].
  apply keeps_bind; [| intros; apply IH].
  destruct st as [sel | err |]; simpl.
  - destruct l; [apply keeps_consumeStream_select | apply keeps_ret].
  - apply keeps_bind; [apply keeps_errorHandler | intros; apply keeps_ret].
  - apply keeps_bind; [apply keeps_Close_guarded | intros; apply keeps_ret].
Qed.

Lemma keeps_Stream_run_Returned (steps : list Step) :
  keeps closeWhenReady StreamInv.halt_guarded (run Returned steps).
Proof.
  induction steps as [| st rest IH]; simpl; [apply keeps_ret|].
  destruct st as [sel | err |]; simpl.
  - eapply keeps_ext; [intros s; apply bind_ret_l | exact IH].
  - eapply keeps_ext; [intros s; apply bind_then_ret|].
    apply keeps_bind; [apply keeps_errorHandler | intros; exact IH].
  - eapply keeps_ext; [intros s; apply bind_then_ret|].
    apply keeps_bind; [apply keeps_Close_halt_guarded | intros; exact IH].
Qed.

Lemma errorHandler_leaves_state (err : error) (s : State) :
  exists (closeNow : bool) (a : Action),
    errorHandler err s = Done closeNow s [a] /\ is_ReadyFired a = false.
Proof.
  unfold errorHandler.
  destruct err as [m | m code | m | code m];
    try (eexists; eexists; split; reflexivity).
  destruct (checkIfErrorIsRecoverableAndLog code);
    (eexists; eexists; split; reflexivity).
Qed.

Lemma report_failures_leaves_state (errs : list error) (s : State) :
  exists tr, report_failures errs s = Done tt s tr /\ firings tr = 0%nat.
Proof.
  induction errs as [| err rest IH]; simpl.
  - exists []. now split.
  - destruct IH as (tr & Hrest & Hf).
    destruct (errorHandler_leaves_state err s) as (closeNow & a & Hh & Ha).
    erewrite bind_Done; [| exact Hh]. rewrite Hrest.
    eexists. split; [reflexivity|].
    unfold firings in *. simpl. now rewrite Ha.
Qed.

Lemma after_setup_failure (c : StreamConfig) (h : option http.Header)
      (steps : list Step) (pre : list Action) :
  firings pre = 0%nat ->
  completes
    (match run Returned steps (set_closeWhenReady true (NewStreamProcessor c h)) with
     | Done l s' tr => Done l s' (pre ++ ReadyFired :: tr)
     | Panic tr => Panic (pre ++ ReadyFired :: tr)
     end)
    (fun _ s' tr => (firings tr <= 1)%nat /\ firings tr = fired (closeWhenReady s')).
Proof.
  intros Hpre.
  assert (StreamInv.halt_guarded (set_closeWhenReady true (NewStreamProcessor c h)))
    as H0 by reflexivity.
  pose proof (keeps_fires_once (keeps_Stream_run_Returned steps) H0) as H.
  destruct (run Returned steps _) as [l s' tr |]; [| contradiction].
  simpl in *. destruct H as [_ [H1 HF]].
  rewrite firings_app, Hpre. unfold firings in *. simpl.
  unfold fired in *. destruct (closeWhenReady s'); lia.
Qed.

Lemma Stream_ready_once (c : StreamConfig) (h : option http.Header) (sel : Selector)
      (conn : Connection) (steps : list Step) :
  completes (Sync sel conn steps (NewStreamProcessor c h))
            (fun _ s' tr =>
               (firings tr <= 1)%nat
               /\ firings tr = fired (closeWhenReady s')
               /\ (connected conn = true ->
                   (exists req, subscribe_request c h sel = Ok req) ->
                   StreamInv.fired_through_guard s')).
Proof.
  unfold Sync, subscribe. rewrite bind_get. simpl cfg. simpl headers.
  destruct (subscribe_request c h sel) as [req | reqErr].
  - destruct (report_failures_leaves_state (failed_attempts conn) (NewStreamProcessor c h))
      as (tr0 & Hrep & Hf0).
    destruct (connected conn).
    + unfold bind at 1. unfold bind at 1. rewrite Hrep. simpl.
      assert (StreamInv.guarded (NewStreamProcessor c h)) as H0 by (split; reflexivity).
      pose proof (keeps_fires_once (keeps_Stream_run steps (Waiting NewChangeSetBuilder)) H0)
        as H.
      destruct (run (Waiting NewChangeSetBuilder) steps _) as [l s' tr |];
        [| contradiction].
      simpl in *. destruct H as [[Hh Hr] [H1 HF]].
      rewrite app_nil_r, firings_app, Hf0. simpl.
      repeat split; [exact H1 | lia |].
      intros _ _ Hc. now rewrite <- Hr.
    + unfold bind at 1. unfold bind at 1. unfold bind at 1. rewrite Hrep.
      simpl.
      pose proof (after_setup_failure c h steps tr0 Hf0) as H.
      destruct (run Returned steps _) as [l s' tr |]; [| contradiction].
      simpl in *. rewrite <- app_assoc. simpl.
      destruct H as [H1 HF]. repeat split; [exact H1 | exact HF |].
      intros Hfalse. discriminate.
  - unfold bind at 1. simpl.
    pose proof (after_setup_failure c h steps
                  [UpdateStatus DataSourceStateOff
                     {| interfaces.Kind := DataSourceErrorKindUnknown;
                        StatusCode := 0; Message := Error reqErr |}] eq_refl) as H.
    destruct (run Returned steps _) as [l s' tr |]; [| contradiction].
    simpl in *. destruct H as [H1 HF]. repeat split; [exact H1 | exact HF |].
    intros _ [req Hreq]. discriminate.
Qed.

End StreamReady.

Lemma completes_impl {S A} (o : Outcome S A) (P Q : A -> S -> list Action -> Prop) :
  (forall a s tr, P a s tr -> Q a s tr) -> completes o P -> completes o Q.
Proof. intros H. destruct o; simpl; [apply H | exact (fun x => x)]. Qed.

(** C8, as the code has it.  From a new processor and an open ready channel,
    every run of either synchronizer completes without a panic and closes
    the ready channel at most once.  In the polling synchronizer every
    closing goes through the one-shot guard of its goroutine.  In the
    streaming synchronizer the closings made while the stream is consumed go
    through [readyOnce]; the two connection-setup failures close the channel
    directly, and nothing closes it afterwards. *)
Theorem ready_fires_at_most_once :
  forall (platform : Platform) (env : Environment)
         (U_raw : Unmarshaler RawObject) (U_intent : Unmarshaler ServerIntent)
         (U_put : Unmarshaler PutObject.t) (U_delete : Unmarshaler DeleteObject.t)
         (U_goodbye : Unmarshaler Goodbye.t) (U_error : Unmarshaler ErrorEvent.t)
         (c : StreamProcessor.StreamConfig) (h : option http.Header) (sel : Selector)
         (conn : StreamProcessor.Connection)
         (stream_steps : list StreamProcessor.Step)
         (poll_steps : list PollingProcessor.Step),
    completes (StreamProcessor.Sync sel conn stream_steps
                                    (StreamProcessor.NewStreamProcessor c h))
              (fun _ s' tr =>
                 (firings tr <= 1)%nat
                 /\ firings tr = fired (StreamProcessor.closeWhenReady s')
                 /\ (StreamProcessor.connected conn = true ->
                     (exists req, StreamProcessor.subscribe_request c h sel = Ok req) ->
                     StreamInv.fired_through_guard s'))
    /\ completes (PollingProcessor.Sync poll_steps PollingProcessor.newPollingProcessor)
                 (fun _ s' tr =>
                    (firings tr <= 1)%nat
                    /\ firings tr = fired (PollingProcessor.closeWhenReady s')
                    /\ PollInv.fired_through_guard s').
Proof.
  intros. split; [apply Stream_ready_once | apply Polling_ready_once].
Qed.

(** C9, as the code has it.  [Close] is idempotent on both synchronizers and
    returns nil.  The first [Close] of the streaming synchronizer reports
    Off once, and its loop, when it receives from [halt], closes the stream
    and returns without a status update.  [Close] of the polling
    synchronizer reports nothing, and its loop, when it receives from
    [quit], returns without a status update, closing the ready channel if it
    is still open. *)
Theorem Close_is_idempotent_and_ends_the_loop :
  forall (platform : Platform) (env : Environment)
         (U_raw : Unmarshaler RawObject) (U_intent : Unmarshaler ServerIntent)
         (U_put : Unmarshaler PutObject.t) (U_delete : Unmarshaler DeleteObject.t)
         (U_goodbye : Unmarshaler Goodbye.t) (U_error : Unmarshaler ErrorEvent.t)
         (ss : StreamProcessor.State) (ps : PollingProcessor.State)
         (b : ChangeSetBuilder),
    (StreamProcessor.halt ss = StreamProcessor.closeOnce ss ->
     exists s1,
       StreamProcessor.Close ss
       = Done None s1 (if StreamProcessor.closeOnce ss then []
                       else [UpdateStatus DataSourceStateOff no_error])
       /\ StreamProcessor.Close s1 = Done None s1 []
       /\ StreamProcessor.consumeStream_select b StreamProcessor.RecvHalt s1
          = Done Returned s1 [StreamClose])
    /\ (PollingProcessor.quit ps = PollingProcessor.closeOnce ps ->
        PollingProcessor.closeWhenReady ps = PollingProcessor.readyOnce ps ->
        exists s1,
          PollingProcessor.Close ps = Done None s1 []
          /\ PollingProcessor.Close s1 = Done None s1 []
          /\ PollingProcessor.Sync_select PollingProcessor.RecvQuit s1
             = Done Returned
                    (PollingProcessor.set_readyOnce true
                       (PollingProcessor.set_closeWhenReady true s1))
                    (if PollingProcessor.readyOnce ps then [] else [ReadyFired])).
Proof.
  intros platform env U_raw U_intent U_put U_delete U_goodbye U_error ss ps b. split.
  - destruct ss as [c h ini hlt rdy cls ch]. simpl. intros ->.
    destruct cls; eexists; repeat split.
  - destruct ps as [once ini q cls rdy ch]. simpl. intros -> ->.
    destruct cls, rdy; eexists; repeat split.
Qed.

(* ================================================================== *)
(** * The properties on sample runs *)

(** With a secondary and no primary, no sample builder is called; with a
    failing primary, the store and both initializers are built first and the
    secondary never is; a nil initializer ends the build after the first. *)
Lemma Build_order_and_abort_witness :
  (ldcomponents.build_err (ldcomponents.Build secondary_only tt 0%nat)
   = Some secondary_without_primary_error
   /\ ldcomponents.calls (ldcomponents.Build secondary_only tt 0%nat) = []
   /\ ldcomponents.world (ldcomponents.Build secondary_only tt 0%nat) = 0%nat)
  /\ (ldcomponents.calls (ldcomponents.Build failing_primary tt 0%nat)
      = [ {| ldcomponents.slot := ldcomponents.SlotStore;
             ldcomponents.failure := None |};
          {| ldcomponents.slot := ldcomponents.SlotInitializer 0;
             ldcomponents.failure := None |};
          {| ldcomponents.slot := ldcomponents.SlotInitializer 1;
             ldcomponents.failure := None |};
          {| ldcomponents.slot := ldcomponents.SlotPrimary;
             ldcomponents.failure := Some (errorString "no such endpoint") |} ]
      /\ ldcomponents.build_err (ldcomponents.Build failing_primary tt 0%nat)
         = Some (errorString "no such endpoint")
      /\ ldcomponents.built (ldcomponents.Build failing_primary tt 0%nat)
         = subsystems.empty_DataSystemConfiguration)
  /\ (ldcomponents.build_err (ldcomponents.Build nil_initializer tt 0%nat)
      = Some (nil_initializer_error 1)
      /\ exists rest,
          ldcomponents.schedule nil_initializer
          = map ldcomponents.slot
                (ldcomponents.calls (ldcomponents.Build nil_initializer tt 0%nat)) ++ rest).
Proof.
  split; [| split].
  - destruct (proj1 (Build_order_and_abort secondary_only tt 0%nat) eq_refl)
      as (He & _ & Hc & Hw).
    exact (conj He (conj Hc Hw)).
  - split; [reflexivity|].
    destruct (proj2 (Build_order_and_abort failing_primary tt 0%nat) eq_refl)
      as (_ & _ & Hlast & _).
    destruct (Hlast _ _ _ [] eq_refl) as (_ & He & Hb).
    exact (conj He Hb).
  - split; [reflexivity|].
    exact (proj1 (proj2 (proj2 (Build_order_and_abort nil_initializer tt 0%nat) eq_refl))).
Defined.

(** A put-object event whose body the sample decoder rejects. *)
Lemma malformed_event_discards_and_restarts_witness :
  StreamProcessor.on_event
    (platform := linux_amd64) (U_raw := sample_raw) (U_intent := sample_intent) (U_put := sample_put)
    (U_delete := sample_delete) (U_goodbye := sample_goodbye) (U_error := sample_error)
    (AddPut (snd (Start NewChangeSetBuilder (full_transfer "p1" 1 "payload-missing")))
            "flag" "A" 1 "{}")
    {| StreamProcessor.Name := EventPutObject; StreamProcessor.Data := "put" |}
    (StreamProcessor.NewStreamProcessor sample_config None)
  = Done NewChangeSetBuilder (StreamProcessor.NewStreamProcessor sample_config None)
         [UpdateStatus DataSourceStateInterrupted
                       (invalid_data (errorString "invalid character"));
          StreamRestart].
Proof.
  exact (proj1 (@malformed_event_discards_and_restarts
                  linux_amd64 sample_env sample_raw sample_intent sample_put sample_delete
                  sample_goodbye sample_error _
                  {| StreamProcessor.Name := EventPutObject; StreamProcessor.Data := "put" |}
                  (errorString "invalid character") _ [] eq_refl)).
Defined.

(** The scenario of C4 on the sample events. *)
Lemma sealed_change_set_is_dispatched_by_intent_witness :
  destination_calls
    (trace (StreamProcessor.consumeStream
              (env := sample_env)
              (platform := linux_amd64) (U_raw := sample_raw) (U_intent := sample_intent) (U_put := sample_put)
              (U_delete := sample_delete) (U_goodbye := sample_goodbye)
              (U_error := sample_error)
              sample_events
              (StreamProcessor.NewStreamProcessor sample_config None)))
  = [SetBasis [change_of (Put "flag" "A" 1 "{}"); change_of (Put "flag" "B" 1 "{}")]
              (NewSelector "s1" 1) true].
Proof.
  unfold sample_events.
  rewrite (proj1 (@sealed_change_set_is_dispatched_by_intent
                    linux_amd64 sample_env sample_raw sample_intent sample_put sample_delete
                    sample_goodbye sample_error sample_config None
                    "intent full" "put A" "put B" "selector s1 1"
                    _ _ _ _ _ _ _ _ _ _
                    (snd (Start NewChangeSetBuilder (full_transfer "p1" 1 "payload-missing")))
                    _ "selector s1 1" _
                    (StreamProcessor.NewStreamProcessor sample_config None)
                    eq_refl eq_refl eq_refl eq_refl eq_refl eq_refl)).
  reflexivity.
Defined.

(** A server-intent with code none on a new processor. *)
Lemma server_intent_none_signals_ready_witness :
  StreamProcessor.on_event
    (platform := linux_amd64) (U_raw := sample_raw) (U_intent := sample_intent) (U_put := sample_put)
    (U_delete := sample_delete) (U_goodbye := sample_goodbye) (U_error := sample_error)
    NewChangeSetBuilder
    {| StreamProcessor.Name := EventServerIntent; StreamProcessor.Data := "intent none" |}
    (StreamProcessor.NewStreamProcessor sample_config None)
  = Done NewChangeSetBuilder
         (StreamProcessor.mkState sample_config None true false true false true)
         [ReadyFired; UpdateStatus DataSourceStateValid no_error].
Proof.
  exact (proj1 (@server_intent_none_signals_ready
                  linux_amd64 sample_raw sample_intent sample_put sample_delete sample_goodbye
                  sample_error NewChangeSetBuilder "intent none" _
                  (StreamProcessor.NewStreamProcessor sample_config None)
                  eq_refl eq_refl eq_refl)).
Defined.

(** A first poll answered 401, and a first poll answered 500. *)
Lemma http_status_error_is_classified_witness :
  PollingProcessor.Sync_select
    (env := sample_env)
    (PollingProcessor.RecvTick (Err (httpStatusError "unauthorized" 401)))
    PollingProcessor.newPollingProcessor
  = Done Returned (PollingProcessor.mkState false false false false true true)
         [UpdateStatus DataSourceStateOff (error_response 401); ReadyFired]
  /\ PollingProcessor.Sync_select
       (env := sample_env)
       (PollingProcessor.RecvTick (Err (httpStatusError "server error" 500)))
       PollingProcessor.newPollingProcessor
     = Done (Waiting tt) PollingProcessor.newPollingProcessor
            [UpdateStatus DataSourceStateInterrupted (error_response 500)].
Proof.
  split.
  - exact (proj1 (@http_status_error_is_classified
                    sample_env PollingProcessor.newPollingProcessor
                    "unauthorized" 401 [] eq_refl)).
  - exact (proj1 (@http_status_error_is_classified
                    sample_env PollingProcessor.newPollingProcessor
                    "server error" 500 [] eq_refl)).
Defined.

(** On the sample runs the ready channel is closed once, through the guard. *)
Lemma ready_fires_at_most_once_witness :
  completes (StreamProcessor.Sync
               (env := sample_env)
               (platform := linux_amd64) (U_raw := sample_raw) (U_intent := sample_intent) (U_put := sample_put)
               (U_delete := sample_delete) (U_goodbye := sample_goodbye)
               (U_error := sample_error)
               NoSelector sample_connection sample_stream_steps
               (StreamProcessor.NewStreamProcessor sample_config None))
            (fun _ s' tr =>
               (firings tr <= 1)%nat /\ StreamInv.fired_through_guard s')
  /\ completes (PollingProcessor.Sync (env := sample_env) sample_poll_steps
                                      PollingProcessor.newPollingProcessor)
               (fun _ s' tr =>
                  (firings tr <= 1)%nat /\ PollInv.fired_through_guard s').
Proof.
  destruct (ready_fires_at_most_once
              linux_amd64 sample_env sample_raw sample_intent sample_put sample_delete
              sample_goodbye sample_error sample_config None NoSelector
              sample_connection sample_stream_steps sample_poll_steps) as [Hs Hp].
  split.
  - eapply completes_impl; [| exact Hs].
    intros a s tr (H1 & _ & Hg). split; [exact H1|].
    apply Hg; [reflexivity | eexists; reflexivity].
  - eapply completes_impl; [| exact Hp].
    intros a s tr (H1 & _ & Hg). now split.
Defined.

(** [Close] on a new streaming processor and on a new polling processor. *)
Lemma Close_is_idempotent_and_ends_the_loop_witness :
  (exists s1,
      StreamProcessor.Close (StreamProcessor.NewStreamProcessor sample_config None)
      = Done None s1 [UpdateStatus DataSourceStateOff no_error]
      /\ StreamProcessor.Close s1 = Done None s1 []
      /\ StreamProcessor.consumeStream_select
           (platform := linux_amd64) (U_raw := sample_raw) (U_intent := sample_intent) (U_put := sample_put)
           (U_delete := sample_delete) (U_goodbye := sample_goodbye)
           (U_error := sample_error)
           NewChangeSetBuilder StreamProcessor.RecvHalt s1
         = Done Returned s1 [StreamClose])
  /\ (exists s1,
         PollingProcessor.Close PollingProcessor.newPollingProcessor = Done None s1 []
         /\ PollingProcessor.Close s1 = Done None s1 []
         /\ PollingProcessor.Sync_select (env := sample_env) PollingProcessor.RecvQuit s1
            = Done Returned
                   (PollingProcessor.set_readyOnce true
                      (PollingProcessor.set_closeWhenReady true s1))
                   [ReadyFired]).
Proof.
  destruct (Close_is_idempotent_and_ends_the_loop
              linux_amd64 sample_env sample_raw sample_intent sample_put sample_delete
              sample_goodbye sample_error
              (StreamProcessor.NewStreamProcessor sample_config None)
              PollingProcessor.newPollingProcessor NewChangeSetBuilder) as [Hs Hp].
  split; [exact (Hs eq_refl) | exact (Hp eq_refl eq_refl)].
Defined.

(* ================================================================== *)
(** * Where the code departs from the specification *)

(** C8.  When the connection cannot be set up, because the event source
    gives up or because the request cannot be built, [subscribe] closes the
    ready channel itself: the channel is closed while [readyOnce] has not
    run. *)
Lemma setup_failure_fires_outside_readyOnce :
  (StreamProcessor.Sync
     (env := sample_env)
     (platform := linux_amd64) (U_raw := sample_raw) (U_intent := sample_intent) (U_put := sample_put)
     (U_delete := sample_delete) (U_goodbye := sample_goodbye) (U_error := sample_error)
     NoSelector
     {| StreamProcessor.failed_attempts := [SubscriptionError 401 "unauthorized"];
        StreamProcessor.connected := false |}
     []
     (StreamProcessor.NewStreamProcessor sample_config None)
   = Done Returned
          (StreamProcessor.mkState sample_config None false false false false true)
          [UpdateStatus DataSourceStateOff (error_response 401); ReadyFired])
  /\ (StreamProcessor.Sync
        (env := sample_env)
        (platform := linux_amd64) (U_raw := sample_raw) (U_intent := sample_intent) (U_put := sample_put)
        (U_delete := sample_delete) (U_goodbye := sample_goodbye) (U_error := sample_error)
        NoSelector sample_connection []
        (StreamProcessor.NewStreamProcessor
           {| StreamProcessor.URI := "http://local host";
              StreamProcessor.InitialReconnectDelay := 0;
              StreamProcessor.FilterKey := "" |} None)
      = Done Returned
             (StreamProcessor.mkState
                {| StreamProcessor.URI := "http://local host";
                   StreamProcessor.InitialReconnectDelay := 0;
                   StreamProcessor.FilterKey := "" |} None false false false false true)
             [UpdateStatus DataSourceStateOff
                {| interfaces.Kind := DataSourceErrorKindUnknown; StatusCode := 0;
                   Message := "invalid character in URL" |};
              ReadyFired])
  /\ ~ StreamInv.fired_through_guard
         (StreamProcessor.mkState sample_config None false false false false true).
Proof.
  split; [reflexivity|]. split; [reflexivity|].
  intros H. specialize (H eq_refl). discriminate.
Defined.

(** C9.  Closing the polling synchronizer and letting its loop receive from
    [quit] reports no status at all: there is no transition to Off.  And
    when a tick is due at the moment of [Close], the [select] may still take
    it, so that a status is reported after [Close] returned. *)
Lemma polling_close_reports_no_status :
  PollingProcessor.Sync
    (env := sample_env)
    [PollingProcessor.CallsClose;
     PollingProcessor.Selects PollingProcessor.RecvQuit;
     PollingProcessor.CallsClose]
    PollingProcessor.newPollingProcessor
  = Done Returned (PollingProcessor.mkState false false true true true true) [ReadyFired]
  /\ ~ In (DataSourceStateOff, no_error) (status_updates [ReadyFired])
  /\ status_updates
       (trace (PollingProcessor.Sync
                 (env := sample_env)
                 [PollingProcessor.CallsClose;
                  PollingProcessor.Selects
                    (PollingProcessor.RecvTick (Ok (NoChanges NewChangeSetBuilder)));
                  PollingProcessor.Selects PollingProcessor.RecvQuit]
                 PollingProcessor.newPollingProcessor))
     = [(DataSourceStateValid, no_error)].
Proof.
  split; [reflexivity|]. split; [| reflexivity]. intros H. exact H.
Defined.

(* ================================================================== *)
(** * Further properties of Selector and ChangeSetBuilder *)

(** A selector is undefined exactly when its state is empty and its version
    is zero. *)
Lemma IsDefined_iff (st : string) (v : Z) :
  IsDefined (NewSelector st v) = true <-> st <> "" \/ v <> 0.
Proof.
  unfold IsDefined, Selector_eqb, NoSelector. simpl.
  rewrite negb_true_iff, andb_false_iff, String.eqb_neq, Z.eqb_neq. reflexivity.
Qed.

Lemma truncate_toward_zero (v : Q) :
  ((0 <= v)%Q -> (inject_Z (truncate v) <= v)%Q /\ (v < inject_Z (truncate v + 1))%Q)
  /\ ((v <= 0)%Q -> (inject_Z (truncate v - 1) < v)%Q /\ (v <= inject_Z (truncate v))%Q).
Proof.
  destruct v as [n d]. unfold truncate, Qle, Qlt. simpl.
  rewrite !Z.mul_1_r.
  pose proof (Pos2Z.is_pos d) as Hd.
  split; intros Hn.
  - assert (0 <= n) as Hn' by lia.
    rewrite Z.quot_div_nonneg by lia.
    pose proof (Z.mul_div_le n (Zpos d) Hd).
    pose proof (Z.mul_succ_div_gt n (Zpos d) Hd).
    lia.
  - assert (n <= 0) as Hn' by lia.
    replace n with (- (- n)) by lia.
    rewrite Z.quot_opp_l by lia.
    rewrite Z.quot_div_nonneg by lia.
    pose proof (Z.mul_div_le (- n) (Zpos d) Hd).
    pose proof (Z.mul_succ_div_gt (- n) (Zpos d) Hd).
    lia.
Qed.

(** X1.  [UnmarshalJSON] returns a selector exactly when the body decodes to
    an object whose state is a string and whose version is a number.  The
    selector then carries that string; its version is the number rounded
    toward zero whenever that is an [int] of the target, and otherwise
    whatever the target makes of the conversion.  The state is looked at
    first: without a string state the error is the missing-state one,
    whatever the version. *)
Theorem UnmarshalJSON_accepts_iff :
  forall (platform : Platform) (u : string -> result RawObject) (data : string)
         (sel : Selector),
    (UnmarshalJSON u data = Ok sel <->
     exists raw st v,
       u data = Ok raw
       /\ raw "state" = Some (JString st)
       /\ raw "version" = Some (JNumber v)
       /\ State sel = st
       /\ (- 2 ^ (IntSize - 1) <= truncate v < 2 ^ (IntSize - 1) ->
           Version sel = truncate v)
       /\ (~ - 2 ^ (IntSize - 1) <= truncate v < 2 ^ (IntSize - 1) ->
           Version sel = int_of_unrepresentable v))
    /\ (forall v : Q,
           ((0 <= v)%Q ->
            (inject_Z (truncate v) <= v)%Q /\ (v < inject_Z (truncate v + 1))%Q)
           /\ ((v <= 0)%Q ->
               (inject_Z (truncate v - 1) < v)%Q /\ (v <= inject_Z (truncate v))%Q))
    /\ (forall raw, u data = Ok raw ->
                    (forall st, raw "state" <> Some (JString st)) ->
                    UnmarshalJSON u data
                    = Err (errorString "unmarshal selector: missing state field"))
    /\ (forall err, u data = Err err -> UnmarshalJSON u data = Err err).
Proof.
  intros platform u data sel.
  assert (forall v,
             (- 2 ^ (IntSize - 1) <= truncate v < 2 ^ (IntSize - 1) ->
              int_of_float64 v = truncate v)
             /\ (~ - 2 ^ (IntSize - 1) <= truncate v < 2 ^ (IntSize - 1) ->
                 int_of_float64 v = int_of_unrepresentable v)) as Hconv.
  { intros v. unfold int_of_float64, fits_int.
    destruct (Z.leb_spec (- 2 ^ (IntSize - 1)) (truncate v));
      destruct (Z.ltb_spec (truncate v) (2 ^ (IntSize - 1))); simpl;
      split; intros; try reflexivity; lia. }
  unfold UnmarshalJSON. split; [| split; [| split]].
  - split.
    + destruct (u data) as [raw | e]; [| discriminate].
      destruct (raw "state") as [[st | f |] |] eqn:Hs; try discriminate.
      destruct (raw "version") as [[st' | v |] |] eqn:Hv; try discriminate.
      intros H. inversion H. exists raw, st, v.
      split; [reflexivity|]. split; [exact Hs|]. split; [exact Hv|].
      split; [reflexivity|]. exact (Hconv v).
    + intros (raw & st & v & Hu & Hs & Hv & Hst & Hin & Hout).
      rewrite Hu, Hs, Hv. destruct sel as [st' ver]. simpl in *. subst st'.
      f_equal. f_equal.
      destruct (Hconv v) as [Hi Ho].
      destruct (Z.le_gt_cases (- 2 ^ (IntSize - 1)) (truncate v));
        destruct (Z.lt_ge_cases (truncate v) (2 ^ (IntSize - 1)));
        first [ rewrite Hi, Hin by lia; reflexivity
              | rewrite Ho, Hout by lia; reflexivity ].
  - exact truncate_toward_zero.
  - intros raw Hu Hs. rewrite Hu.
    destruct (raw "state") as [[st | f |] |]; try reflexivity.
    now destruct (Hs st).
  - intros err Hu. now rewrite Hu.
Qed.

Lemma next_code_idempotent (c : IntentCode) : next_code (next_code c) = next_code c.
Proof. destruct c; reflexivity. Qed.

Lemma finish_rounds_started (rounds : list (list Addition * Selector)) :
  forall (c : ChangeSetBuilder) (i : ServerIntent),
    intent c = Some i -> pending c = [] ->
    fst (finish_rounds c rounds) = sealed_rounds (Code (Payload i)) rounds
    /\ intent (snd (finish_rounds c rounds)) <> None.
Proof.
  induction rounds as [| [adds sel] rest IH]; intros c i Hi Hp; simpl.
  - split; [reflexivity | now rewrite Hi].
  - rewrite (@Finish_started (fold_left add adds c) i sel)
      by now rewrite fold_add_intent.
    rewrite fold_add_pending, Hp. simpl.
    destruct (Code (Payload i)) eqn:Hc; simpl;
      match goal with
      | |- context [finish_rounds ?c1 rest] =>
          destruct (IH c1 _ eq_refl eq_refl) as [Hr Hn];
          destruct (finish_rounds c1 rest) as [rs c2]
      end;
      simpl in *; rewrite ?Hc in Hr; (split; [now rewrite Hr | exact Hn]).
Qed.

(** X2.  [Start] drops whatever the builder held.  After it, every [Finish]
    succeeds, however many follow without another [Start]: each returns the
    changes added since the previous one, in the order they were added, with
    the selector it was given; the first carries the announced intent code,
    and the later ones incremental-transfer if the announced code was
    full-transfer, the announced code otherwise. *)
Theorem Finish_rounds_after_Start :
  forall (c : ChangeSetBuilder) (i : ServerIntent)
         (rounds : list (list Addition * Selector)),
    fst (finish_rounds (snd (Start c i)) rounds)
    = sealed_rounds (Code (Payload i)) rounds.
Proof.
  intros c i rounds.
  exact (proj1 (@finish_rounds_started rounds (snd (Start c i)) i eq_refl eq_refl)).
Qed.

(** X3.  On a builder that was never started every [Finish] fails, and the
    additions are kept: they pile up across the failed attempts instead of
    being cleared. *)
Theorem Finish_rounds_without_Start :
  forall (rounds : list (list Addition * Selector)),
    finish_rounds NewChangeSetBuilder rounds
    = (map (fun _ => Err (errorString "changeset: cannot complete without a server-intent"))
           rounds,
       {| intent := None; pending := map change_of (flat_map fst rounds) |}).
Proof.
  intros rounds.
  assert (forall c, intent c = None ->
            finish_rounds c rounds
            = (map (fun _ => Err (errorString
                                    "changeset: cannot complete without a server-intent"))
                   rounds,
               {| intent := None;
                  pending := pending c ++ map change_of (flat_map fst rounds) |})) as H.
  { induction rounds as [| [adds sel] rest IH]; intros c Hc; simpl.
    - rewrite app_nil_r. destruct c; simpl in *. now subst.
    - unfold Finish. rewrite fold_add_intent, Hc.
      rewrite IH by now rewrite fold_add_intent.
      rewrite fold_add_pending, map_app, app_assoc. reflexivity. }
  exact (H NewChangeSetBuilder eq_refl).
Qed.

(* ================================================================== *)
(** * Further properties of the stream consumer *)

Lemma prepend_nil {S A} (o : Outcome S A) : prepend [] o = o.
Proof. destruct o; reflexivity. Qed.

Lemma prepend_app {S A} (p q : list Action) (o : Outcome S A) :
  prepend (p ++ q) o = prepend p (prepend q o).
Proof. destruct o; simpl; now rewrite app_assoc. Qed.

Lemma trace_prepend {S A} (p : list Action) (o : Outcome S A) :
  trace (prepend p o) = p ++ trace o.
Proof. destruct o; reflexivity. Qed.

Lemma trace_bind {S A B} (m : M S A) (k : A -> M S B) (s : S) :
  trace (bind m k s)
  = match m s with
    | Done a s' tr => tr ++ trace (k a s')
    | Panic tr => tr
    end.
Proof.
  unfold bind. destruct (m s) as [a s' tr |]; [| reflexivity].
  destruct (k a s'); reflexivity.
Qed.

Lemma destination_calls_app (p q : list Action) :
  destination_calls (p ++ q) = destination_calls p ++ destination_calls q.
Proof. unfold destination_calls. apply filter_app. Qed.

Lemma destination_calls_valid (n : nat) :
  destination_calls (repeat valid_status n) = [].
Proof. induction n; [reflexivity | exact IHn]. Qed.

Lemma firings_valid (n : nat) : firings (repeat valid_status n) = 0%nat.
Proof. induction n; [reflexivity | exact IHn]. Qed.

Lemma firings_cons_valid (l : list Action) : firings (valid_status :: l) = firings l.
Proof. reflexivity. Qed.

Lemma destination_calls_cons_valid (l : list Action) :
  destination_calls (valid_status :: l) = destination_calls l.
Proof. reflexivity. Qed.

Section StreamEvents.
Import StreamProcessor.
Context {platform : Platform}.
Context {env : Environment}.
Context {U_raw : Unmarshaler RawObject}
        {U_intent : Unmarshaler ServerIntent}
        {U_put : Unmarshaler PutObject.t}
        {U_delete : Unmarshaler DeleteObject.t}
        {U_goodbye : Unmarshaler Goodbye.t}
        {U_error : Unmarshaler ErrorEvent.t}.

Lemma run_event (b b1 : ChangeSetBuilder) (event : Event) (s s1 : State)
      (tr1 : list Action) (steps : list Step) :
  on_event b event s = Done b1 s1 tr1 ->
  run (Waiting b) (Selects (RecvEvent event) :: steps) s
  = prepend tr1 (run (Waiting b1) steps s1).
Proof.
  intros H. simpl run. unfold step, consumeStream_select.
  unfold bind at 1. unfold bind at 1. rewrite H. simpl.
  rewrite app_nil_r. destruct (run (Waiting b1) steps s1); reflexivity.
Qed.

Lemma on_event_decodes (b : ChangeSetBuilder) (event : Event) (a : Addition) (s : State) :
  decodes event a -> on_event b event s = Done (add b a) s [valid_status].
Proof.
  destruct event as [name data]. unfold on_event, handle.
  destruct a as [kind key ver object | kind key ver]; simpl;
    intros [-> Hd]; cbv beta delta [json_Unmarshal] in *; rewrite Hd; reflexivity.
Qed.

Lemma run_accumulates :
  forall (events : list Event) (adds : list Addition) (b : ChangeSetBuilder)
         (s : State) (rest : list Step),
    Forall2 decodes events adds ->
    run (Waiting b) (receive events ++ rest) s
    = prepend (repeat valid_status (length events))
              (run (Waiting (fold_left add adds b)) rest s).
Proof.
  intros events adds b s rest H. revert b.
  induction H as [| e a events adds He H IH]; intros b; simpl.
  - now rewrite prepend_nil.
  - change (run (Waiting b) (Selects (RecvEvent e) :: receive events ++ rest) s
            = prepend (valid_status :: repeat valid_status (length events))
                      (run (Waiting (fold_left add adds (add b a))) rest s)).
    erewrite run_event; [| apply on_event_decodes; exact He]. rewrite IH.
    change (valid_status :: repeat valid_status (length events))
      with ([valid_status] ++ repeat valid_status (length events)).
    now rewrite prepend_app.
Qed.

(** X4.  Well-formed put-object and delete-object events are appended to
    the builder in the order they arrive.  Each is answered with a Valid
    status and nothing else: the destination is not called and the processor
    does not change before the payload-transferred event. *)
Theorem events_accumulate_in_order :
  forall (events : list Event) (adds : list Addition) (b : ChangeSetBuilder)
         (s : State) (rest : list Step),
    Forall2 decodes events adds ->
    run (Waiting b) (receive events ++ rest) s
    = prepend (repeat valid_status (length events))
              (run (Waiting (fold_left add adds b)) rest s).
Proof. exact run_accumulates. Qed.

Lemma on_event_server_intent (b : ChangeSetBuilder) (data : string) (i : ServerIntent)
      (s : State) :
  json_Unmarshal data = Ok i ->
  Code (Payload i) <> IntentNone ->
  on_event b (server_intent_event data) s
  = Done {| intent := Some i; pending := [] |} s [valid_status].
Proof.
  intros Hd Hc. unfold on_event, handle. simpl.
  cbv beta delta [json_Unmarshal] in *. rewrite Hd.
  destruct (Code (Payload i)); try reflexivity. now destruct Hc.
Qed.

Lemma on_event_transfer (b : ChangeSetBuilder) (i : ServerIntent) (data : string)
      (sel : Selector) (s : State) :
  intent b = Some i ->
  UnmarshalJSON (json_Unmarshal (T := RawObject)) data = Ok sel ->
  closeWhenReady s = readyOnce s ->
  on_event b (payload_transferred_event data) s
  = Done (snd (Finish b sel))
         (set_readyOnce true (set_closeWhenReady true (set_isInitialized true s)))
         (expected_destination_calls
            {| intentCode := Code (Payload i); changes := pending b; selector := sel |}
          ++ (if readyOnce s then [] else [ReadyFired]) ++ [valid_status]).
Proof.
  intros Hi Hsel Hinv.
  unfold payload_transferred_event.
  rewrite (on_event_payload_transferred b data s Hi Hsel).
  destruct s as [c h ini hlt rdy cls ch]. simpl in Hinv. subst ch.
  unfold expected_destination_calls, dispatch, ChangeSet_IntentCode. simpl.
  destruct (Code (Payload i)), rdy; reflexivity.
Qed.

Lemma run_exchange :
  forall (b : ChangeSetBuilder) (di dt : string) (i : ServerIntent)
         (events : list Event) (adds : list Addition) (sel : Selector)
         (s : State) (rest : list Step),
    json_Unmarshal di = Ok i ->
    Code (Payload i) <> IntentNone ->
    Forall2 decodes events adds ->
    UnmarshalJSON (json_Unmarshal (T := RawObject)) dt = Ok sel ->
    closeWhenReady s = readyOnce s ->
    run (Waiting b)
        (receive (server_intent_event di :: events ++ [payload_transferred_event dt])
         ++ rest) s
    = prepend
        (valid_status :: repeat valid_status (length events)
         ++ expected_destination_calls
              {| intentCode := Code (Payload i); changes := map change_of adds;
                 selector := sel |}
         ++ (if readyOnce s then [] else [ReadyFired]) ++ [valid_status])
        (run (Waiting {| intent := Some {| Payload :=
                                            {| ID := ID (Payload i);
                                               Target := Target (Payload i);
                                               Code := next_code (Code (Payload i));
                                               Reason := Reason (Payload i) |} |};
                         pending := [] |})
             rest
             (set_readyOnce true (set_closeWhenReady true (set_isInitialized true s)))).
Proof.
  intros b di dt i events adds sel s rest Hi Hc Hev Hsel Hinv.
  unfold receive. rewrite map_cons, <- app_comm_cons.
  erewrite run_event; [| apply on_event_server_intent; eassumption].
  rewrite map_app, <- app_assoc.
  change (map (fun e => Selects (RecvEvent e)) events) with (receive events).
  rewrite (@run_accumulates events adds _ _ _ Hev).
  simpl app.
  assert (intent (fold_left add adds {| intent := Some i; pending := [] |}) = Some i)
    as Hint by now rewrite fold_add_intent.
  erewrite run_event; [| apply on_event_transfer; eassumption].
  rewrite (Finish_started _ sel Hint), fold_add_pending. simpl.
  change (valid_status :: repeat valid_status (length events) ++ ?x)
    with ([valid_status] ++ (repeat valid_status (length events) ++ x)).
  rewrite !prepend_app.
  destruct i as [[id tg code rs]]. simpl in *.
  destruct code; reflexivity.
Qed.

(** X5.  One whole exchange.  A server-intent whose code is not none, then
    well-formed put and delete events, then a payload-transferred event:
    whatever the builder held before is dropped, the destination is called
    according to the announced code with exactly the changes of this
    exchange, in arrival order, and the selector of the payload-transferred
    event; then the processor is initialized and the ready channel closed
    (if it was still open); and the builder is left started and empty. *)
Theorem exchange_is_applied_as_announced :
  forall (b : ChangeSetBuilder) (di dt : string) (i : ServerIntent)
         (events : list Event) (adds : list Addition) (sel : Selector)
         (s : State) (rest : list Step),
    json_Unmarshal di = Ok i ->
    Code (Payload i) <> IntentNone ->
    Forall2 decodes events adds ->
    UnmarshalJSON (json_Unmarshal (T := RawObject)) dt = Ok sel ->
    closeWhenReady s = readyOnce s ->
    run (Waiting b)
        (receive (server_intent_event di :: events ++ [payload_transferred_event dt])
         ++ rest) s
    = prepend
        (valid_status :: repeat valid_status (length events)
         ++ expected_destination_calls
              {| intentCode := Code (Payload i); changes := map change_of adds;
                 selector := sel |}
         ++ (if readyOnce s then [] else [ReadyFired]) ++ [valid_status])
        (run (Waiting {| intent := Some {| Payload :=
                                            {| ID := ID (Payload i);
                                               Target := Target (Payload i);
                                               Code := next_code (Code (Payload i));
                                               Reason := Reason (Payload i) |} |};
                         pending := [] |})
             rest
             (set_readyOnce true (set_closeWhenReady true (set_isInitialized true s)))).
Proof. exact run_exchange. Qed.

Lemma exchange_continues (b : ChangeSetBuilder) (i : ServerIntent) (dt : string)
      (events : list Event) (adds : list Addition) (sel : Selector)
      (s : State) (rest : list Step) :
  intent b = Some i ->
  Forall2 decodes events adds ->
  UnmarshalJSON (json_Unmarshal (T := RawObject)) dt = Ok sel ->
  closeWhenReady s = readyOnce s ->
  run (Waiting b) (receive (events ++ [payload_transferred_event dt]) ++ rest) s
  = prepend
      (repeat valid_status (length events)
       ++ expected_destination_calls
            {| intentCode := Code (Payload i);
               changes := pending b ++ map change_of adds;
               selector := sel |}
       ++ (if readyOnce s then [] else [ReadyFired]) ++ [valid_status])
      (run (Waiting (snd (Finish (fold_left add adds b) sel))) rest
           (set_readyOnce true (set_closeWhenReady true (set_isInitialized true s)))).
Proof.
  intros Hi Hev Hsel Hinv.
  unfold receive. rewrite map_app, <- app_assoc.
  change (map (fun e => Selects (RecvEvent e)) events) with (receive events).
  rewrite (@run_accumulates events adds _ _ _ Hev).
  simpl app.
  assert (intent (fold_left add adds b) = Some i) as Hint
      by now rewrite fold_add_intent.
  erewrite run_event; [| apply on_event_transfer; eassumption].
  rewrite fold_add_pending, !prepend_app. reflexivity.
Qed.

(** X6.  After a full transfer the server does not announce an intent
    again: the changes that arrive next, closed by a second
    payload-transferred event, are handed to [ApplyDelta], not to
    [SetBasis], and contain none of the changes of the first exchange.  The
    ready channel is closed by the first exchange only. *)
Theorem second_exchange_is_a_delta :
  forall (b : ChangeSetBuilder) (di dt1 dt2 id reason : string) (target : Z)
         (events1 events2 : list Event) (adds1 adds2 : list Addition)
         (sel1 sel2 : Selector) (s : State),
    json_Unmarshal di = Ok (full_transfer id target reason) ->
    Forall2 decodes events1 adds1 ->
    UnmarshalJSON (json_Unmarshal (T := RawObject)) dt1 = Ok sel1 ->
    Forall2 decodes events2 adds2 ->
    UnmarshalJSON (json_Unmarshal (T := RawObject)) dt2 = Ok sel2 ->
    closeWhenReady s = readyOnce s ->
    destination_calls
      (trace (run (Waiting b)
                  (receive (server_intent_event di
                            :: events1 ++ [payload_transferred_event dt1])
                   ++ receive (events2 ++ [payload_transferred_event dt2]) ++ [])
                  s))
    = [SetBasis (map change_of adds1) sel1 true;
       ApplyDelta (map change_of adds2) sel2 true]
    /\ firings
         (trace (run (Waiting b)
                     (receive (server_intent_event di
                               :: events1 ++ [payload_transferred_event dt1])
                      ++ receive (events2 ++ [payload_transferred_event dt2]) ++ [])
                     s))
       = fired (negb (readyOnce s)).
Proof.
  intros b di dt1 dt2 id reason target events1 events2 adds1 adds2 sel1 sel2 s
         Hi H1 Hs1 H2 Hs2 Hinv.
  assert (Code (Payload (full_transfer id target reason)) <> IntentNone) as Hc
      by discriminate.
  rewrite (@run_exchange b di dt1 _ events1 adds1 sel1 s _
             Hi Hc H1 Hs1 Hinv).
  erewrite exchange_continues; [| reflexivity | exact H2 | exact Hs2 | reflexivity].
  simpl run. rewrite !trace_prepend.
  split.
  - rewrite !destination_calls_app, !destination_calls_cons_valid,
      !destination_calls_app, !destination_calls_valid.
    destruct (readyOnce s); reflexivity.
  - rewrite !firings_app, !firings_cons_valid, !firings_app, !firings_valid.
    destruct (readyOnce s); reflexivity.
Qed.

Lemma on_event_transfer_without_intent :
  forall (b : ChangeSetBuilder) (data : string) (sel : Selector) (s : State),
    intent b = None ->
    UnmarshalJSON (json_Unmarshal (T := RawObject)) data = Ok sel ->
    on_event b (payload_transferred_event data) s
    = Done NewChangeSetBuilder s
           [UpdateStatus DataSourceStateInterrupted (invalid_data missing_intent_error);
            StreamRestart].
Proof.
  intros b data sel s Hi Hsel. unfold on_event, handle. simpl.
  cbv beta delta [json_Unmarshal U_selector] in *. rewrite Hsel.
  unfold Finish. rewrite Hi. reflexivity.
Qed.

(** X7.  A payload-transferred event that arrives while the builder has no
    intent (at the start of the stream, or after an error event or a
    malformed event) is refused like a malformed event: Interrupted with
    Invalid-Data, a restart of the stream, no destination call, and the
    processor is not marked initialized by it. *)
Theorem transfer_without_intent_is_refused :
  forall (b : ChangeSetBuilder) (data : string) (sel : Selector) (s : State),
    intent b = None ->
    UnmarshalJSON (json_Unmarshal (T := RawObject)) data = Ok sel ->
    on_event b (payload_transferred_event data) s
    = Done NewChangeSetBuilder s
           [UpdateStatus DataSourceStateInterrupted (invalid_data missing_intent_error);
            StreamRestart].
Proof. exact on_event_transfer_without_intent. Qed.

(** X8.  A well-formed error event abandons the accumulation without
    restarting the stream: it is answered with Valid, and what follows is
    what follows from an empty builder, so a payload-transferred event that
    comes next without a new server-intent applies nothing. *)
Theorem error_event_abandons_accumulation :
  forall (b : ChangeSetBuilder) (de dt : string) (errorData : ErrorEvent.t)
         (sel : Selector) (s : State) (rest : list Step),
    json_Unmarshal de = Ok errorData ->
    UnmarshalJSON (json_Unmarshal (T := RawObject)) dt = Ok sel ->
    run (Waiting b) (Selects (RecvEvent {| Name := EventError; Data := de |}) :: rest) s
    = prepend [valid_status] (run (Waiting NewChangeSetBuilder) rest s)
    /\ run (Waiting b)
           (receive [ {| Name := EventError; Data := de |};
                      payload_transferred_event dt ]) s
       = Done (Waiting NewChangeSetBuilder) s
              [valid_status;
               UpdateStatus DataSourceStateInterrupted (invalid_data missing_intent_error);
               StreamRestart].
Proof.
  intros b de dt errorData sel s rest Hd Hsel.
  assert (on_event b {| Name := EventError; Data := de |} s
          = Done NewChangeSetBuilder s [valid_status]) as Hev.
  { unfold on_event, handle. simpl.
    cbv beta delta [json_Unmarshal] in *. now rewrite Hd. }
  split.
  - now apply run_event.
  - unfold receive. simpl map.
    erewrite run_event; [| exact Hev].
    erewrite run_event;
      [| eapply on_event_transfer_without_intent; [reflexivity | exact Hsel]].
    reflexivity.
Qed.

Lemma on_event_passive (b : ChangeSetBuilder) (event : Event) (s : State) :
  passive event -> on_event b event s = Done b s [valid_status].
Proof.
  destruct event as [name data]. unfold passive, on_event, handle. simpl.
  destruct name; try contradiction; try reflexivity.
  intros [goodbye Hd]. cbv beta delta [json_Unmarshal] in *. now rewrite Hd.
Qed.

(** X9.  Heartbeats, events of an unrecognized type (whatever their data)
    and well-formed goodbyes (whatever their flags) are each answered with
    Valid and change nothing: wherever they arrive, the builder keeps its
    accumulation, the processor its state, the stream is neither restarted
    nor closed, and the run goes on as if they had not been there. *)
Theorem passive_events_change_nothing :
  forall (events : list Event) (b : ChangeSetBuilder) (s : State) (rest : list Step),
    Forall passive events ->
    run (Waiting b) (receive events ++ rest) s
    = prepend (repeat valid_status (length events)) (run (Waiting b) rest s).
Proof.
  intros events b s rest H.
  induction H as [| e events He H IH].
  - simpl. now rewrite prepend_nil.
  - unfold receive in *. rewrite map_cons, <- app_comm_cons.
    erewrite run_event; [| apply on_event_passive; exact He]. rewrite IH.
    change (repeat valid_status (length (e :: events)))
      with ([valid_status] ++ repeat valid_status (length events)).
    now rewrite prepend_app.
Qed.

(** X10.  Every event is answered with exactly one status: either Valid,
    and then the stream is not restarted, or Interrupted with Invalid-Data,
    and then the stream is restarted, the builder is emptied and the
    processor is left as it was. *)
Theorem one_status_per_event :
  forall (b : ChangeSetBuilder) (event : Event) (s : State),
    closeWhenReady s = readyOnce s ->
    completes (on_event b event s)
      (fun b' s' tr =>
         (status_updates tr = [(DataSourceStateValid, no_error)]
          /\ filter is_StreamRestart tr = [])
         \/ (exists err,
                tr = [UpdateStatus DataSourceStateInterrupted (invalid_data err);
                      StreamRestart]
                /\ b' = NewChangeSetBuilder /\ s' = s)).
Proof.
  intros b [name data] [c h ini hlt rdy cls ch] Hinv. simpl in Hinv. subst ch.
  unfold on_event, handle. simpl.
  cbv beta delta [json_Unmarshal U_selector].
  destruct name;
    repeat match goal with
           | |- context [match ?r with Ok _ => _ | Err _ => _ end] =>
               destruct r as [? | ?]
           | |- context [match Code (Payload ?i) with _ => _ end] =>
               destruct (Code (Payload i))
           | |- context [let (_, _) := Finish ?b ?sel in _] =>
               destruct (Finish b sel) as [[cs | e] b'];
               [unfold dispatch, ChangeSet_IntentCode; destruct (intentCode cs) |]
           end;
    destruct rdy; simpl;
    first [ left; split; reflexivity
          | right; eexists; repeat split ].
Qed.

Lemma step_destination_calls (l : Loop ChangeSetBuilder) (st : Step) (s : State) :
  (length (destination_calls (trace (step l st s))) <= transfers [st])%nat.
Proof.
  destruct s as [c h ini hlt rdy cls ch].
  destruct st as [sel | err |].
  - destruct l as [b |]; [| simpl; lia].
    destruct sel as [[name data] | |].
    + unfold transfers, step, consumeStream_select, on_event, handle. simpl.
      cbv beta delta [json_Unmarshal U_selector].
      destruct name;
        repeat match goal with
               | |- context [match ?r with Ok _ => _ | Err _ => _ end] =>
                   destruct r as [? | ?]
               | |- context [match Code (Payload ?i) with _ => _ end] =>
                   destruct (Code (Payload i))
               | |- context [let (_, _) := Finish ?b ?sel in _] =>
                   destruct (Finish b sel) as [[cs | e] b'];
                   [unfold dispatch, ChangeSet_IntentCode; destruct (intentCode cs) |]
               end;
        destruct rdy, ch; simpl; lia.
    + simpl. lia.
    + unfold step, consumeStream_select, bind, get. simpl.
      destruct hlt; simpl; lia.
  - unfold step, errorHandler, bind.
    destruct err as [m | m code | m | code m]; simpl; try lia.
    destruct (checkIfErrorIsRecoverableAndLog code); simpl; lia.
  - unfold step, Close, Once_Do, bind, get. simpl.
    destruct cls, hlt; simpl; lia.
Qed.

(** X11.  The destination is called only when a payload-transferred event
    is handled, and at most once for each: in every run, whatever the events,
    the connection failures and the calls of [Close], the number of
    [SetBasis] and [ApplyDelta] calls is at most the number of
    payload-transferred events the loop has taken. *)
Theorem destination_calls_bounded_by_transfers :
  forall (steps : list Step) (l : Loop ChangeSetBuilder) (s : State),
    (length (destination_calls (trace (run l steps s))) <= transfers steps)%nat.
Proof.
  induction steps as [| st rest IH]; intros l s; simpl run.
  - simpl. lia.
  - rewrite trace_bind.
    pose proof (step_destination_calls l st s) as Hst.
    change (transfers (st :: rest)) with (transfers ([st] ++ rest)).
    unfold transfers in *. rewrite filter_app, length_app.
    destruct (step l st s) as [l' s' tr |]; simpl in *.
    + rewrite destination_calls_app, length_app.
      specialize (IH l' s'). lia.
    + lia.
Qed.

End StreamEvents.

(* ================================================================== *)
(** * Initialization and the ready signal *)

Section Triples.
Variable S : Type.




End Triples.

Section StreamInitialized.
Import StreamProcessor.
Context {platform : Platform}.
Context {env : Environment}.
Context {U_raw : Unmarshaler RawObject}
        {U_intent : Unmarshaler ServerIntent}
        {U_put : Unmarshaler PutObject.t}
        {U_delete : Unmarshaler DeleteObject.t}
        {U_goodbye : Unmarshaler Goodbye.t}
        {U_error : Unmarshaler ErrorEvent.t}.

Lemma errorHandler_outcome :
  forall (err : error) (s : State),
    exists (closeNow : bool) (st : DataSourceState) (info : DataSourceErrorInfo),
      errorHandler err s = Done closeNow s [UpdateStatus st info]
      /\ (closeNow = true <-> st = DataSourceStateOff)
      /\ (closeNow = false <-> st = DataSourceStateInterrupted)
      /\ (st = DataSourceStateOff ->
          exists code m, err = SubscriptionError code m
                         /\ checkIfErrorIsRecoverableAndLog code = false
                         /\ info = error_response code).
Proof.
  intros err s. unfold errorHandler.
  destruct err as [m | m code | m | code m];
    try (exists false, DataSourceStateInterrupted; eexists;
         split; [reflexivity|]; repeat split; try discriminate; auto).
  destruct (checkIfErrorIsRecoverableAndLog code) eqn:Hrec.
  - exists false, DataSourceStateInterrupted; eexists.
    split; [reflexivity|]. repeat split; try discriminate; auto.
  - exists true, DataSourceStateOff; eexists.
    split; [reflexivity|]. repeat split; try discriminate; auto.
    intros _. now exists code, m.
Qed.

(** X12.  The error handler of the stream reports exactly one status and
    touches neither the processor nor the ready channel.  It asks the event
    source to give up exactly when it reports Off, and it reports Off only
    for an HTTP status that is not recoverable; every other failure is
    reported as Interrupted and retried. *)
Theorem errorHandler_reports_and_decides :
  forall (err : error) (s : State),
    exists (closeNow : bool) (st : DataSourceState) (info : DataSourceErrorInfo),
      errorHandler err s = Done closeNow s [UpdateStatus st info]
      /\ (closeNow = true <-> st = DataSourceStateOff)
      /\ (closeNow = false <-> st = DataSourceStateInterrupted)
      /\ (st = DataSourceStateOff ->
          exists code m, err = SubscriptionError code m
                         /\ checkIfErrorIsRecoverableAndLog code = false
                         /\ info = error_response code).
Proof. exact errorHandler_outcome. Qed.

(** X13.  Failed reconnections never close the ready channel and never
    touch the processor or the loop, however many there are and whether
    fatal or not: each adds one status report, and the run goes on from the
    same state.  In particular, when the error handler reports Off and the
    event channel is then found closed, the loop returns with the ready
    channel as it was. *)
Theorem failed_reconnects_leave_ready_unfired :
  forall (errs : list error) (l : Loop ChangeSetBuilder) (s : State)
         (rest : list Step) (b : ChangeSetBuilder) (code : Z) (m : string),
    (exists tr,
        run l (map ConnectionFails errs ++ rest) s = prepend tr (run l rest s)
        /\ firings tr = 0%nat
        /\ destination_calls tr = []
        /\ length (status_updates tr) = length errs)
    /\ (checkIfErrorIsRecoverableAndLog code = false ->
        run (Waiting b) [ConnectionFails (SubscriptionError code m); Selects EventsClosed] s
        = Done Returned s [UpdateStatus DataSourceStateOff (error_response code)]).
Proof.
  intros errs l s rest b code m. split.
  - induction errs as [| err errs IH]; simpl.
    + exists []. rewrite prepend_nil. repeat split.
    + destruct IH as (tr & Hrun & Hf & Hd & Hn).
      destruct (errorHandler_outcome err s)
        as (closeNow & st & info & Hh & _).
      exists (UpdateStatus st info :: tr).
      rewrite bind_then_ret. erewrite bind_Done; [| exact Hh]. rewrite Hrun.
      split; [| repeat split; simpl; auto].
      destruct (run l rest s); reflexivity.
  - intros Hrec. simpl. unfold errorHandler, bind. now rewrite Hrec.
Qed.

Lemma run_Returned_ignores_selects (sels : list Select) (s : State) :
  run Returned (map Selects sels) s = Done Returned s [].
Proof.
  induction sels as [| sel rest IH]; [reflexivity|].
  simpl. rewrite bind_ret_l. exact IH.
Qed.

(** X14.  When the connection cannot be set up, the loop is never entered.
    If the request cannot be built, no connection is attempted: the only
    report is Off with kind Unknown and the message of the error, the ready
    channel is closed, and events are never consumed.  If the event source
    gives up, the ready channel is closed after the reports of the failed
    attempts.  In both cases the processor is not initialized. *)
Theorem setup_failure_ends_Sync :
  forall (c : StreamConfig) (h : option http.Header) (sel : Selector)
         (conn : Connection) (sels : list Select),
    (forall reqErr,
        subscribe_request c h sel = Err reqErr ->
        Sync sel conn (map Selects sels) (NewStreamProcessor c h)
        = Done Returned (set_closeWhenReady true (NewStreamProcessor c h))
               [UpdateStatus DataSourceStateOff
                  {| interfaces.Kind := DataSourceErrorKindUnknown; StatusCode := 0;
                     Message := Error reqErr |};
                ReadyFired])
    /\ (forall req,
           subscribe_request c h sel = Ok req ->
           connected conn = false ->
           exists tr,
             Sync sel conn (map Selects sels) (NewStreamProcessor c h)
             = Done Returned (set_closeWhenReady true (NewStreamProcessor c h))
                    (tr ++ [ReadyFired])
             /\ firings tr = 0%nat
             /\ destination_calls tr = []).
Proof.
  intros c h sel conn sels. split.
  - intros reqErr Hreq. unfold Sync, subscribe. rewrite bind_get. simpl cfg.
    simpl headers. rewrite Hreq. unfold bind at 1. simpl.
    now rewrite run_Returned_ignores_selects.
  - intros req Hreq Hconn. unfold Sync, subscribe. rewrite bind_get. simpl cfg.
    simpl headers. rewrite Hreq, Hconn.
    assert (forall errs s, exists tr,
               report_failures errs s = Done tt s tr
               /\ firings tr = 0%nat /\ destination_calls tr = []) as Hrep.
    { induction errs as [| err rest IH]; intros s; simpl.
      - exists []. repeat split.
      - destruct (IH s) as (tr & Hr & Hf & Hd).
        destruct (errorHandler_outcome err s)
          as (closeNow & st & info & Hh & _).
        erewrite bind_Done; [| exact Hh]. rewrite Hr.
        eexists. split; [reflexivity|]. split; [exact Hf | exact Hd]. }
    destruct (Hrep (failed_attempts conn) (NewStreamProcessor c h))
      as (tr & Hr & Hf & Hd).
    exists tr. split; [| now split].
    unfold bind at 1. unfold bind at 1. unfold bind at 1. rewrite Hr. simpl.
    rewrite run_Returned_ignores_selects. simpl.
    now rewrite app_nil_r.
Qed.

Lemma triple_setInitialized (success : bool) :
  triple StreamInit.initialized_after_ready (setInitializedAndNotifyClient success)
         (fun _ s' => StreamInit.initialized_after_ready s').
Proof.
  intros [c h ini hlt rdy cls ch] (Hh & Hr & Hi). simpl in *. subst.
  unfold setInitializedAndNotifyClient, Once_Do, when, bind, get.
  destruct success, rdy; simpl; repeat split; auto.
Qed.






End StreamInitialized.

Section PollInitialized.
Import PollingProcessor.
Context {env : Environment}.





(** X17.  A successful poll hands the change set to the destination
    according to its intent code, then reports Valid.  The first successful
    poll, and only the first, marks the processor initialized and closes the
    ready channel if it is still open; the loop goes on in every case. *)
Theorem successful_poll_applies_and_initializes :
  forall (changeSet : ChangeSet) (s : State),
    closeWhenReady s = readyOnce s ->
    completes (Sync_select (RecvTick (Ok changeSet)) s)
      (fun l s' tr =>
         l = Waiting tt
         /\ tr = expected_destination_calls changeSet ++ [valid_status]
                 ++ (if setInitializedOnce s || readyOnce s then [] else [ReadyFired])
         /\ setInitializedOnce s' = true
         /\ isInitialized s' = (isInitialized s || negb (setInitializedOnce s))
         /\ closeWhenReady s' = (closeWhenReady s || negb (setInitializedOnce s))
         /\ quit s' = quit s /\ closeOnce s' = closeOnce s).
Proof.
  intros cs [once ini q cls rdy ch] Hinv. simpl in Hinv. subst ch.
  unfold Sync_select, on_tick, poll, dispatch, ChangeSet_IntentCode,
    expected_destination_calls, notifyReady, Once_Do, bind, get. simpl.
  destruct (intentCode cs), once, rdy, ini; simpl; repeat split.
Qed.

Lemma Sync_select_survivable (err : error) (s : State) :
  survivable err = true ->
  Sync_select (RecvTick (Err err)) s = Done (Waiting tt) s [poll_failure_report err].
Proof.
  unfold survivable, Sync_select, on_tick, poll, poll_failure_report, bind.
  destruct err as [m | m code | m | code m]; simpl; try reflexivity.
  now intros ->.
Qed.

(** X18.  The polling loop survives any number of failed polls, as long as
    none is an HTTP status classified as not recoverable: each is reported
    as Interrupted (Error-Response with the code for an HTTP status,
    Invalid-Data for a malformed response, Network-Error otherwise), the
    destination is never called, the processor and the ready channel are
    left exactly as they were, and the loop still waits for the next tick. *)
Theorem failed_polls_are_reported_and_survived :
  forall (errs : list error) (s : State),
    forallb survivable errs = true ->
    run (Waiting tt) (failed_ticks errs) s
    = Done (Waiting tt) s (map poll_failure_report errs).
Proof.
  induction errs as [| err errs IH]; intros s H; simpl in *; [reflexivity|].
  apply andb_prop in H. destruct H as [He Hs].
  erewrite bind_Done; [| apply Sync_select_survivable; exact He].
  now rewrite IH.
Qed.

End PollInitialized.

(* ================================================================== *)
(** * Further properties of the stream request *)

Lemma lacks_cons (x c : ascii) (s : string) :
  lacks x (String c s) <-> c <> x /\ lacks x s.
Proof. unfold lacks. simpl. tauto. Qed.

Lemma lacks_app (x : ascii) (a b : string) :
  lacks x (a ++ b) <-> lacks x a /\ lacks x b.
Proof. unfold lacks. rewrite list_ascii_of_string_app, in_app_iff. tauto. Qed.

Lemma Cut_lacks (sep : ascii) (s : string) :
  lacks sep s -> url.Cut sep s = (s, EmptyString).
Proof.
  induction s as [| c s IH]; intros H; simpl; [reflexivity|].
  apply lacks_cons in H. destruct H as [Hc Hs].
  destruct (Ascii.eqb_spec c sep) as [-> | _]; [contradiction|].
  now rewrite IH.
Qed.

Lemma Cut_at_first (sep : ascii) (p r : string) :
  lacks sep p -> url.Cut sep (p ++ String sep r) = (p, r).
Proof.
  induction p as [| c p IH]; intros H; simpl.
  - now rewrite Ascii.eqb_refl.
  - apply lacks_cons in H. destruct H as [Hc Hp].
    destruct (Ascii.eqb_spec c sep) as [-> | _]; [contradiction|].
    now rewrite IH.
Qed.

Lemma contains_false_lacks (x : ascii) (s : string) :
  url.contains x s = false <-> lacks x s.
Proof.
  unfold url.contains, lacks. split.
  - intros H Hin.
    assert (existsb (Ascii.eqb x) (list_ascii_of_string s) = true) as Ht.
    { apply existsb_exists. exists x. split; [exact Hin | apply Ascii.eqb_refl]. }
    rewrite H in Ht. discriminate.
  - intros H. destruct (existsb _ _) eqn:He; [| reflexivity].
    apply existsb_exists in He. destruct He as (y & Hin & Hy).
    apply Ascii.eqb_eq in Hy. subst y. contradiction.
Qed.

Lemma QueryUnescape_plain (s : string) :
  lacks "%" s -> lacks "+" s -> url.QueryUnescape s = Some s.
Proof.
  induction s as [| c s IH]; intros Hp Hq; [reflexivity|].
  apply lacks_cons in Hp. apply lacks_cons in Hq.
  destruct Hp as [Hc Hp]. destruct Hq as [Hc' Hq].
  simpl. rewrite (IH Hp Hq).
  destruct (Ascii.eqb_spec c "%") as [-> | _]; [contradiction|].
  destruct (Ascii.eqb_spec c "+") as [-> | _]; [contradiction|].
  reflexivity.
Qed.

Lemma Get_basis_of_basis (st : string) :
  lacks "&" st ->
  url.Get ("basis=" ++ st) "basis"
  = if url.contains ";" st then None else url.QueryUnescape st.
Proof.
  intros H. unfold url.Get, url.ParseQuery. rewrite components_single.
  - unfold flat_map, url.pair_of.
    change (url.contains ";" ("basis=" ++ st)) with (url.contains ";" st).
    destruct (url.contains ";" st); [reflexivity|].
    cbn [append String.eqb Ascii.eqb Bool.eqb url.Cut].
    cbn [url.QueryUnescape Ascii.eqb Bool.eqb].
    destruct (url.QueryUnescape st); reflexivity.
  - intros x. simpl.
    intros [Hx | [Hx | [Hx | [Hx | [Hx | [Hx | Hx]]]]]];
      try (subst x; discriminate).
    intros ->. now apply H.
Qed.

Section RequestBasis.
Import StreamProcessor.
Context {env : Environment}.

(** X19.  Without a filter key, and with a base path and a selector state
    free of the bytes that end a query or a parameter, the request that
    [subscribe] prepares is addressed to the streaming path of the base URI;
    its query is the basis parameter followed by the selector's state as it
    is, without escaping, when the selector is defined, and empty when it is
    not.  The server therefore reads no basis for an undefined selector and
    for a state with a semicolon or a broken percent escape, and otherwise
    the unescaped state: the state itself when it has neither a percent
    nor a plus sign. *)
Theorem basis_is_attached_without_filter :
  forall (c : StreamConfig) (h : option http.Header) (sel : Selector)
         (req : http.Request),
    FilterKey c = "" ->
    lacks "?" (AddPath (URI c) StreamingRequestPath) ->
    lacks "#" (AddPath (URI c) StreamingRequestPath) ->
    lacks "#" (fdv2proto.State sel) ->
    lacks "&" (fdv2proto.State sel) ->
    subscribe_request c h sel = Ok req ->
    url.Location (http.URL req) = AddPath (URI c) StreamingRequestPath
    /\ url.RawQuery (http.URL req)
       = (if IsDefined sel then ("basis=" ++ fdv2proto.State sel)%string else "")
    /\ url.Get (url.RawQuery (http.URL req)) "basis"
       = (if IsDefined sel
          then if url.contains ";" (fdv2proto.State sel) then None
               else url.QueryUnescape (fdv2proto.State sel)
          else None)
    /\ (lacks "%" (fdv2proto.State sel) -> lacks "+" (fdv2proto.State sel) ->
        lacks ";" (fdv2proto.State sel) ->
        url.Get (url.RawQuery (http.URL req)) "basis"
        = (if IsDefined sel then Some (fdv2proto.State sel) else None)).
Proof.
  intros c h sel req Hf Hq Hh Hsh Hsa Hreq.
  assert (url.Location (http.URL req) = AddPath (URI c) StreamingRequestPath
          /\ url.RawQuery (http.URL req)
             = (if IsDefined sel then ("basis=" ++ fdv2proto.State sel)%string else ""))
    as [Hloc Hraw].
  { unfold subscribe_request, NewRequest in Hreq. rewrite Hf in Hreq.
    destruct (IsDefined sel).
    - destruct (NewRequest_error _); [discriminate|].
      assert (url.Parse (AddPath (URI c) StreamingRequestPath ++ "?basis="
                         ++ fdv2proto.State sel)
              = {| url.Location := AddPath (URI c) StreamingRequestPath;
                   url.RawQuery := ("basis=" ++ fdv2proto.State sel)%string;
                   url.Fragment := "" |}) as Hp.
      { unfold url.Parse. rewrite Cut_lacks.
        - change ("?basis=" ++ fdv2proto.State sel)%string
            with (String "?" ("basis=" ++ fdv2proto.State sel)).
          now rewrite Cut_at_first.
        - apply lacks_app. split; [exact Hh|].
          apply lacks_app. split; [| exact Hsh].
          unfold lacks. simpl.
          intros [H | [H | [H | [H | [H | [H | [H | H]]]]]]];
            try discriminate; contradiction. }
      rewrite Hp in Hreq.
      destruct h; inversion Hreq; simpl; split; reflexivity.
    - destruct (NewRequest_error _); [discriminate|].
      assert (url.Parse (AddPath (URI c) StreamingRequestPath)
              = {| url.Location := AddPath (URI c) StreamingRequestPath;
                   url.RawQuery := ""; url.Fragment := "" |}) as Hp.
      { unfold url.Parse. rewrite (Cut_lacks Hh). now rewrite (Cut_lacks Hq). }
      rewrite Hp in Hreq.
      destruct h; inversion Hreq; simpl; split; reflexivity. }
  assert (url.Get (url.RawQuery (http.URL req)) "basis"
          = (if IsDefined sel
             then if url.contains ";" (fdv2proto.State sel) then None
                  else url.QueryUnescape (fdv2proto.State sel)
             else None)) as Hget.
  { rewrite Hraw. destruct (IsDefined sel); [| reflexivity].
    now apply Get_basis_of_basis. }
  split; [exact Hloc|]. split; [exact Hraw|]. split; [exact Hget|].
  intros Hp Hplus Hsemi. rewrite Hget.
  destruct (IsDefined sel); [| reflexivity].
  apply contains_false_lacks in Hsemi. rewrite Hsemi.
  now apply QueryUnescape_plain.
Qed.

End RequestBasis.

(* ================================================================== *)
(** * Further properties of DataSystemConfigurationBuilder *)

Section BuildModes.
Import ldcomponents subsystems.
Variables ClientContext W : Type.
Variables DataStore DataInitializer DataSynchronizer : Type.

Local Notation "'Builder'" :=
  (DataSystemConfigurationBuilder ClientContext W DataStore DataInitializer DataSynchronizer)
  (only parsing).

Lemma mode_kept_bret (conf : Conf DataStore DataInitializer DataSynchronizer) :
  mode_kept (W := W) (StoreMode conf) (bret conf).
Proof. intros st. reflexivity. Qed.

Lemma mode_kept_bbind (mode : DataStoreMode)
      (m : BM W (Conf DataStore DataInitializer DataSynchronizer))
      (k : Conf DataStore DataInitializer DataSynchronizer ->
           BM W (Conf DataStore DataInitializer DataSynchronizer)) :
  mode_kept mode m ->
  (forall conf, StoreMode conf = mode -> mode_kept mode (k conf)) ->
  mode_kept mode (bbind m k).
Proof.
  intros Hm Hk st. unfold bbind. specialize (Hm st).
  destruct (m st) as [[conf | e] st1]; simpl in *; [| exact I].
  exact (Hk conf Hm st1).
Qed.

Lemma mode_kept_optional {T} (s : Slot)
      (o : option (ComponentConfigurer ClientContext W T)) (context : ClientContext)
      (conf : Conf DataStore DataInitializer DataSynchronizer)
      (k : Conf DataStore DataInitializer DataSynchronizer -> T ->
           Conf DataStore DataInitializer DataSynchronizer) :
  (forall x, StoreMode (k conf x) = StoreMode conf) ->
  mode_kept (StoreMode conf)
            (match o with
             | Some b => bbind (invoke s b context) (fun x => bret (k conf x))
             | None => bret conf
             end).
Proof.
  intros Hk. destruct o as [b |]; [| apply mode_kept_bret].
  intros st. unfold bbind, invoke.
  destruct (b context (fst st)) as [[x | e] w']; simpl; [apply Hk | exact I].
Qed.

Lemma mode_kept_build_initializers (context : ClientContext)
      (bs : list (option (ComponentConfigurer ClientContext W (option DataInitializer)))) :
  forall (i : nat) (conf : Conf DataStore DataInitializer DataSynchronizer),
    mode_kept (StoreMode conf) (build_initializers bs i context conf).
Proof.
  induction bs as [| [b |] rest IH]; intros i conf; simpl.
  - apply mode_kept_bret.
  - intros st. unfold bbind, invoke.
    destruct (b context (fst st)) as [[x | e] w']; simpl; [| exact I].
    exact (IH (S i) (append_Initializer conf x) _).
  - intros st. exact I.
Qed.

(** X20.  [Build] never consults the store mode given to [DataStore]: the
    result does not depend on it, and the store mode of the configuration it
    returns is the one the builder's own configuration started with (on
    failure, that of the empty configuration).  The read-write mode that
    [PersistentStore] asks for therefore does not reach the built
    configuration, which carries the mode of the empty configuration. *)
Theorem Build_ignores_storeMode :
  forall (d : Builder) (context : ClientContext) (w : W)
         (store : option (ComponentConfigurer ClientContext W (option DataStore)))
         (mode : DataStoreMode),
    Build (DataStore_ d store mode) context w
    = Build (DataStore_ d store (storeMode d)) context w
    /\ (build_err (Build d context w) = None ->
        StoreMode (built (Build d context w)) = StoreMode (config d))
    /\ (build_err (Build d context w) <> None ->
        StoreMode (built (Build d context w))
        = StoreMode (@empty_DataSystemConfiguration DataStore DataInitializer
                                                   DataSynchronizer))
    /\ StoreMode (built (Build (DataStore_ (Custom ClientContext W DataStore DataInitializer DataSynchronizer) store mode) context w))
       = StoreMode (@empty_DataSystemConfiguration DataStore DataInitializer
                                                  DataSynchronizer).
Proof.
  intros d context w store mode.
  assert (forall d' : Builder, mode_kept (StoreMode (config d')) (Build_body d' context))
    as Hkept.
  { intros d'. unfold Build_body.
    destruct (secondary_without_primary d'); [intros st; exact I|].
    apply mode_kept_bbind;
      [apply mode_kept_optional; reflexivity | intros c1 H1].
    apply mode_kept_bbind;
      [rewrite <- H1; apply mode_kept_build_initializers | intros c2 H2].
    apply mode_kept_bbind;
      [rewrite <- H2; apply mode_kept_optional; reflexivity | intros c3 H3].
    apply mode_kept_bbind;
      [rewrite <- H3; apply mode_kept_optional; reflexivity | intros c4 H4].
    rewrite <- H4. apply mode_kept_bret. }
  assert (forall d' : Builder,
             build_err (Build d' context w) = None ->
             StoreMode (built (Build d' context w)) = StoreMode (config d')) as Hok.
  { intros d'. unfold Build. specialize (Hkept d' (w, [])).
    destruct (Build_body d' context (w, [])) as [[conf | e] [w' log]]; simpl in *;
      [intros _; exact Hkept | discriminate]. }
  split; [reflexivity|]. split; [apply Hok|]. split.
  - unfold Build.
    destruct (Build_body d context (w, [])) as [[conf | e] [w' log]]; simpl;
      [intros H; now destruct H | reflexivity].
  - destruct (build_err (Build (DataStore_ (Custom ClientContext W DataStore DataInitializer DataSynchronizer) store mode) context w))
      eqn:Herr.
    + unfold Build in *.
      destruct (Build_body _ context (w, [])) as [[conf | e'] [w' log]]; simpl in *;
        [discriminate | reflexivity].
    + now rewrite (Hok _ Herr).
Qed.

End BuildModes.

Section PredefinedModes.
Import ldcomponents subsystems.
Variables ClientContext W : Type.
Variables DataStore DataInitializer DataSynchronizer : Type.
Variables StreamingBuilder PollingBuilder : Type.
Variable StreamingDataSourceV2 : StreamingBuilder.
Variable PollingDataSourceV2 : PollingBuilder.
Variable Streaming_BaseURI : StreamingBuilder -> string -> StreamingBuilder.
Variable Polling_BaseURI : PollingBuilder -> string -> PollingBuilder.
Variable Streaming_Build :
  StreamingBuilder -> ComponentConfigurer ClientContext W (option DataSynchronizer).
Variable Polling_Build :
  PollingBuilder -> ComponentConfigurer ClientContext W (option DataSynchronizer).
Variable AsInitializer :
  PollingBuilder -> ComponentConfigurer ClientContext W (option DataInitializer).

Local Notation "'mode_Default'" :=
  (@Default ClientContext W DataStore DataInitializer DataSynchronizer
            StreamingBuilder PollingBuilder StreamingDataSourceV2 PollingDataSourceV2
            Streaming_BaseURI Polling_BaseURI Streaming_Build Polling_Build AsInitializer)
  (only parsing).
Local Notation "'mode_Streaming'" :=
  (@Streaming ClientContext W DataStore DataInitializer DataSynchronizer
              StreamingBuilder StreamingDataSourceV2 Streaming_BaseURI Streaming_Build)
  (only parsing).
Local Notation "'mode_Polling'" :=
  (@Polling ClientContext W DataStore DataInitializer DataSynchronizer
            PollingBuilder PollingDataSourceV2 Polling_BaseURI Polling_Build)
  (only parsing).
Local Notation "'mode_Daemon'" :=
  (@Daemon ClientContext W DataStore DataInitializer DataSynchronizer) (only parsing).
Local Notation "'mode_PersistentStore'" :=
  (@PersistentStore ClientContext W DataStore DataInitializer DataSynchronizer
                    StreamingBuilder PollingBuilder StreamingDataSourceV2
                    PollingDataSourceV2 Streaming_BaseURI Polling_BaseURI
                    Streaming_Build Polling_Build AsInitializer)
  (only parsing).

Lemma well_formed_builder_runs
      (m : DataSystemConfigurationBuilder ClientContext W DataStore DataInitializer
                                          DataSynchronizer)
      (slots : list Slot) (context : ClientContext) (w : W) :
  secondary_without_primary m = false ->
  Forall (fun b => b <> None) (initializerBuilders m) ->
  schedule m = slots ->
  secondary_without_primary m = false
  /\ Forall (fun b => b <> None) (initializerBuilders m)
  /\ genuine m context w (calls (Build m context w)) (world (Build m context w))
  /\ (exists rest, slots = map slot (calls (Build m context w)) ++ rest)
  /\ (build_err (Build m context w) = None ->
      map slot (calls (Build m context w)) = slots
      /\ clean (calls (Build m context w)))
  /\ (forall e, build_err (Build m context w) = Some e ->
                built (Build m context w) = empty_DataSystemConfiguration
                /\ exists pre s,
                    calls (Build m context w)
                    = pre ++ [ {| slot := s; failure := Some e |} ]
                    /\ clean pre).
Proof.
  intros Hguard Hnil <-.
  destruct (Build_runs_the_builders m context w Hguard)
    as (Hg & Hp & _ & Hok & Herr).
  split; [exact Hguard|]. split; [exact Hnil|]. split; [exact Hg|].
  split; [exact Hp|]. split; [exact Hok|].
  intros e He. destruct (Herr e He) as [Hb [Hlast | [_ (i & Hi & _)]]].
  - now split.
  - exfalso. apply nth_error_In in Hi.
    rewrite Forall_forall in Hnil. now apply (Hnil None Hi).
Qed.

(** X21.  The builders of the predefined modes, and what [Build] does with
    them.  Default holds the polling builder as its one initializer, the
    streaming builder as primary and the polling builder as secondary;
    Streaming and Polling hold their builder as primary alone; Daemon holds
    the store alone; PersistentStore holds the store and what Default holds.
    Each passes the check of the synchronizers and holds no nil initializer.
    [Build] calls the builders of the mode in the order store, initializer,
    primary, secondary, each on the environment the call before it left; it
    succeeds only after calling all of them with success; and when it
    fails, it returns the empty configuration and the error that the last
    builder it called returned. *)
Theorem predefined_modes_are_well_formed :
  forall (d : DataSystemModes)
         (store : ComponentConfigurer ClientContext W (option DataStore))
         (context : ClientContext) (w : W),
    (initializerBuilders (mode_Default d)
     = [Some (AsInitializer (configured_polling PollingDataSourceV2 Polling_BaseURI d))]
     /\ primarySyncBuilder (mode_Default d)
        = Some (Streaming_Build
                  (configured_streaming StreamingDataSourceV2 Streaming_BaseURI d))
     /\ secondarySyncBuilder (mode_Default d)
        = Some (Polling_Build (configured_polling PollingDataSourceV2 Polling_BaseURI d))
     /\ primarySyncBuilder (mode_Streaming d)
        = Some (Streaming_Build
                  (configured_streaming StreamingDataSourceV2 Streaming_BaseURI d))
     /\ primarySyncBuilder (mode_Polling d)
        = Some (Polling_Build (configured_polling PollingDataSourceV2 Polling_BaseURI d))
     /\ storeBuilder (mode_Daemon d (Some store)) = Some store
     /\ mode_PersistentStore d (Some store)
        = DataStore_ (mode_Default d) (Some store) DataStoreModeReadWrite)
    /\ Forall (fun '(m, slots) =>
                 secondary_without_primary m = false
                 /\ Forall (fun b => b <> None) (initializerBuilders m)
                 /\ genuine m context w (calls (Build m context w))
                            (world (Build m context w))
                 /\ (exists rest, slots = map slot (calls (Build m context w)) ++ rest)
                 /\ (build_err (Build m context w) = None ->
                     map slot (calls (Build m context w)) = slots
                     /\ clean (calls (Build m context w)))
                 /\ (forall e, build_err (Build m context w) = Some e ->
                               built (Build m context w) = empty_DataSystemConfiguration
                               /\ exists pre s,
                                   calls (Build m context w)
                                   = pre ++ [ {| slot := s; failure := Some e |} ]
                                   /\ clean pre))
              [(mode_Default d, [SlotInitializer 0; SlotPrimary; SlotSecondary]);
               (mode_Streaming d, [SlotPrimary]);
               (mode_Polling d, [SlotPrimary]);
               (mode_Daemon d (Some store), [SlotStore]);
               (mode_PersistentStore d (Some store),
                [SlotStore; SlotInitializer 0; SlotPrimary; SlotSecondary])].
Proof.
  intros d store context w. split; [repeat split|].
  repeat apply Forall_cons; try apply Forall_nil;
    (apply well_formed_builder_runs;
     [reflexivity | repeat constructor; discriminate | reflexivity]).
Qed.

Lemma WithEndpoints_streaming_stays_set (es : list Endpoints.t) :
  forall d0 : DataSystemModes,
    Endpoints.Streaming (endpoints d0) <> "" ->
    Endpoints.Streaming (endpoints (fold_left WithEndpoints es d0)) <> "".
Proof.
  induction es as [| x es IH]; intros d0 H0; simpl; [exact H0|].
  apply IH. simpl.
  destruct (String.eqb_spec (Endpoints.Streaming x) ""); simpl; assumption.
Qed.

Lemma WithEndpoints_polling_stays_set (es : list Endpoints.t) :
  forall d0 : DataSystemModes,
    Endpoints.Polling (endpoints d0) <> "" ->
    Endpoints.Polling (endpoints (fold_left WithEndpoints es d0)) <> "".
Proof.
  induction es as [| x es IH]; intros d0 H0; simpl; [exact H0|].
  apply IH. simpl.
  destruct (String.eqb_spec (Endpoints.Polling x) ""); simpl; assumption.
Qed.

(** X22.  [WithEndpoints] replaces an endpoint only by a non-empty value: an
    endpoint that is set stays set through any sequence of calls, so that
    the predefined modes always pass it on to [BaseURI]; and an empty field
    leaves the corresponding endpoint as it was.  [WithRelayProxyEndpoints]
    sets both endpoints to the base URI, and does nothing when it is empty. *)
Theorem WithEndpoints_keeps_endpoints_set :
  forall (es : list Endpoints.t) (d : DataSystemModes) (e : Endpoints.t),
    (Endpoints.Streaming (endpoints d) <> "" ->
     Endpoints.Streaming (endpoints (fold_left WithEndpoints es d)) <> ""
     /\ configured_streaming StreamingDataSourceV2 Streaming_BaseURI
                             (fold_left WithEndpoints es d)
        = Streaming_BaseURI StreamingDataSourceV2
                            (Endpoints.Streaming (endpoints (fold_left WithEndpoints es d))))
    /\ (Endpoints.Polling (endpoints d) <> "" ->
        Endpoints.Polling (endpoints (fold_left WithEndpoints es d)) <> ""
        /\ configured_polling PollingDataSourceV2 Polling_BaseURI
                              (fold_left WithEndpoints es d)
           = Polling_BaseURI PollingDataSourceV2
                             (Endpoints.Polling (endpoints (fold_left WithEndpoints es d))))
    /\ (Endpoints.Streaming e = "" ->
        Endpoints.Streaming (endpoints (WithEndpoints d e))
        = Endpoints.Streaming (endpoints d))
    /\ (Endpoints.Polling e = "" ->
        Endpoints.Polling (endpoints (WithEndpoints d e))
        = Endpoints.Polling (endpoints d))
    /\ (forall baseURI,
           endpoints (WithRelayProxyEndpoints d baseURI)
           = if String.eqb baseURI "" then endpoints d
             else {| Endpoints.Streaming := baseURI; Endpoints.Polling := baseURI |}).
Proof.
  intros es d e.
  pose proof (WithEndpoints_streaming_stays_set es) as Hs.
  pose proof (WithEndpoints_polling_stays_set es) as Hp.
  split; [| split; [| split; [| split]]].
  - intros H. split; [now apply Hs|].
    unfold configured_streaming.
    apply Hs in H. apply String.eqb_neq in H. now rewrite H.
  - intros H. split; [now apply Hp|].
    unfold configured_polling.
    apply Hp in H. apply String.eqb_neq in H. now rewrite H.
  - intros H. simpl. now rewrite H.
  - intros H. simpl. now rewrite H.
  - intros baseURI. destruct d as [[st po]]. simpl.
    destruct (String.eqb baseURI ""); reflexivity.
Qed.

End PredefinedModes.

(* ================================================================== *)
(** * Properties of the connection-attempt telemetry *)

Lemma calls_of_unstarted (cs : list StreamDiagnostics.Call) :
  forall s,
    (length (snd (StreamDiagnostics.calls cs s))
     <= StreamDiagnostics.count_started cs
        + (if ((0 <? StreamDiagnostics.connectionAttemptStartTime s)%Z
              && StreamDiagnostics.diagnosticsManager s)%bool
           then 1 else 0))%nat.
Proof.
  unfold StreamDiagnostics.count_started.
  induction cs as [| [now | success now] rest IH]; intros s; simpl.
  - lia.
  - specialize (IH (StreamDiagnostics.logConnectionStarted now s)).
    destruct ((0 <? _)%Z && _)%bool in IH; lia.
  - unfold StreamDiagnostics.logConnectionResult.
    destruct ((0 <? StreamDiagnostics.connectionAttemptStartTime s)%Z
              && StreamDiagnostics.diagnosticsManager s)%bool;
      match goal with
      | |- context [StreamDiagnostics.calls rest ?x] =>
          specialize (IH x); destruct (StreamDiagnostics.calls rest x) as [s2 r2]
      end; simpl in *; lia.
Qed.

(** X23.  A connection attempt is recorded at most once: between two calls
    of [logConnectionStarted] only the first [logConnectionResult] records a
    stream initialization, so that the number of records never exceeds the
    number of attempts started (plus one for an attempt already under way);
    without a diagnostics manager nothing is recorded; and a recorded
    duration is a 64-bit unsigned value. *)
Theorem stream_init_recorded_once_per_attempt :
  forall (cs : list StreamDiagnostics.Call) (s : StreamDiagnostics.State)
         (success : bool) (now : Z),
    (length (snd (StreamDiagnostics.calls cs s))
     <= StreamDiagnostics.count_started cs
        + (if ((0 <? StreamDiagnostics.connectionAttemptStartTime s)%Z
              && StreamDiagnostics.diagnosticsManager s)%bool
           then 1 else 0))%nat
    /\ snd (StreamDiagnostics.logConnectionResult
              success now
              (fst (StreamDiagnostics.logConnectionResult success now s))) = []
    /\ (StreamDiagnostics.diagnosticsManager s = false ->
        snd (StreamDiagnostics.calls cs s) = [])
    /\ Forall (fun r => 0 <= StreamDiagnostics.durationMillis r < 2 ^ 64)
              (snd (StreamDiagnostics.calls cs s)).
Proof.
  intros cs s success now. split; [apply calls_of_unstarted|]. split; [| split].
  - unfold StreamDiagnostics.logConnectionResult at 2.
    destruct ((0 <? StreamDiagnostics.connectionAttemptStartTime s)%Z
              && StreamDiagnostics.diagnosticsManager s)%bool; reflexivity.
  - revert s. induction cs as [| [t | ok t] rest IH]; intros s Hm; simpl.
    + reflexivity.
    + now apply IH.
    + unfold StreamDiagnostics.logConnectionResult. rewrite Hm, andb_false_r.
      match goal with
      | |- context [StreamDiagnostics.calls rest ?x] =>
          specialize (IH x eq_refl); destruct (StreamDiagnostics.calls rest x) as [s2 r2]
      end.
      simpl in *. exact IH.
  - revert s. induction cs as [| [t | ok t] rest IH]; intros s; simpl.
    + constructor.
    + apply IH.
    + unfold StreamDiagnostics.logConnectionResult.
      destruct ((0 <? _)%Z && _)%bool;
        match goal with
        | |- context [StreamDiagnostics.calls rest ?x] =>
            specialize (IH x); destruct (StreamDiagnostics.calls rest x) as [s2 r2]
        end; simpl in *; [| exact IH].
      constructor; [| exact IH]. simpl.
      unfold StreamDiagnostics.uint64. apply Z.mod_pos_bound. lia.
Qed.

(* ================================================================== *)
(** * The further properties on the sample data *)

(** A put, a delete and a put are appended to a started builder. *)
Lemma events_accumulate_in_order_witness :
  StreamProcessor.run
    (env := sample_env) (platform := linux_amd64) (U_raw := sample_raw) (U_intent := sample_intent)
    (U_put := sample_put) (U_delete := accepting_delete)
    (U_goodbye := accepting_goodbye) (U_error := accepting_error)
    (Waiting started_builder) (receive [put_B; delete_A; put_A] ++ []) new_stream
  = prepend (repeat valid_status 3)
      (StreamProcessor.run
         (env := sample_env) (platform := linux_amd64) (U_raw := sample_raw) (U_intent := sample_intent)
         (U_put := sample_put) (U_delete := accepting_delete)
         (U_goodbye := accepting_goodbye) (U_error := accepting_error)
         (Waiting (fold_left add [Put "flag" "B" 1 "{}"; Delete "flag" "A" 2;
                                  Put "flag" "A" 1 "{}"] started_builder))
         [] new_stream).
Proof.
  apply (@events_accumulate_in_order
           linux_amd64 sample_env sample_raw sample_intent sample_put accepting_delete
           accepting_goodbye accepting_error
           [put_B; delete_A; put_A]
           [Put "flag" "B" 1 "{}"; Delete "flag" "A" 2; Put "flag" "A" 1 "{}"]).
  repeat first [apply Forall2_cons | apply Forall2_nil | split | reflexivity].
Defined.

(** A full transfer of one put and one delete on a new processor. *)
Lemma exchange_is_applied_as_announced_witness :
  destination_calls
    (trace (StreamProcessor.run
              (env := sample_env) (platform := linux_amd64) (U_raw := sample_raw) (U_intent := sample_intent)
              (U_put := sample_put) (U_delete := accepting_delete)
              (U_goodbye := accepting_goodbye) (U_error := accepting_error)
              (Waiting started_builder)
              (receive (server_intent_event "intent full"
                        :: [put_B; delete_A]
                        ++ [payload_transferred_event "selector s1 1"]) ++ [])
              new_stream))
  = [SetBasis [change_of (Put "flag" "B" 1 "{}"); change_of (Delete "flag" "A" 2)]
              (NewSelector "s1" 1) true].
Proof.
  rewrite (@exchange_is_applied_as_announced
             linux_amd64 sample_env sample_raw sample_intent sample_put accepting_delete
             accepting_goodbye accepting_error
             started_builder "intent full" "selector s1 1"
             (full_transfer "p1" 1 "payload-missing")
             [put_B; delete_A]
             [Put "flag" "B" 1 "{}"; Delete "flag" "A" 2]
             (NewSelector "s1" 1) new_stream []).
  - reflexivity.
  - reflexivity.
  - discriminate.
  - repeat first [apply Forall2_cons | apply Forall2_nil | split | reflexivity].
  - reflexivity.
  - reflexivity.
Defined.

(** A full transfer of one put, then a delete closed by a second
    payload-transferred event. *)
Lemma second_exchange_is_a_delta_witness :
  destination_calls
    (trace (StreamProcessor.run
              (env := sample_env) (platform := linux_amd64) (U_raw := sample_raw) (U_intent := sample_intent)
              (U_put := sample_put) (U_delete := accepting_delete)
              (U_goodbye := accepting_goodbye) (U_error := accepting_error)
              (Waiting NewChangeSetBuilder)
              (receive (server_intent_event "intent full"
                        :: [put_A] ++ [payload_transferred_event "selector s1 1"])
               ++ receive ([delete_A] ++ [payload_transferred_event "selector s1 1"])
               ++ [])
              new_stream))
  = [SetBasis [change_of (Put "flag" "A" 1 "{}")] (NewSelector "s1" 1) true;
     ApplyDelta [change_of (Delete "flag" "A" 2)] (NewSelector "s1" 1) true].
Proof.
  refine (proj1 (@second_exchange_is_a_delta
                   linux_amd64 sample_env sample_raw sample_intent sample_put accepting_delete
                   accepting_goodbye accepting_error
                   NewChangeSetBuilder "intent full" "selector s1 1" "selector s1 1"
                   "p1" "payload-missing" 1
                   [put_A] [delete_A]
                   [Put "flag" "A" 1 "{}"] [Delete "flag" "A" 2]
                   (NewSelector "s1" 1) (NewSelector "s1" 1) new_stream
                   eq_refl _ eq_refl _ eq_refl eq_refl));
    repeat first [apply Forall2_cons | apply Forall2_nil | split | reflexivity].
Defined.

(** A payload-transferred event as the first event of a stream. *)
Lemma transfer_without_intent_is_refused_witness :
  StreamProcessor.on_event
    (platform := linux_amd64) (U_raw := sample_raw) (U_intent := sample_intent)
    (U_put := sample_put) (U_delete := accepting_delete)
    (U_goodbye := accepting_goodbye) (U_error := accepting_error)
    NewChangeSetBuilder (payload_transferred_event "selector s1 1") new_stream
  = Done NewChangeSetBuilder new_stream
         [UpdateStatus DataSourceStateInterrupted (invalid_data missing_intent_error);
          StreamRestart].
Proof.
  exact (@transfer_without_intent_is_refused
           linux_amd64 sample_raw sample_intent sample_put accepting_delete
           accepting_goodbye accepting_error
           NewChangeSetBuilder "selector s1 1" (NewSelector "s1" 1) new_stream
           eq_refl eq_refl).
Defined.

(** An error event in the middle of a transfer, then payload-transferred. *)
Lemma error_event_abandons_accumulation_witness :
  StreamProcessor.run
    (env := sample_env) (platform := linux_amd64) (U_raw := sample_raw) (U_intent := sample_intent)
    (U_put := sample_put) (U_delete := accepting_delete)
    (U_goodbye := accepting_goodbye) (U_error := accepting_error)
    (Waiting started_builder)
    (receive [ {| StreamProcessor.Name := EventError;
                  StreamProcessor.Data := "error p1" |};
               payload_transferred_event "selector s1 1" ])
    new_stream
  = Done (Waiting NewChangeSetBuilder) new_stream
         [valid_status;
          UpdateStatus DataSourceStateInterrupted (invalid_data missing_intent_error);
          StreamRestart].
Proof.
  exact (proj2 (@error_event_abandons_accumulation
                  linux_amd64 sample_env sample_raw sample_intent sample_put accepting_delete
                  accepting_goodbye accepting_error
                  started_builder "error p1" "selector s1 1"
                  {| ErrorEvent.PayloadID := "p1"; ErrorEvent.Reason := "not found" |}
                  (NewSelector "s1" 1) new_stream [] eq_refl eq_refl)).
Defined.

(** A heartbeat, an unknown event and a goodbye in the middle of a transfer. *)
Lemma passive_events_change_nothing_witness :
  StreamProcessor.run
    (env := sample_env) (platform := linux_amd64) (U_raw := sample_raw) (U_intent := sample_intent)
    (U_put := sample_put) (U_delete := accepting_delete)
    (U_goodbye := accepting_goodbye) (U_error := accepting_error)
    (Waiting started_builder)
    (receive [ {| StreamProcessor.Name := EventHeartbeat; StreamProcessor.Data := "" |};
               {| StreamProcessor.Name := EventUnrecognized "ping";
                  StreamProcessor.Data := "not json" |};
               {| StreamProcessor.Name := EventGoodbye;
                  StreamProcessor.Data := "goodbye" |} ]
     ++ [])
    new_stream
  = Done (Waiting started_builder) new_stream [valid_status; valid_status; valid_status].
Proof.
  rewrite (@passive_events_change_nothing
             linux_amd64 sample_env sample_raw sample_intent sample_put accepting_delete
             accepting_goodbye accepting_error).
  - reflexivity.
  - repeat apply Forall_cons; try apply Forall_nil; try exact I.
    eexists. reflexivity.
Defined.

(** A put-object event that does not parse, on a new processor. *)
Lemma one_status_per_event_witness :
  completes
    (StreamProcessor.on_event
       (platform := linux_amd64) (U_raw := sample_raw) (U_intent := sample_intent)
       (U_put := sample_put) (U_delete := accepting_delete)
       (U_goodbye := accepting_goodbye) (U_error := accepting_error)
       started_builder
       {| StreamProcessor.Name := EventPutObject; StreamProcessor.Data := "put" |}
       new_stream)
    (fun b' s' tr =>
       (status_updates tr = [(DataSourceStateValid, no_error)]
        /\ filter is_StreamRestart tr = [])
       \/ (exists err,
              tr = [UpdateStatus DataSourceStateInterrupted (invalid_data err);
                    StreamRestart]
              /\ b' = NewChangeSetBuilder /\ s' = new_stream)).
Proof.
  exact (@one_status_per_event
           linux_amd64 sample_raw sample_intent sample_put accepting_delete
           accepting_goodbye accepting_error
           started_builder
           {| StreamProcessor.Name := EventPutObject; StreamProcessor.Data := "put" |}
           new_stream eq_refl).
Defined.

(** The first successful poll of a new processor, with a full transfer. *)
Lemma successful_poll_applies_and_initializes_witness :
  completes
    (PollingProcessor.Sync_select
       (env := sample_env)
       (PollingProcessor.RecvTick
          (Ok {| intentCode := IntentTransferFull;
                 changes := [change_of (Put "flag" "A" 1 "{}")];
                 selector := NewSelector "s1" 1 |}))
       PollingProcessor.newPollingProcessor)
    (fun l s' tr =>
       l = Waiting tt
       /\ tr = [SetBasis [change_of (Put "flag" "A" 1 "{}")] (NewSelector "s1" 1) true;
                valid_status; ReadyFired]
       /\ PollingProcessor.setInitializedOnce s' = true
       /\ PollingProcessor.isInitialized s' = true
       /\ PollingProcessor.closeWhenReady s' = true
       /\ PollingProcessor.quit s' = false
       /\ PollingProcessor.closeOnce s' = false).
Proof.
  exact (@successful_poll_applies_and_initializes
           sample_env
           {| intentCode := IntentTransferFull;
              changes := [change_of (Put "flag" "A" 1 "{}")];
              selector := NewSelector "s1" 1 |}
           PollingProcessor.newPollingProcessor eq_refl).
Defined.

(** A 503, a malformed response and a timeout, polled one after the other. *)
Lemma failed_polls_are_reported_and_survived_witness :
  PollingProcessor.run
    (env := sample_env) (Waiting tt)
    (failed_ticks [httpStatusError "service unavailable" 503;
                   malformedJSONError "unexpected end of JSON input";
                   errorString "timeout"])
    PollingProcessor.newPollingProcessor
  = Done (Waiting tt) PollingProcessor.newPollingProcessor
         [UpdateStatus DataSourceStateInterrupted (error_response 503);
          UpdateStatus DataSourceStateInterrupted
            (invalid_data (malformedJSONError "unexpected end of JSON input"));
          UpdateStatus DataSourceStateInterrupted
            {| interfaces.Kind := DataSourceErrorKindNetworkError; StatusCode := 0;
               Message := Error (errorString "timeout") |}].
Proof.
  exact (@failed_polls_are_reported_and_survived
           sample_env
           [httpStatusError "service unavailable" 503;
            malformedJSONError "unexpected end of JSON input";
            errorString "timeout"]
           PollingProcessor.newPollingProcessor eq_refl).
Defined.

(** The request for the selector (s1, 1) without a filter key. *)
Lemma basis_is_attached_without_filter_witness :
  StreamProcessor.subscribe_request (env := sample_env) sample_config None
                                    (NewSelector "s1" 1)
  = Ok {| http.Method := "GET";
          http.URL := {| url.Location := "http://localhost:8765/sdk/stream";
                         url.RawQuery := "basis=s1"; url.Fragment := "" |};
          http.Header_ := [] |}
  /\ url.Get "basis=s1" "basis" = Some "s1".
Proof.
  split; [reflexivity|].
  refine (proj1 (proj2 (proj2 (@basis_is_attached_without_filter
                          sample_env sample_config None (NewSelector "s1" 1)
                          {| http.Method := "GET";
                             http.URL :=
                               {| url.Location := "http://localhost:8765/sdk/stream";
                                  url.RawQuery := "basis=s1"; url.Fragment := "" |};
                             http.Header_ := [] |}
                          eq_refl _ _ _ _ eq_refl))));
    unfold lacks; simpl; intuition discriminate.
Defined.

(** A 401 on reconnection after two refused connections: the loop returns
    and the ready channel stays open. *)
Lemma failed_reconnects_leave_ready_unfired_witness :
  StreamProcessor.run
    (env := sample_env) (platform := linux_amd64) (U_raw := sample_raw) (U_intent := sample_intent)
    (U_put := sample_put) (U_delete := accepting_delete)
    (U_goodbye := accepting_goodbye) (U_error := accepting_error)
    (Waiting started_builder)
    [StreamProcessor.ConnectionFails (SubscriptionError 401 "unauthorized");
     StreamProcessor.Selects StreamProcessor.EventsClosed]
    new_stream
  = Done Returned new_stream [UpdateStatus DataSourceStateOff (error_response 401)].
Proof.
  exact (proj2 (@failed_reconnects_leave_ready_unfired
                  linux_amd64 sample_env sample_raw sample_intent sample_put accepting_delete
                  accepting_goodbye accepting_error
                  [] (Waiting started_builder) new_stream [] started_builder 401
                  "unauthorized")
               eq_refl).
Defined.

(** A base URI with a blank cannot be made into a request. *)
Lemma setup_failure_ends_Sync_witness :
  StreamProcessor.Sync
    (env := sample_env) (platform := linux_amd64) (U_raw := sample_raw) (U_intent := sample_intent)
    (U_put := sample_put) (U_delete := accepting_delete)
    (U_goodbye := accepting_goodbye) (U_error := accepting_error)
    NoSelector sample_connection (map StreamProcessor.Selects sample_events)
    (StreamProcessor.NewStreamProcessor
       {| StreamProcessor.URI := "http://local host";
          StreamProcessor.InitialReconnectDelay := 0;
          StreamProcessor.FilterKey := "" |} None)
  = Done Returned
         (StreamProcessor.set_closeWhenReady true
            (StreamProcessor.NewStreamProcessor
               {| StreamProcessor.URI := "http://local host";
                  StreamProcessor.InitialReconnectDelay := 0;
                  StreamProcessor.FilterKey := "" |} None))
         [UpdateStatus DataSourceStateOff
            {| interfaces.Kind := DataSourceErrorKindUnknown; StatusCode := 0;
               Message := "invalid character in URL" |};
          ReadyFired].
Proof.
  exact (proj1 (@setup_failure_ends_Sync
                  linux_amd64 sample_env sample_raw sample_intent sample_put accepting_delete
                  accepting_goodbye accepting_error
                  {| StreamProcessor.URI := "http://local host";
                     StreamProcessor.InitialReconnectDelay := 0;
                     StreamProcessor.FilterKey := "" |}
                  None NoSelector sample_connection sample_events)
               (errorString "invalid character in URL") eq_refl).
Defined.

(** The relay proxy's URI survives a later call with empty endpoints. *)
Lemma WithEndpoints_keeps_endpoints_set_witness :
  ldcomponents.Endpoints.Streaming
    (ldcomponents.endpoints
       (ldcomponents.WithEndpoints
          (ldcomponents.WithRelayProxyEndpoints
             (ldcomponents.DataSystem "https://stream.launchdarkly.com"
                                      "https://sdk.launchdarkly.com")
             "http://localhost:8123")
          {| ldcomponents.Endpoints.Streaming := "";
             ldcomponents.Endpoints.Polling := "https://sdk.launchdarkly.com" |}))
  = "http://localhost:8123".
Proof.
  exact (proj1 (proj2 (proj2 (@WithEndpoints_keeps_endpoints_set
                                nat nat 0%nat 0%nat (fun b _ => b) (fun b _ => b)
                                []
                                (ldcomponents.WithRelayProxyEndpoints
                                   (ldcomponents.DataSystem
                                      "https://stream.launchdarkly.com"
                                      "https://sdk.launchdarkly.com")
                                   "http://localhost:8123")
                                {| ldcomponents.Endpoints.Streaming := "";
                                   ldcomponents.Endpoints.Polling :=
                                     "https://sdk.launchdarkly.com" |})))
               eq_refl).
Defined.

(** The default mode with a streaming builder that fails: the polling
    builder is called as initializer, then the streaming builder, whose
    error [Build] returns; the polling builder is not called as secondary. *)
Lemma predefined_modes_are_well_formed_witness :
  ldcomponents.calls
    (ldcomponents.Build
       (ldcomponents.Default
          string "stream" "poll" (fun _ uri => uri) (fun _ uri => uri)
          (fun _ => failing_synchronizer) (fun _ => sample_synchronizer)
          (fun _ => sample_initializer)
          (ldcomponents.DataSystem "https://stream.launchdarkly.com"
                                   "https://sdk.launchdarkly.com"))
       tt 0%nat)
  = [ {| ldcomponents.slot := ldcomponents.SlotInitializer 0;
         ldcomponents.failure := None |};
      {| ldcomponents.slot := ldcomponents.SlotPrimary;
         ldcomponents.failure := Some (errorString "no such endpoint") |} ]
  /\ ldcomponents.built
       (ldcomponents.Build
          (ldcomponents.Default
             string "stream" "poll" (fun _ uri => uri) (fun _ uri => uri)
             (fun _ => failing_synchronizer) (fun _ => sample_synchronizer)
             (fun _ => sample_initializer)
             (ldcomponents.DataSystem "https://stream.launchdarkly.com"
                                      "https://sdk.launchdarkly.com"))
          tt 0%nat)
     = subsystems.empty_DataSystemConfiguration.
Proof.
  split; [reflexivity|].
  pose proof (Forall_inv
                (proj2 (@predefined_modes_are_well_formed
                          unit nat string string string string string
                          "stream" "poll" (fun _ uri => uri) (fun _ uri => uri)
                          (fun _ => failing_synchronizer) (fun _ => sample_synchronizer)
                          (fun _ => sample_initializer)
                          (ldcomponents.DataSystem "https://stream.launchdarkly.com"
                                                   "https://sdk.launchdarkly.com")
                          sample_store tt 0%nat))) as H.
  exact (proj1 (proj2 (proj2 (proj2 (proj2 (proj2 H))))
                      (errorString "no such endpoint") eq_refl)).
Defined.
